(** * scipp-plot-test: dispatch of labelled arrays to plotting routines

    A shallow embedding of [src/plot/config.py], [src/plot/tools.py],
    [src/plot/dispatch.py] and [src/plot/plot.py], followed by the
    properties of the routing and style-resolution logic.

    Conventions of the embedding.
    - A Python [str] is a Rocq [string] holding its UTF-8 bytes, so the
      byte-wise lexicographic order of [String.compare] is Python's
      code-point order.
    - A Python [int] is a [Z]; [bool] is kept apart ([PBool]) but counts
      as an [int] for [isinstance], as in Python.
    - A numeric array is a list of scalars whose arithmetic is a
      parameter ([Scalar]), as numpy takes it from the dtype of the
      array: exact rationals and IEEE binary64 are the two instances
      given. The values that a variable carries are never computed on
      and are kept as rationals. The number formatting of
      [value_to_string] is stated over an abstract type of floats.
    - A [dict] is an association list in insertion order with unique
      keys; assignment updates in place or appends.
    - A raised exception is the [Raise] outcome of [result]. *)

From Stdlib Require Import String Ascii ZArith List Bool Arith Lia.
From Stdlib Require Import NArith QArith Qabs Lqa DecimalString.
From Stdlib Require Import Floats.PrimFloat.
From Stdlib Require Import Permutation Sorted.
Import ListNotations.

Set Warnings "-register-all".

Open Scope string_scope.
Open Scope Z_scope.

(** ** Python runtime: exceptions, values, dictionaries *)

Module Py.

Inductive exn : Type :=
| RuntimeError (msg : string)
| NameError (name : string)
| AttributeError (attr : string)
| KeyError (key : string)
| IndexError
| TypeError
| ValueError
| ZeroDivisionError
| OverflowError.

Inductive result (A : Type) : Type :=
| Ok (a : A)
| Raise (e : exn).

Arguments Ok {A} a.
Arguments Raise {A} e.

Definition bind {A B : Type} (m : result A) (k : A -> result B) : result B :=
  match m with
  | Ok a => k a
  | Raise e => Raise e
  end.

Definition raises {A : Type} (m : result A) : Prop :=
  exists e, m = Raise e.

(** Values that travel through keyword arguments and the config. [PObj]
    stands for an object built by an external constructor (a matplotlib
    norm or colormap), recorded as the constructor call. *)
Inductive pyval : Type :=
| PNone
| PBool (b : bool)
| PInt (z : Z)
| PFloat (q : Q)
| PStr (s : string)
| PList (l : list pyval)
| PDict (d : list (string * pyval))
| PObj (ctor : string) (args : list pyval).

(** [isinstance(v, int)]: [bool] is a subclass of [int]. *)
Definition int_value (v : pyval) : option Z :=
  match v with
  | PInt z => Some z
  | PBool true => Some 1
  | PBool false => Some 0
  | _ => None
  end.

(** Truth value of an object in a condition. *)
Definition truthy (v : pyval) : bool :=
  match v with
  | PNone => false
  | PBool b => b
  | PInt z => negb (z =? 0)
  | PFloat q => negb (Qeq_bool q 0)
  | PStr s => negb (String.eqb s "")
  | PList l => match l with [] => false | _ => true end
  | PDict d => match d with [] => false | _ => true end
  | PObj _ _ => true
  end.

Definition is_none (v : pyval) : bool :=
  match v with PNone => true | _ => false end.

(** Dictionaries with string keys, in insertion order. *)
Definition dict (V : Type) : Type := list (string * V).

Fixpoint dict_get {V : Type} (d : dict V) (k : string) : option V :=
  match d with
  | [] => None
  | (k', v) :: d' => if String.eqb k k' then Some v else dict_get d' k
  end.

Definition dict_mem {V : Type} (d : dict V) (k : string) : bool :=
  match dict_get d k with Some _ => true | None => false end.

(** [d[k] = v]: an existing key keeps its position, a new key goes last. *)
Fixpoint dict_set {V : Type} (d : dict V) (k : string) (v : V) : dict V :=
  match d with
  | [] => [(k, v)]
  | (k', v') :: d' =>
      if String.eqb k k' then (k', v) :: d' else (k', v') :: dict_set d' k v
  end.

Definition dict_keys {V : Type} (d : dict V) : list string := map fst d.

(** [d[k]] as an expression. *)
Definition dict_item {V : Type} (d : dict V) (k : string) : result V :=
  match dict_get d k with
  | Some v => Ok v
  | None => Raise (KeyError k)
  end.

(** [seq[i]] on a list: negative indices count from the end. *)
Definition list_item {A : Type} (l : list A) (i : Z) : result A :=
  let n := Z.of_nat (length l) in
  let j := if i <? 0 then i + n else i in
  if (j <? 0) || (n <=? j) then Raise IndexError
  else match nth_error l (Z.to_nat j) with
       | Some a => Ok a
       | None => Raise IndexError
       end.

(** [len(v)]. *)
Definition py_len (v : pyval) : result Z :=
  match v with
  | PStr s => Ok (Z.of_nat (String.length s))
  | PList l => Ok (Z.of_nat (length l))
  | PDict d => Ok (Z.of_nat (length d))
  | _ => Raise TypeError
  end.

(** [a % b] on integers: the sign of the result follows the divisor. *)
Definition py_mod (a b : Z) : result Z :=
  if b =? 0 then Raise ZeroDivisionError else Ok (a mod b).

(** [v[i]] with an integer subscript. A [dict] here has string keys
    only, so an integer subscript is never found. *)
Definition py_getitem (v : pyval) (i : Z) : result pyval :=
  match v with
  | PList l => list_item l i
  | PStr s =>
      match list_item (list_ascii_of_string s) i with
      | Ok c => Ok (PStr (String c EmptyString))
      | Raise e => Raise e
      end
  | PDict _ => Raise (KeyError (NilZero.string_of_int (Z.to_int i)))
  | _ => Raise TypeError
  end.

(** [str(x)] for a value that is a string or [None]. *)
Definition str_opt (s : option string) : string :=
  match s with
  | Some s => s
  | None => "None"
  end.

(** ["{}".format(n)] for an integer. *)
Definition str_int (n : Z) : string := NilZero.string_of_int (Z.to_int n).

(** [s.lower()], exact on ASCII text: the letters A to Z are lowercased
    and every other byte is kept, where [str.lower] also lowercases the
    cased letters outside ASCII. No character outside ASCII lowercases
    to a digit or to the letter d, so the comparisons that [dispatch]
    makes with the result come out as in Python for every text; the
    lowercased text itself is Python's for ASCII text ([is_ascii]). *)
Definition lower_ascii (c : ascii) : ascii :=
  let n := nat_of_ascii c in
  if ((65 <=? n) && (n <=? 90))%nat then ascii_of_nat (n + 32) else c.

Fixpoint lower (s : string) : string :=
  match s with
  | EmptyString => EmptyString
  | String c s' => String (lower_ascii c) (lower s')
  end.

(** All bytes of [s] are ASCII. *)
Definition is_ascii (s : string) : bool :=
  forallb (fun c => (nat_of_ascii c <? 128)%nat) (list_ascii_of_string s).

End Py.

Export Py.

Notation "x <- m ;; k" := (bind m (fun x => k))
  (at level 61, m at next level, right associativity).

(** ** config.py *)

Module Config.

Definition config : dict pyval :=
  [ ("color",
     PList [ PStr "#1f77b4"; PStr "#ff7f0e"; PStr "#2ca02c"; PStr "#d62728";
             PStr "#9467bd"; PStr "#8c564b"; PStr "#e377c2"; PStr "#7f7f7f";
             PStr "#bcbd22"; PStr "#17becf" ]);
    ("params",
     PDict [ ("cmap", PStr "viridis"); ("log", PBool false);
             ("vmin", PNone); ("vmax", PNone); ("color", PNone);
             ("show", PBool true); ("cbar", PBool true); ("norm", PNone) ]);
    ("height", PInt 533);
    ("width", PInt 800);
    ("dpi", PInt 96);
    ("aspect", PStr "auto");
    ("marker",
     PList [ PStr "o"; PStr "^"; PStr "s"; PStr "d"; PStr "*"; PStr "1";
             PStr "P"; PStr "h"; PStr "X"; PStr "v"; PStr "<"; PStr ">";
             PStr "2"; PStr "3"; PStr "4"; PStr "8"; PStr "p"; PStr "H";
             PStr "+"; PStr "x"; PStr "D" ]);
    ("linewidth", PList [ PFloat (3 # 2) ]);
    ("linestyle", PList [ PStr "none" ]) ].

End Config.

(** ** tools.py: default line parameters *)

Module Tools.

Import Config.

(** [get_line_param(name, index)]: [config[name][index % len(config[name])]]. *)
Definition get_line_param (name : string) (index : Z) : result pyval :=
  param <- dict_item config name ;;
  n <- py_len param ;;
  k <- py_mod index n ;;
  py_getitem param k.

(** *** Centers and edges

    [x] is a one-dimensional numpy array. Its elements, the Python
    floats [0.5], [2.0] and [0.0] of the source and every intermediate
    result are scalars of one type [A]; sum, difference, product, [abs]
    and [==] are those that numpy applies for the dtype of the array.
    They are the fields of [Scalar]: no law is assumed of them, so what
    is proved for every [Scalar] holds with rounding, overflow and
    wrap-around. *)
Class Scalar (A : Type) : Type := {
  sc_add : A -> A -> A;
  sc_sub : A -> A -> A;
  sc_mul : A -> A -> A;
  sc_abs : A -> A;
  sc_eqb : A -> A -> bool;
  sc_half : A;
  sc_two : A;
  sc_zero : A
}.

(** Exact arithmetic on the rationals. *)
#[export] Instance rational : Scalar Q := {|
  sc_add := Qplus;
  sc_sub := Qminus;
  sc_mul := Qmult;
  sc_abs := Qabs;
  sc_eqb := Qeq_bool;
  sc_half := 1 # 2;
  sc_two := 2 # 1;
  sc_zero := 0 # 1
|}.

(** IEEE 754 binary64, the arithmetic of a [float64] array and of
    Python floats. *)
#[export] Instance binary64 : Scalar float := {|
  sc_add := PrimFloat.add;
  sc_sub := PrimFloat.sub;
  sc_mul := PrimFloat.mul;
  sc_abs := PrimFloat.abs;
  sc_eqb := PrimFloat.eqb;
  sc_half := 0.5%float;
  sc_two := 2%float;
  sc_zero := 0%float
|}.

Section CentersAndEdges.

Context {A : Type} `{Scalar A}.

(** [x[1:]] is [tl x], [x[:-1]] is [removelast x]; sum and scaling act
    element by element. *)
Definition vadd (a b : list A) : list A :=
  map (fun p => sc_add (fst p) (snd p)) (combine a b).

Definition vscale (c : A) (a : list A) : list A :=
  map (fun v => sc_mul c v) a.

(** [0.5 * (x[1:] + x[:-1])]. *)
Definition edges_to_centers (x : list A) : list A :=
  vscale sc_half (vadd (tl x) (removelast x)).

Definition centers_to_edges (x : list A) : result (list A) :=
  if (Z.of_nat (length x) <? 2) then
    x0 <- list_item x 0 ;;
    let dx := sc_mul sc_half (sc_abs x0) in
    let dx := if sc_eqb dx sc_zero then sc_half else dx in
    Ok [ sc_sub x0 dx; sc_add x0 dx ]
  else
    let e := edges_to_centers x in
    x0 <- list_item x 0 ;;
    e0 <- list_item e 0 ;;
    xl <- list_item x (-1) ;;
    el <- list_item e (-1) ;;
    Ok ([ sc_sub (sc_mul sc_two x0) e0 ] ++ e
        ++ [ sc_sub (sc_mul sc_two xl) el ])%list.

End CentersAndEdges.

(** An array of rationals is equally spaced: each interior element is
    the mean of its two neighbours. *)
Fixpoint evenly_spaced (x : list Q) : bool :=
  match x with
  | [] => true
  | a :: t =>
      match t with
      | b :: c :: _ => Qeq_bool (a + c) (2 * b) && evenly_spaced t
      | _ => true
      end
  end.

(** *** Variable-like records

    The fields of a Variable-like dict, as [make_fake_coord] builds it. *)
Record variable : Type := mk_variable {
  v_dims : list string;
  v_shape : list Z;
  v_values : list Q;
  v_variances : option (list Q);
  v_unit : option string;
  v_dtype : string
}.

(** [np.arange(size)]. *)
Definition arange (size : Z) : list Q :=
  map (fun n => inject_Z (Z.of_nat n)) (seq 0 (Z.to_nat size)).

Definition make_fake_coord (dim : string) (size : Z) (unit : option string)
  : variable :=
  {| v_dims := [dim]; v_shape := [size]; v_values := arange size;
     v_variances := None; v_unit := unit; v_dtype := "int" |}.

(** *** Colorbar parameters

    [parse_params] works on dict objects that live in a store: the
    dict held by [config["params"]] and the dicts allocated by the
    calls. A [ref] names one of them; two names for one object share
    its updates. *)
Record store : Type := mk_store {
  config_params : dict pyval;
  locals : list (dict pyval)
}.

Inductive ref : Type :=
| ConfigParams
| Local (n : nat).

Definition M (A : Type) : Type := store -> result A * store.

Definition ret {A : Type} (a : A) : M A := fun s => (Ok a, s).

Definition throw {A : Type} (e : exn) : M A := fun s => (Raise e, s).

Definition bindM {A B : Type} (m : M A) (k : A -> M B) : M B :=
  fun s =>
    match m s with
    | (Ok a, s') => k a s'
    | (Raise e, s') => (Raise e, s')
    end.

Definition lift {A : Type} (r : result A) : M A := fun s => (r, s).

Notation "x <~ m ;; k" := (bindM m (fun x => k))
  (at level 61, m at next level, right associativity).

Fixpoint list_update {A : Type} (l : list A) (n : nat) (a : A) : list A :=
  match l, n with
  | [], _ => []
  | _ :: t, O => a :: t
  | h :: t, S n' => h :: list_update t n' a
  end.

(** The dict a reference names. *)
Definition load (r : ref) : M (dict pyval) :=
  fun s =>
    match r with
    | ConfigParams => (Ok (config_params s), s)
    | Local n => (Ok (nth n (locals s) []), s)
    end.

(** Replace the contents of the dict a reference names. *)
Definition save (r : ref) (d : dict pyval) : M unit :=
  fun s =>
    match r with
    | ConfigParams => (Ok tt, mk_store d (locals s))
    | Local n => (Ok tt, mk_store (config_params s) (list_update (locals s) n d))
    end.

(** [dict(d)]: a new object with the same bindings. *)
Definition new_dict (d : dict pyval) : M ref :=
  fun s =>
    (Ok (Local (length (locals s))),
     mk_store (config_params s) (locals s ++ [d])%list).

(** [r[k]]. *)
Definition getitem (r : ref) (k : string) : M pyval :=
  d <~ load r ;; lift (dict_item d k).

(** [r[k] = v]. *)
Definition setitem (r : ref) (k : string) (v : pyval) : M unit :=
  d <~ load r ;; save r (dict_set d k v).

(** [for key, val in items: r[key] = val], skipping [None] when
    [skip_none] is set (the global parameters). *)
Fixpoint update_items (r : ref) (skip_none : bool) (items : dict pyval)
  : M unit :=
  match items with
  | [] => ret tt
  | (key, val) :: rest =>
      _ <~ (if skip_none && is_none val then ret tt else setitem r key val) ;;
      update_items r skip_none rest
  end.

Section ParseParams.

(** numpy masked arrays, the built-ins [min] and [max], the float
    power [10.0 ** v] and [LinearSegmentedColormap.from_list] are taken
    as given. The reductions [valid.min()] and [valid.max()] raise on an
    array without elements, the built-ins and the power on operands
    they do not accept, [from_list] on a value that is not a colour. *)
Variable masked : Type.
Variables ma_log10 ma_masked_invalid : list Q -> masked.
Variables ma_min ma_max : masked -> result pyval.
Variables py_min py_max : pyval -> pyval -> result pyval.
Variable pow10 : pyval -> result pyval.
Variable from_list : string -> list pyval -> result pyval.

Definition _find_min_max (array : list Q) (params : ref) : M unit :=
  need_valid <~ (v <~ getitem params "vmin" ;;
                 if is_none v then ret true
                 else w <~ getitem params "vmax" ;; ret (is_none w)) ;;
  valid <~ (if need_valid : bool then
              l <~ getitem params "log" ;;
              ret (Some (if truthy l then ma_log10 array
                         else ma_masked_invalid array))
            else ret None) ;;
  v <~ getitem params "vmin" ;;
  _ <~ (if is_none v then
          match valid with
          | Some m => a <~ lift (ma_min m) ;; setitem params "vmin" a
          | None => throw (NameError "valid")
          end
        else ret tt) ;;
  w <~ getitem params "vmax" ;;
  if is_none w then
    match valid with
    | Some m => a <~ lift (ma_max m) ;; setitem params "vmax" a
    | None => throw (NameError "valid")
    end
  else ret tt.

(** [parse_params(params, defaults, globs, variable, array, min_val,
    max_val)]; the result is the reference to the dict [parsed]. *)
Definition parse_params (params : pyval) (defaults globs : option (dict pyval))
    (variable : option variable) (array : option (list Q))
    (min_val max_val : pyval) : M ref :=
  cfg <~ load ConfigParams ;;
  parsed <~ new_dict cfg ;;
  _ <~ match defaults with
       | Some d => update_items parsed false d
       | None => ret tt
       end ;;
  _ <~ match globs with
       | Some g => update_items parsed true g
       | None => ret tt
       end ;;
  _ <~ match params with
       | PNone => ret tt
       | PBool b => update_items parsed false [("show", PBool b)]
       | PDict d => update_items parsed false d
       | _ => throw (AttributeError "items")
       end ;;
  need_norm <~ match variable with
               | Some v => _ <~ _find_min_max (v_values v) parsed ;; ret true
               | None => ret false
               end ;;
  need_norm <~ match array with
               | Some a => _ <~ _find_min_max a parsed ;; ret true
               | None => ret need_norm
               end ;;
  _ <~ (if need_norm : bool then
          _ <~ (if is_none min_val then ret tt
                else v <~ getitem parsed "vmin" ;;
                     m <~ lift (py_min v min_val) ;;
                     setitem parsed "vmin" m) ;;
          _ <~ (if is_none max_val then ret tt
                else v <~ getitem parsed "vmax" ;;
                     m <~ lift (py_max v max_val) ;;
                     setitem parsed "vmax" m) ;;
          l <~ getitem parsed "log" ;;
          norm <~ (if truthy l then
                     v <~ getitem parsed "vmin" ;;
                     lo <~ lift (pow10 v) ;;
                     w <~ getitem parsed "vmax" ;;
                     hi <~ lift (pow10 w) ;;
                     ret (PObj "LogNorm" [lo; hi])
                   else
                     v <~ getitem parsed "vmin" ;;
                     w <~ getitem parsed "vmax" ;;
                     ret (PObj "Normalize" [v; w])) ;;
          setitem parsed "norm" norm
        else ret tt) ;;
  c <~ getitem parsed "color" ;;
  _ <~ (if is_none c then ret tt
        else c1 <~ getitem parsed "color" ;;
             c2 <~ getitem parsed "color" ;;
             cmap <~ lift (from_list "tmp" [c1; c2]) ;;
             setitem parsed "cmap" cmap) ;;
  ret parsed.

End ParseParams.

(** *** Number formatting

    Python floats and the formatting built-ins are taken as given: [F]
    is the type of floats, [O] the type of all other objects, and the
    text that [value_to_string] returns is the formatting expression it
    selects. The text of [str(val)] for a float is needed to measure it.
    The power [10.0 ** k] raises [OverflowError] when the result is
    beyond the largest float. *)
Section ValueToString.

Variables F O : Type.
Variable fabs : F -> F.
Variable fleb : F -> F -> bool.
Variable is_zero : F -> bool.
Variable pow10 : Z -> result F.
Variable str_float : F -> string.

(** [precision] is a number of digits, a natural number. *)
Inductive value : Type :=
| VFloat (f : F)
| VOther (o : O).

Inductive text : Type :=
| Str (val : value)
| FormatE (f : F) (prec : nat)
| FormatF (f : F) (prec : nat).

Definition value_to_string (val : value) (precision : nat) : result text :=
  match val with
  | VOther _ => Ok (Str val)
  | VFloat f =>
      if is_zero f then Ok (Str val)
      else
        extreme <- (hi <- pow10 (Z.of_nat precision + 1) ;;
                    if fleb hi (fabs f) then Ok true
                    else lo <- pow10 (- Z.of_nat precision - 1) ;;
                         Ok (fleb (fabs f) lo)) ;;
        if extreme : bool then Ok (FormatE f precision)
        else
          let t := str_float f in
          c <- list_item (list_ascii_of_string t) 0 ;;
          let minus := if Ascii.eqb c "-"%char then 1 else 0 in
          if Z.of_nat precision + 2 + minus <? Z.of_nat (String.length t)
          then Ok (FormatF f precision)
          else Ok (Str val)
  end.

End ValueToString.

Arguments VFloat {F O} f.
Arguments VOther {F O} o.
Arguments Str {F O} val.
Arguments FormatE {F O} f prec.
Arguments FormatF {F O} f prec.
Arguments value_to_string {F O} fabs fleb is_zero pow10 str_float val precision.

End Tools.

(** ** dispatch.py *)

Module Dispatch.

(** A global name that no import or definition of the module binds:
    evaluating it raises [NameError]. *)
Definition unbound {A : Type} (name : string) : result A :=
  Raise (NameError name).

Section Dispatch.

(** [dispatch] looks neither into the objects it routes ([D]), nor into
    the line parameters ([L]), nor into the keyword arguments ([K]). *)
Variables D L K : Type.

(** Modelled from the spec: the modules [plot_1d] and [plot_2d] are not
    among the sources; the spec names them as the plotting routines that
    the data is delegated to. A [call] is the routine that [dispatch]
    hands over to, with the arguments it passes. *)
Inductive call : Type :=
| plot_1d (data_arrays : dict D) (mpl_line_params : option L) (kwargs : K)
| plot_2d (data_arrays : dict D) (kwargs : K).

(** The imports of [plot_3d] and [histogram_events_data] are commented
    out in dispatch.py, and nothing else binds the two names. *)
Definition plot_3d (data_arrays : dict D) (kwargs : K) : result call :=
  unbound "plot_3d".

Definition histogram_events_data (obj : D) (dim : string) (bn : pyval)
  : result D :=
  unbound "histogram_events_data".

(** [for dim, bn in bins.items(): obj = histogram_events_data(obj, dim, bn)]. *)
Fixpoint histogram_bins (obj : D) (bins : dict pyval) : result D :=
  match bins with
  | [] => Ok obj
  | (dim, bn) :: rest =>
      o <- histogram_events_data obj dim bn ;;
      histogram_bins o rest
  end.

(** The loop over [data_arrays.items()] that fills [events_dict]. *)
Fixpoint histogram_all (items : dict D) (bins : dict pyval)
    (events_dict : dict D) : result (dict D) :=
  match items with
  | [] => Ok events_dict
  | (key, obj) :: rest =>
      o <- histogram_bins obj bins ;;
      histogram_all rest bins (dict_set events_dict key o)
  end.

Definition dispatch (data_arrays : dict D) (ndim : Z) (name : option string)
    (collapse : pyval) (bins : option (dict pyval))
    (projection : option string) (mpl_line_params : option L) (kwargs : K)
  : result call :=
  if ndim <? 1 then
    Raise (RuntimeError
             ("Invalid number of dimensions for plotting: " ++ str_int ndim))
  else
    data_arrays <- match bins with
                   | Some b => histogram_all data_arrays b []
                   | None => Ok data_arrays
                   end ;;
    let projection :=
      match projection with
      | None => if ndim <? 3 then str_int ndim ++ "d" else "2d"
      | Some p => p
      end in
    let projection := lower projection in
    if (projection =? "1d")%string then Ok (plot_1d data_arrays mpl_line_params kwargs)
    else if (projection =? "2d")%string then Ok (plot_2d data_arrays kwargs)
    else if (projection =? "3d")%string then plot_3d data_arrays kwargs
    else Raise (RuntimeError
                  ("Wrong projection type. Expected either '2d' or '3d', got "
                   ++ projection ++ ".")).

End Dispatch.

Arguments plot_1d {D L K} data_arrays mpl_line_params kwargs.
Arguments plot_2d {D L K} data_arrays kwargs.
Arguments dispatch {D L K} data_arrays ndim name collapse bins projection
  mpl_line_params kwargs.

End Dispatch.

(** ** plot.py *)

Module Plot.

Import Tools Dispatch.

(** A DataArray-like dict: the data variable with its coordinates,
    masks and attributes. [da_toplevel] holds the keys of a Variable-like
    input that [plot] copies next to them. *)
Record data_array : Type := mk_data_array {
  da_data : variable;
  da_coords : dict variable;
  da_masks : dict variable;
  da_attrs : dict variable;
  da_toplevel : option variable
}.

(** The dicts that [plot] is given, by the keys they hold:
    - [DataArrayLike name da]: the keys of a data array, [coords] and
      [data] among them, and the key [name] when [name] is given;
    - [VariableLike v]: the keys of a variable, [dims], [shape] and
      [values] among them, and not [coords];
    - [VariableNoShape dims values]: the keys [dims] and [values] of a
      variable, without [shape] and without [coords];
    - [DatasetLike items]: a dict from names to data arrays. Its keys
      are the names, so [plot] tests the names themselves for the keys
      of a data array or of a variable. *)
Inductive plot_input : Type :=
| DataArrayLike (name : option string) (da : data_array)
| VariableLike (v : variable)
| VariableNoShape (dims : list string) (values : list Q)
| DatasetLike (items : dict data_array).

(** The [axes] argument: a list of labels, or a dict from dimensions to
    labels. *)
Inductive axes_arg : Type :=
| AxesList (labels : list string)
| AxesDict (labels : dict string).

(** One entry of [tobeplotted]. *)
Record group : Type := mk_group {
  ndims : Z;
  data_arrays : dict data_array;
  axes : option axes_arg;
  mpl_line_params : dict (dict pyval)
}.

(** [set(ks).issubset(set(d.keys()))]. *)
Definition issubset {V : Type} (ks : list string) (d : dict V) : bool :=
  forallb (dict_mem d) ks.

(** The test of the first branch: the keys of a data array. *)
Definition data_array_keys {V : Type} (d : dict V) : bool :=
  issubset ["coords"; "data"] d || issubset ["coords"; "unaligned"] d.

(** The test of the second branch: the keys of a variable. *)
Definition variable_keys {V : Type} (d : dict V) : bool :=
  issubset ["dims"; "values"] d || issubset ["dims"; "shape"] d.

(** The inventory that [plot] builds from [dict_obj], lines 33 to 51.
    For a dict of data arrays whose names pass the first test,
    [dict_obj["name"]] is a missing key or else a dict, which cannot be
    the key of [inventory]; when they pass the second test,
    [dict_obj["shape"]] is a missing key or else a dict, whose first key
    [np.arange] does not take as a size. *)
Definition inventory_of (dict_obj : plot_input) : result (dict data_array) :=
  match dict_obj with
  | DataArrayLike name da =>
      match name with
      | Some name => Ok (dict_set [] name da)
      | None => Raise (KeyError "name")
      end
  | VariableLike v =>
      let coords :=
        fold_left (fun coords ds =>
                     dict_set coords (fst ds) (make_fake_coord (fst ds) (snd ds) None))
                  (combine (v_dims v) (v_shape v)) [] in
      Ok (dict_set [] "variable"
            {| da_data := v; da_coords := coords; da_masks := [];
               da_attrs := []; da_toplevel := Some v |})
  | VariableNoShape _ _ => Raise (KeyError "shape")
  | DatasetLike items =>
      if data_array_keys items then
        _ <- dict_item items "name" ;;
        Raise TypeError
      else if variable_keys items then
        _ <- dict_item items "dims" ;;
        _ <- dict_item items "shape" ;;
        Raise TypeError
      else Ok items
  end.

(** [sorted(inventory.items())]: the names are the keys of a dict, hence
    distinct, and the order is that of the names. *)
Fixpoint insert_sorted {V : Type} (x : string * V) (l : list (string * V))
  : list (string * V) :=
  match l with
  | [] => [x]
  | y :: l' =>
      if String.leb (fst x) (fst y) then x :: l else y :: insert_sorted x l'
  end.

Fixpoint sorted {V : Type} (l : list (string * V)) : list (string * V) :=
  match l with
  | [] => []
  | x :: l' => insert_sorted x (sorted l')
  end.

(** The four matplotlib line parameters, in the order of [line_params]. *)
Definition line_params_of (color marker linestyle linewidth : pyval)
  : dict pyval :=
  [ ("color", color); ("marker", marker);
    ("linestyle", linestyle); ("linewidth", linewidth) ].

(** The value of one line parameter [n] for the series [name], from the
    user's value [p] and the counter of 1d series. *)
Definition resolve_line_param (n : string) (p : pyval) (name : string)
    (line_count : Z) : result pyval :=
  v <- match p with
       | PNone => Ok (PInt line_count)
       | PList l => list_item l line_count
       | PDict d => if dict_mem d name then dict_item d name
                    else Ok (PInt line_count)
       | _ => Ok p
       end ;;
  match int_value v with
  | Some index => get_line_param n index
  | None => Ok v
  end.

(** [for n, p in line_params.items(): mpl_line_params[n] = ...]. *)
Fixpoint resolve_line_params (line_params : dict pyval) (name : string)
    (line_count : Z) (mpl : dict pyval) : result (dict pyval) :=
  match line_params with
  | [] => Ok mpl
  | (n, p) :: rest =>
      v <- resolve_line_param n p name line_count ;;
      resolve_line_params rest name line_count (dict_set mpl n v)
  end.

(** The key of a series on the 1d path, before the unit is added. *)
Definition key_of_dims (axes : option axes_arg) (var : data_array)
  : result string :=
  match axes with
  | Some (AxesDict _) => Raise (AttributeError "dims")
  | Some (AxesList labels) => Ok (String.concat "." labels)
  | None => Ok (String.concat "." (v_dims (da_data var)))
  end.

(** [tobeplotted[key]["mpl_line_params"][n][name] = p] for every
    [(n, p)] of [mpl]. *)
Fixpoint record_line_params (table : dict (dict pyval)) (mpl : dict pyval)
    (name : string) : result (dict (dict pyval)) :=
  match mpl with
  | [] => Ok table
  | (n, p) :: rest =>
      inner <- dict_item table n ;;
      record_line_params (dict_set table n (dict_set inner name p)) rest name
  end.

Record loop_state : Type := mk_loop_state {
  line_count : Z;
  tobeplotted : dict group
}.

(** Is the series on the 1d path? *)
Definition on_1d_path (projection : option string) (nd : Z) : bool :=
  (nd =? 1)
  || match projection with
     | Some p => (p =? "1d")%string || (p =? "1D")%string
     | None => false
     end.

(** One turn of the loop over the sorted inventory. *)
Definition plot_step (projection : option string) (axes : option axes_arg)
    (line_params : dict pyval) (st : loop_state) (item : string * data_array)
  : result loop_state :=
  let (name, var) := item in
  let nd := Z.of_nat (length (v_dims (da_data var))) in
  if 0 <? nd then
    let ax := axes in
    kl <- (if on_1d_path projection nd then
             key <- key_of_dims axes var ;;
             let key := key ++ "." ++ str_opt (v_unit (da_data var)) in
             Ok (key, line_count st + 1)
           else Ok (name, line_count st)) ;;
    let (key, lc) := kl : string * Z in
    mpl <- resolve_line_params line_params name lc [] ;;
    let tbp :=
      if dict_mem (tobeplotted st) key then tobeplotted st
      else dict_set (tobeplotted st) key
             {| ndims := nd; data_arrays := []; axes := ax;
                mpl_line_params := map (fun n => (n, [])) (dict_keys mpl) |} in
    g <- dict_item tbp key ;;
    table <- record_line_params (mpl_line_params g) mpl name ;;
    let g' := {| ndims := ndims g;
                 data_arrays := dict_set (data_arrays g) name var;
                 axes := Plot.axes g;
                 mpl_line_params := table |} in
    Ok {| line_count := lc; tobeplotted := dict_set tbp key g' |}
  else Ok st.

Fixpoint plot_loop (projection : option string) (axes : option axes_arg)
    (line_params : dict pyval) (items : list (string * data_array))
    (st : loop_state) : result loop_state :=
  match items with
  | [] => Ok st
  | item :: rest =>
      st' <- plot_step projection axes line_params st item ;;
      plot_loop projection axes line_params rest st'
  end.

(** *** What the loop computes, entry by entry *)

(** The guard [ndims > 0] of the loop body. *)
Definition has_dims (item : string * data_array) : bool :=
  0 <? Z.of_nat (length (v_dims (da_data (snd item)))).

(** The key under which the loop body files an entry. *)
Definition series_key (projection : option string) (axes : option axes_arg)
    (name : string) (var : data_array) : result string :=
  if on_1d_path projection (Z.of_nat (length (v_dims (da_data var)))) then
    key <- key_of_dims axes var ;;
    Ok (key ++ "." ++ str_opt (v_unit (da_data var)))
  else Ok name.

(** The number of entries that take the 1d path, hence raise
    [line_count]. *)
Fixpoint count_1d (projection : option string)
    (items : list (string * data_array)) : Z :=
  match items with
  | [] => 0
  | item :: rest =>
      (if has_dims item
          && on_1d_path projection
               (Z.of_nat (length (v_dims (da_data (snd item)))))
       then 1 else 0) + count_1d projection rest
  end.

(** [tobeplotted[key]["data_arrays"][name]], when present. *)
Definition member (tbp : dict group) (key name : string) : option data_array :=
  match dict_get tbp key with
  | Some g => dict_get (data_arrays g) name
  | None => None
  end.

(** [table[n][name]], when present. *)
Definition lookup2 (table : dict (dict pyval)) (n name : string)
  : option pyval :=
  match dict_get table n with
  | Some inner => dict_get inner name
  | None => None
  end.

(** [tobeplotted[key]["mpl_line_params"][n][name]], when present. *)
Definition style (tbp : dict group) (key n name : string) : option pyval :=
  match dict_get tbp key with
  | Some g => lookup2 (mpl_line_params g) n name
  | None => None
  end.

(** The last line of the body of the loop over [line_params]: a value
    that is an [int] is replaced by the default of that index. *)
Definition resolved_through_config (n : string) (x val : pyval) : Prop :=
  match int_value x with
  | Some index => get_line_param n index = Ok val
  | None => val = x
  end.

(** What holds of the loop state once the entries [done] are processed:
    the counter, the distinct keys, and that the groups hold exactly the
    processed entries that have dimensions, each under its key and with
    the line parameters resolved at its turn. *)
Definition loop_invariant (projection : option string)
    (axes : option axes_arg) (lp : dict pyval)
    (done : list (string * data_array)) (st : loop_state) : Prop :=
  line_count st = count_1d projection done - 1 /\
  NoDup (dict_keys (tobeplotted st)) /\
  (forall key name v,
     member (tobeplotted st) key name = Some v ->
     In (name, v) done /\ has_dims (name, v) = true /\
     series_key projection axes name v = Ok key) /\
  (forall before name v after,
     done = (before ++ (name, v) :: after)%list ->
     has_dims (name, v) = true ->
     exists key,
       series_key projection axes name v = Ok key /\
       member (tobeplotted st) key name = Some v /\
       forall n p, In (n, p) lp ->
         exists val,
           resolve_line_param n p name
             (count_1d projection (before ++ [(name, v)]) - 1) = Ok val /\
           style (tobeplotted st) key n name = Some val).

Section Plot.

(** The keyword arguments that [plot] passes on untouched: any but
    [data_arrays], [name], [ndim] and [mpl_line_params], which the call
    of [dispatch] gives itself. *)
Variable K : Type.

(** Modelled from the spec: the class [SciPlot] is not among the
    sources; the spec describes the result of [plot] as an in-memory
    collection of figures keyed by the grouping used. It is taken to be
    a dict, and a figure to be the call that renders it. *)
Definition figure : Type :=
  call data_array (dict (dict pyval)) (option axes_arg * K).

(** [for key, val in tobeplotted.items(): output[key] = dispatch(...)]. *)
Fixpoint dispatch_all (groups : dict group) (projection : option string)
    (bins : option (dict pyval)) (kwargs : K) (output : dict figure)
  : result (dict figure) :=
  match groups with
  | [] => Ok output
  | (key, val) :: rest =>
      fig <- dispatch (data_arrays val) (ndims val) (Some key) PNone bins
               projection (Some (mpl_line_params val)) (axes val, kwargs) ;;
      dispatch_all rest projection bins kwargs (dict_set output key fig)
  end.

Definition plot (dict_obj : plot_input) (projection : option string)
    (axes : option axes_arg) (color marker linestyle linewidth : pyval)
    (bins : option (dict pyval)) (kwargs : K) : result (dict figure) :=
  inventory <- inventory_of dict_obj ;;
  let line_params := line_params_of color marker linestyle linewidth in
  st <- plot_loop projection axes line_params (sorted inventory)
          {| line_count := -1; tobeplotted := [] |} ;;
  dispatch_all (tobeplotted st) projection bins kwargs [].

End Plot.

Arguments plot {K} dict_obj projection axes color marker linestyle linewidth
  bins kwargs.
Arguments dispatch_all {K} groups projection bins kwargs output.

End Plot.

Import Config Tools Dispatch Plot.

(** ** Sample data *)

Definition tof_counts : variable :=
  {| v_dims := ["tof"]; v_shape := [3]; v_values := [1 # 1; 2 # 1; 3 # 1]%Q;
     v_variances := None; v_unit := Some "counts"; v_dtype := "float64" |}.

Definition image_xy : variable :=
  {| v_dims := ["y"; "x"]; v_shape := [2; 2];
     v_values := [1 # 1; 2 # 1; 3 # 1; 4 # 1]%Q;
     v_variances := None; v_unit := Some "counts"; v_dtype := "float64" |}.

Definition scalar_k : variable :=
  {| v_dims := []; v_shape := []; v_values := [5 # 1]%Q;
     v_variances := None; v_unit := Some "K"; v_dtype := "float64" |}.

Definition as_data_array (v : variable) : data_array :=
  {| da_data := v; da_coords := []; da_masks := []; da_attrs := [];
     da_toplevel := None |}.

(** A dataset with two one-dimensional entries of equal dimension and
    unit and one image. *)
Definition three_series : plot_input :=
  DatasetLike [ ("img", as_data_array image_xy);
                ("b", as_data_array tof_counts);
                ("a", as_data_array tof_counts) ].

(** Rational numbers in the place of floats, to run [value_to_string]. *)

(** The text of [str(val)] for the sample values 1.5 and -1234.5678. *)
Definition sample_str (q : Q) : string :=
  if Qeq_bool q (3 # 2) then "1.5"
  else if Qeq_bool q (- (12345678 # 10000)) then "-1234.5678"
  else "0.0".

(** [10.0 ** k]: beyond the largest float from [k = 309] on, rounded
    to zero below the smallest one from [k = -324] on. *)
Definition sample_pow10 (k : Z) : result Q :=
  if 308 <? k then Raise OverflowError
  else if k <? -323 then Ok (0 # 1)%Q
  else Ok (Qpower (10 # 1) k).

Definition sample_value_to_string : value Q Z -> nat -> result (text Q Z) :=
  value_to_string Qabs Qle_bool (fun q => Qeq_bool q 0) sample_pow10 sample_str.

(** ** Frame condition *)

(** The frame condition: a computation leaves the dict of
    [config["params"]] as it found it, whether it returns or raises. *)
Definition preserves_config {A : Type} (m : M A) : Prop :=
  forall s, config_params (snd (m s)) = config_params s.


(** ** Further definitions

    Used in the statements and proofs below. *)

(** [for key, val in items: d[key] = val] on the contents of a dict,
    skipping [None] when [skip_none] is set. *)
Fixpoint dict_update (d : dict pyval) (skip_none : bool) (items : dict pyval)
  : dict pyval :=
  match items with
  | [] => d
  | (key, val) :: rest =>
      dict_update (if skip_none && is_none val then d else dict_set d key val)
        skip_none rest
  end.

(** The contents of the dict that a reference names. *)
Definition contents (s : store) (r : ref) : dict pyval :=
  match r with
  | ConfigParams => config_params s
  | Local n => nth n (locals s) []
  end.

(** The items that [parse_params] reads from its argument [params]:
    none for [None], the [show] flag for a [bool], the items of a dict. *)
Definition params_items (params : pyval) : option (dict pyval) :=
  match params with
  | PNone => Some []
  | PBool b => Some [("show", PBool b)]
  | PDict d => Some d
  | _ => None
  end.

(** The items of an optional dict, none for [None]. *)
Definition items_of (d : option (dict pyval)) : dict pyval :=
  match d with
  | Some d => d
  | None => []
  end.

(** A store for trying the colorbar functions: [config["params"]] as in
    config.py and one dict with both limits set. *)
Definition sample_store : store :=
  {| config_params :=
       [ ("cmap", PStr "viridis"); ("log", PBool false);
         ("vmin", PNone); ("vmax", PNone); ("color", PNone);
         ("show", PBool true); ("cbar", PBool true); ("norm", PNone) ];
     locals := [ [ ("vmin", PFloat (0 # 1)); ("vmax", PFloat (1 # 1)) ] ] |}.

(** A computation that allocates nothing and removes no key from any
    dict of the store, whether it returns or raises. *)
Definition keeps_keys {A : Type} (m : M A) : Prop :=
  forall s,
    length (locals (snd (m s))) = length (locals s) /\
    forall i k,
      dict_mem (nth i (locals s) []) k = true ->
      dict_mem (nth i (locals (snd (m s))) []) k = true.

(** What every entry of [tobeplotted] satisfies: a positive number of
    dimensions, at least one data array, and a table for each of the line
    parameters [lp]. *)
Definition group_ok (lp : dict pyval) (kg : string * group) : Prop :=
  1 <= ndims (snd kg) /\
  data_arrays (snd kg) <> [] /\
  forall n, In n (dict_keys lp) ->
            dict_mem (mpl_line_params (snd kg)) n = true.

(** The subscript digits one and zero that follow [log] in the label of
    a logarithm, as the bytes of their UTF-8 encoding. *)
Definition subscript_10 : string :=
  string_of_list_ascii
    (map ascii_of_nat [226; 130; 129; 226; 130; 128]%nat).

(** [name_with_unit(var, name, log)] of tools.py. *)
Definition name_with_unit (var : option variable) (name : option string)
    (log : bool) : result string :=
  text <- match name with
          | Some n => Ok n
          | None =>
              match var with
              | Some v => list_item (v_dims v) (-1)
              | None => Ok ""
              end
          end ;;
  let text := if log then "log" ++ subscript_10 ++ "(" ++ text ++ ")"
              else text in
  Ok (match var with
      | Some v => text ++ " [" ++ str_opt (v_unit v) ++ "]"
      | None => text
      end).

(** * Properties *)

(** ** Subscripts and dictionaries *)

Lemma list_item_nat {A : Type} (l : list A) (k : nat) :
  (k < length l)%nat ->
  exists a, nth_error l k = Some a /\ list_item l (Z.of_nat k) = Ok a.
Proof.
  intros Hk. unfold list_item.
  destruct (Z.ltb_spec (Z.of_nat k) 0) as [Hneg | _]; [lia |].
  destruct (Z.ltb_spec (Z.of_nat k) 0) as [Hneg | _]; [lia |].
  destruct (Z.leb_spec (Z.of_nat (length l)) (Z.of_nat k)) as [Hge | _]; [lia |].
  cbn [orb]. rewrite Nat2Z.id.
  destruct (nth_error l k) as [a |] eqn:E.
  - exists a. split; reflexivity.
  - apply nth_error_None in E. lia.
Qed.

Lemma list_item_out_of_range {A : Type} (l : list A) (i : Z) :
  Z.of_nat (length l) <= i -> list_item l i = Raise IndexError.
Proof.
  intros Hi. unfold list_item.
  destruct (Z.ltb_spec i 0) as [Hneg | _]; [lia |].
  destruct (Z.ltb_spec i 0) as [Hneg | _]; [lia |].
  destruct (Z.leb_spec (Z.of_nat (length l)) i) as [_ | Hlt]; [reflexivity | lia].
Qed.

Lemma list_item_last {A : Type} (l : list A) (a : A) :
  list_item (l ++ [a])%list (-1) = Ok a.
Proof.
  unfold list_item. rewrite length_app. cbn [length].
  change (-1 <? 0) with true. cbv iota.
  replace (-1 + Z.of_nat (length l + 1)) with (Z.of_nat (length l)) by lia.
  destruct (Z.ltb_spec (Z.of_nat (length l)) 0) as [Hneg | _]; [lia |].
  destruct (Z.leb_spec (Z.of_nat (length l + 1)) (Z.of_nat (length l)))
    as [Hge | _]; [lia |].
  cbn [orb]. rewrite Nat2Z.id.
  rewrite nth_error_app2 by lia. rewrite Nat.sub_diag. reflexivity.
Qed.

Lemma list_item_head {A : Type} (a : A) (l : list A) :
  list_item (a :: l) 0 = Ok a.
Proof.
  unfold list_item. cbn [length]. change (0 <? 0) with false. cbv iota.
  destruct (Z.leb_spec (Z.of_nat (S (length l))) 0) as [Hge | _]; [lia |].
  reflexivity.
Qed.

Lemma dict_get_set_same {V : Type} (d : dict V) (k : string) (v : V) :
  dict_get (dict_set d k v) k = Some v.
Proof.
  induction d as [| [k' v'] d IH]; cbn.
  - rewrite String.eqb_refl. reflexivity.
  - destruct (String.eqb k k') eqn:E; cbn; rewrite E; [reflexivity | exact IH].
Qed.

Lemma dict_get_set_other {V : Type} (d : dict V) (k k0 : string) (v : V) :
  k0 <> k -> dict_get (dict_set d k v) k0 = dict_get d k0.
Proof.
  intros Hne. induction d as [| [k' v'] d IH]; cbn.
  - destruct (String.eqb_spec k0 k); [contradiction | reflexivity].
  - destruct (String.eqb_spec k k') as [-> | Hk]; cbn.
    + destruct (String.eqb_spec k0 k'); [contradiction | reflexivity].
    + destruct (String.eqb k0 k'); [reflexivity | exact IH].
Qed.

Lemma dict_keys_set_mem {V : Type} (d : dict V) (k : string) (v : V) :
  dict_mem d k = true -> dict_keys (dict_set d k v) = dict_keys d.
Proof.
  unfold dict_mem, dict_keys.
  induction d as [| [k' v'] d IH]; cbn; [discriminate |].
  destruct (String.eqb k k') eqn:E; cbn; [reflexivity |].
  intros H. rewrite IH by exact H. reflexivity.
Qed.

Lemma dict_keys_set_new {V : Type} (d : dict V) (k : string) (v : V) :
  dict_mem d k = false -> dict_keys (dict_set d k v) = (dict_keys d ++ [k])%list.
Proof.
  unfold dict_mem, dict_keys.
  induction d as [| [k' v'] d IH]; cbn; [reflexivity |].
  destruct (String.eqb k k') eqn:E; cbn; [discriminate |].
  intros H. rewrite IH by exact H. reflexivity.
Qed.

Lemma dict_mem_In {V : Type} (d : dict V) (k : string) :
  dict_mem d k = true <-> In k (dict_keys d).
Proof.
  unfold dict_mem, dict_keys.
  induction d as [| [k' v'] d IH]; cbn.
  - split; [discriminate | contradiction].
  - destruct (String.eqb_spec k k') as [-> | Hne].
    + split; auto.
    + rewrite IH. split; [auto | intros [H | H]; [congruence | exact H]].
Qed.

(** ** tools.py: the default line parameters *)

Lemma config_lists_nonempty (name : string) (l : list pyval) :
  dict_get config name = Some (PList l) -> l <> [].
Proof.
  unfold config. cbn [dict_get].
  repeat match goal with
         | |- context [String.eqb name ?s] => destruct (String.eqb name s)
         end;
    intros H; inversion H; subst; discriminate.
Qed.

Lemma get_line_param_list (name : string) (l : list pyval) (index : Z) :
  dict_get config name = Some (PList l) ->
  get_line_param name index = list_item l (index mod Z.of_nat (length l)).
Proof.
  intros Hcfg. pose proof (config_lists_nonempty _ _ Hcfg) as Hne.
  unfold get_line_param, dict_item. rewrite Hcfg. cbn [bind py_len].
  unfold py_mod.
  destruct (Z.eqb_spec (Z.of_nat (length l)) 0) as [H0 | _].
  - destruct l; [contradiction | cbn in H0; lia].
  - reflexivity.
Qed.

(** C5 (amended): for a parameter name whose config entry is a list of
    defaults (color, marker, linewidth, linestyle),
    [get_line_param name i] returns element [i mod length] of that list for
    every natural [i]; it takes the same value at [i + length], and it
    never raises. *)
Theorem C5_get_line_param_round_robin (name : string) (l : list pyval) :
  dict_get config name = Some (PList l) ->
  forall i : nat,
  exists v,
    nth_error l (i mod length l) = Some v /\
    get_line_param name (Z.of_nat i) = Ok v /\
    get_line_param name (Z.of_nat (i + length l)) = Ok v.
Proof.
  intros Hcfg i.
  pose proof (config_lists_nonempty _ _ Hcfg) as Hne.
  assert (Hlen : (0 < length l)%nat) by (destruct l; [contradiction | cbn; lia]).
  destruct (list_item_nat l (i mod length l)) as [v [Hnth Hitem]].
  { apply Nat.mod_upper_bound. lia. }
  exists v. split; [exact Hnth |].
  rewrite !(get_line_param_list _ _ _ Hcfg).
  rewrite Nat2Z.inj_mod in Hitem.
  split; [exact Hitem |].
  rewrite Nat2Z.inj_add.
  replace (Z.of_nat i + Z.of_nat (length l))
    with (Z.of_nat i + 1 * Z.of_nat (length l)) by lia.
  rewrite Z_mod_plus_full. exact Hitem.
Qed.

Lemma C5_witness :
  dict_get config "color" =
    Some (PList [ PStr "#1f77b4"; PStr "#ff7f0e"; PStr "#2ca02c";
                  PStr "#d62728"; PStr "#9467bd"; PStr "#8c564b";
                  PStr "#e377c2"; PStr "#7f7f7f"; PStr "#bcbd22";
                  PStr "#17becf" ]) /\
  get_line_param "color" (Z.of_nat 12) = Ok (PStr "#2ca02c") /\
  get_line_param "color" (Z.of_nat (12 + 10)) = Ok (PStr "#2ca02c").
Proof.
  split; [reflexivity |].
  destruct (C5_get_line_param_round_robin "color" _ eq_refl 12)
    as [v [Hnth [Hi Hperiod]]].
  vm_compute in Hnth. injection Hnth as <-.
  split; [exact Hi | exact Hperiod].
Defined.

(** C5 as stated fails: height is a name present in the config, its
    entry is an integer and not a list, and [get_line_param] raises
    [TypeError] on it; no element of a default list is returned. *)
Lemma C5_counterexample :
  dict_get config "height" = Some (PInt 533) /\
  get_line_param "height" (Z.of_nat 0) = Raise TypeError.
Proof.
  split; reflexivity.
Qed.

(** ** tools.py: centers and edges *)

Lemma list_item_minus1 {A : Type} (l : list A) (d : A) :
  l <> [] -> list_item l (-1) = Ok (last l d).
Proof.
  intros Hne. rewrite (app_removelast_last d Hne) at 1.
  apply list_item_last.
Qed.

(** In any arithmetic. *)

Lemma edges_to_centers_step {A : Type} `{Scalar A} (a b : A) (r : list A) :
  edges_to_centers (a :: b :: r) =
  sc_mul sc_half (sc_add b a) :: edges_to_centers (b :: r).
Proof. reflexivity. Qed.

Lemma edges_to_centers_length {A : Type} `{Scalar A} (x : list A) :
  length (edges_to_centers x) = pred (length x).
Proof.
  destruct x as [| a x]; [reflexivity |].
  revert a. induction x as [| b r IH]; intros a; [reflexivity |].
  rewrite edges_to_centers_step. cbn [length pred]. rewrite IH. reflexivity.
Qed.

Lemma centers_to_edges_single {A : Type} `{Scalar A} (x0 : A) :
  centers_to_edges [x0] =
  Ok (let dx0 := sc_mul sc_half (sc_abs x0) in
      let dx := if sc_eqb dx0 sc_zero then sc_half else dx0 in
      [ sc_sub x0 dx; sc_add x0 dx ]).
Proof.
  unfold centers_to_edges. cbn [length]. change (Z.of_nat 1 <? 2) with true.
  cbv iota. rewrite list_item_head. reflexivity.
Qed.

Lemma centers_to_edges_step {A : Type} `{Scalar A} (a b : A) (r : list A) :
  centers_to_edges (a :: b :: r) =
  Ok ((sc_sub (sc_mul sc_two a) (sc_mul sc_half (sc_add b a))
       :: edges_to_centers (a :: b :: r))
      ++ [ sc_sub (sc_mul sc_two (last (b :: r) sc_zero))
             (last (edges_to_centers (a :: b :: r)) sc_zero) ])%list.
Proof.
  unfold centers_to_edges.
  destruct (Z.ltb_spec (Z.of_nat (length (a :: b :: r))) 2) as [Hlt | _].
  { cbn [length] in Hlt. lia. }
  rewrite list_item_head. cbn [bind].
  rewrite edges_to_centers_step at 1. rewrite list_item_head. cbn [bind].
  rewrite (list_item_minus1 (a :: b :: r) sc_zero) by discriminate.
  cbn [bind].
  rewrite (list_item_minus1 (edges_to_centers (a :: b :: r)) sc_zero)
    by (rewrite edges_to_centers_step; discriminate).
  cbn [bind]. reflexivity.
Qed.

(** In exact arithmetic. *)

Lemma edges_to_centers_cons (a b : Q) (r : list Q) :
  edges_to_centers (a :: b :: r) =
  ((1 # 2) * (b + a))%Q :: edges_to_centers (b :: r).
Proof. reflexivity. Qed.

Lemma centers_to_edges_cons (a b : Q) (r : list Q) :
  centers_to_edges (a :: b :: r) =
  Ok (((2 * a - (1 # 2) * (b + a))%Q
       :: edges_to_centers (a :: b :: r))
      ++ [ (2 * last (b :: r) 0 - last (edges_to_centers (a :: b :: r)) 0)%Q ])%list.
Proof. exact (centers_to_edges_step a b r). Qed.

Lemma round_trip_tail (y : list Q) :
  y <> [] ->
  forall p : Q,
    let m := edges_to_centers (p :: y) in
    let R := edges_to_centers (m ++ [ (2 * last y 0 - last m 0)%Q ])%list in
    length R = length y /\
    (Forall2 Qeq R y <-> evenly_spaced (p :: y) = true).
Proof.
  induction y as [| b y IH]; [contradiction |]. intros _ p.
  destruct y as [| c r].
  - cbn -[Qmult Qplus Qminus]. split; [reflexivity |].
    split; [reflexivity |]. intros _. constructor; [| constructor].
    lra.
  - specialize (IH ltac:(discriminate) b).
    cbv zeta in IH. destruct IH as [IHlen IHeq].
    cbv zeta.
    rewrite (edges_to_centers_cons p b (c :: r)).
    remember (edges_to_centers (b :: c :: r)) as m' eqn:Em'.
    assert (Hm' : m' = ((1 # 2) * (c + b))%Q :: edges_to_centers (c :: r)).
    { subst m'. apply edges_to_centers_cons. }
    assert (Hlast : last (((1 # 2) * (b + p))%Q :: m') 0%Q = last m' 0%Q).
    { rewrite Hm'. reflexivity. }
    rewrite Hlast.
    change (last (b :: c :: r) 0%Q) with (last (c :: r) 0%Q).
    assert (Hstep :
      edges_to_centers
        ((((1 # 2) * (b + p))%Q :: m') ++ [ (2 * last (c :: r) 0 - last m' 0)%Q ]) =
      ((1 # 2) * ((1 # 2) * (c + b) + (1 # 2) * (b + p)))%Q
      :: edges_to_centers (m' ++ [ (2 * last (c :: r) 0 - last m' 0)%Q ])).
    { rewrite Hm'. reflexivity. }
    rewrite Hstep. split.
    + cbn [length]. rewrite IHlen. reflexivity.
    + cbn [evenly_spaced]. fold (evenly_spaced (b :: c :: r)).
      rewrite andb_true_iff, Qeq_bool_iff, <- IHeq.
      split.
      * intros H. inversion H as [| ? ? ? ? Hq Hrest]; subst.
        split; [lra | exact Hrest].
      * intros [Hq Hrest]. constructor; [lra | exact Hrest].
Qed.

(** C6 (amended): for an array of at least two elements,
    [edges_to_centers (centers_to_edges x)] has the length of [x], and it
    equals [x] exactly when [x] is equally spaced; two elements always
    are. *)
Theorem C6_round_trip_iff_evenly_spaced (x : list Q) :
  (2 <= length x)%nat ->
  exists e,
    centers_to_edges x = Ok e /\
    length (edges_to_centers e) = length x /\
    (Forall2 Qeq (edges_to_centers e) x <-> evenly_spaced x = true).
Proof.
  intros Hlen.
  destruct x as [| a [| b r]]; [cbn in Hlen; lia | cbn in Hlen; lia |].
  rewrite centers_to_edges_cons. eexists. split; [reflexivity |].
  pose proof (round_trip_tail (b :: r) ltac:(discriminate) a) as Htail.
  cbv zeta in Htail. destruct Htail as [Htlen Hteq].
  remember (edges_to_centers (a :: b :: r)) as m eqn:Em.
  assert (Hm : m = ((1 # 2) * (b + a))%Q :: edges_to_centers (b :: r)).
  { subst m. apply edges_to_centers_cons. }
  assert (Hstep :
    edges_to_centers
      (((2 * a - (1 # 2) * (b + a))%Q :: m) ++
       [ (2 * last (b :: r) 0 - last m 0)%Q ]) =
    ((1 # 2) * ((1 # 2) * (b + a) + (2 * a - (1 # 2) * (b + a))))%Q
    :: edges_to_centers (m ++ [ (2 * last (b :: r) 0 - last m 0)%Q ])).
  { rewrite Hm. reflexivity. }
  rewrite Hstep. split.
  - cbn [length]. rewrite Htlen. reflexivity.
  - rewrite <- Hteq. split.
    + intros H. inversion H; subst. assumption.
    + intros H. constructor; [lra | exact H].
Qed.

Lemma C6_witness :
  (2 <= length [1#1; 2#1; 3#1; 4#1]%Q)%nat /\
  exists e,
    centers_to_edges [1#1; 2#1; 3#1; 4#1]%Q = Ok e /\
    length (edges_to_centers e) = length [1#1; 2#1; 3#1; 4#1]%Q /\
    (Forall2 Qeq (edges_to_centers e) [1#1; 2#1; 3#1; 4#1]%Q <->
     evenly_spaced [1#1; 2#1; 3#1; 4#1]%Q = true).
Proof.
  split; [cbn; lia |].
  apply (C6_round_trip_iff_evenly_spaced [1#1; 2#1; 3#1; 4#1]%Q). cbn. lia.
Defined.

(** C6 as stated fails: the centers 0, 1, 3 come back as 0, 5/4, 3. *)
Lemma C6_counterexample :
  (2 <= length [0#1; 1#1; 3#1]%Q)%nat /\
  exists e,
    centers_to_edges [0#1; 1#1; 3#1]%Q = Ok e /\
    ~ Forall2 Qeq (edges_to_centers e) [0#1; 1#1; 3#1]%Q.
Proof.
  split; [cbn; lia |].
  eexists. split; [vm_compute; reflexivity |].
  intros H. inversion H as [| ? ? ? ? _ H2]; subst.
  inversion H2 as [| ? ? ? ? Hq _]; subst.
  vm_compute in Hq. discriminate.
Qed.

(** C10 (amended): in any arithmetic, [centers_to_edges] returns for a
    non-empty array one element more than it receives, and for a single
    center [x0] the edges [x0 - dx] and [x0 + dx], where [dx] is
    [0.5 * abs x0] as the arithmetic computes it, replaced by [0.5] when
    that product equals [0.0]. In exact arithmetic the product is zero
    only for [x0] zero, and the two edges differ. *)
Theorem C10_centers_to_edges_length :
  (forall (A : Type) (arith : Scalar A) (x : list A),
     x <> [] ->
     exists e,
       centers_to_edges x = Ok e /\
       length e = S (length x) /\
       forall x0 : A, x = [x0] ->
         let dx0 := sc_mul sc_half (sc_abs x0) in
         let dx := if sc_eqb dx0 sc_zero then sc_half else dx0 in
         e = [ sc_sub x0 dx; sc_add x0 dx ]) /\
  (forall x0 : Q,
     exists dx : Q,
       centers_to_edges [x0] = Ok [ (x0 - dx)%Q; (x0 + dx)%Q ] /\
       (x0 == 0 -> dx = (1 # 2)%Q) /\
       (~ x0 == 0 -> dx = ((1 # 2) * Qabs x0)%Q) /\
       ~ (x0 - dx == x0 + dx)).
Proof.
  split.
  - intros A arith x Hne. destruct x as [| a [| b r]]; [contradiction | |].
    + rewrite centers_to_edges_single. eexists.
      split; [reflexivity |]. split; [reflexivity |].
      intros x0 Hx. injection Hx as <-. reflexivity.
    + rewrite centers_to_edges_step. eexists. split; [reflexivity |].
      split.
      * rewrite length_app. cbn [length].
        rewrite edges_to_centers_length. cbn [length pred]. lia.
      * intros x0 Hx. discriminate.
  - intros a. rewrite centers_to_edges_single.
    cbn [sc_mul sc_half sc_abs sc_eqb sc_zero sc_sub sc_add rational]. cbv zeta.
    destruct (Qeq_bool ((1 # 2) * Qabs a) (0 # 1)) eqn:E.
    + exists (1 # 2)%Q. apply Qeq_bool_iff in E.
      assert (Ha : a == 0).
      { revert E. apply Qabs_case; intros; lra. }
      split; [reflexivity |]. split; [reflexivity |].
      split; [intros Hna; contradiction | lra].
    + exists ((1 # 2) * Qabs a)%Q. apply Qeq_bool_neq in E.
      split; [reflexivity |]. split.
      { intros Ha. exfalso. apply E. rewrite Ha. reflexivity. }
      split; [reflexivity |].
      pose proof (Qabs_nonneg a). lra.
Qed.

Lemma C10_witness :
  [0.75%float] <> [] /\
  centers_to_edges [0.75%float] = Ok [0.375%float; 1.125%float] /\
  exists dx : Q,
    centers_to_edges [7 # 2]%Q = Ok [ ((7 # 2) - dx)%Q; ((7 # 2) + dx)%Q ] /\
    dx = ((1 # 2) * Qabs (7 # 2))%Q.
Proof.
  assert (Hne : [0.75%float] <> []) by discriminate.
  split; [exact Hne |]. split.
  - destruct (proj1 C10_centers_to_edges_length float binary64
                [0.75%float] Hne) as [e [He [_ Hsingle]]].
    rewrite He. rewrite (Hsingle 0.75%float eq_refl). reflexivity.
  - destruct (proj2 C10_centers_to_edges_length (7 # 2)%Q)
      as [dx [He [_ [Hdx _]]]].
    exists dx. split; [exact He |]. apply Hdx. intros H. discriminate H.
Defined.

(** C10 as stated fails: the smallest positive float, 2 ** -1074 (it
    prints as 5e-324), is not zero, yet [0.5 * abs x0] underflows to
    [0.0], the fallback [dx = 0.5] is taken and the edges are -0.5 and
    0.5, not [x0 - dx] and [x0 + dx] with [dx = 0.5 * abs x0]. *)
Lemma C10_counterexample :
  PrimFloat.eqb 0x1p-1074 0 = false /\
  centers_to_edges [0x1p-1074%float] = Ok [ (-0.5)%float; 0.5%float ] /\
  centers_to_edges [0x1p-1074%float]
  <> Ok [ (0x1p-1074 - 0.5 * abs 0x1p-1074)%float;
          (0x1p-1074 + 0.5 * abs 0x1p-1074)%float ].
Proof.
  split; [reflexivity |]. split; [vm_compute; reflexivity |].
  intros H.
  apply (f_equal (fun r => match r with
                           | Ok (z :: _) => PrimFloat.ltb z 0
                           | _ => false
                           end)) in H.
  vm_compute in H. discriminate H.
Qed.

(** ** plot.py: the loop over the inventory *)

Lemma dict_keys_set_NoDup {V : Type} (d : dict V) (k : string) (v : V) :
  NoDup (dict_keys d) -> NoDup (dict_keys (dict_set d k v)).
Proof.
  intros Hnd. destruct (dict_mem d k) eqn:E.
  - rewrite dict_keys_set_mem by exact E. exact Hnd.
  - rewrite dict_keys_set_new by exact E.
    apply NoDup_app; [exact Hnd | constructor; [intros [] | constructor] |].
    intros x Hx [<- | []].
    apply dict_mem_In in Hx. congruence.
Qed.

Lemma dict_get_In {V : Type} (d : dict V) (k : string) (v : V) :
  dict_get d k = Some v -> In (k, v) d.
Proof.
  induction d as [| [k' v'] d IH]; cbn; [discriminate |].
  destruct (String.eqb_spec k k') as [-> | Hne].
  - intros H. injection H as ->. left. reflexivity.
  - intros H. right. exact (IH H).
Qed.

Lemma dict_get_None_notin {V : Type} (d : dict V) (k : string) :
  dict_get d k = None <-> ~ In k (dict_keys d).
Proof.
  rewrite <- dict_mem_In. unfold dict_mem.
  destruct (dict_get d k); split; intros H; try discriminate; try reflexivity.
  exfalso. apply H. reflexivity.
Qed.

Lemma In_dict_get {V : Type} (d : dict V) (k : string) (v : V) :
  NoDup (dict_keys d) -> In (k, v) d -> dict_get d k = Some v.
Proof.
  induction d as [| [k' v'] d IH]; cbn; [intros _ [] |].
  intros Hnd [Heq | Hin].
  - injection Heq as -> ->. rewrite String.eqb_refl. reflexivity.
  - inversion Hnd as [| ? ? Hnotin Hnd']; subst.
    destruct (String.eqb_spec k k') as [-> | Hne].
    + exfalso. apply Hnotin. apply (in_map fst) in Hin. exact Hin.
    + exact (IH Hnd' Hin).
Qed.

(** resolve_line_params *)
Lemma resolve_line_params_spec (lp : dict pyval) (name : string) (lc : Z) :
  forall acc mpl,
    resolve_line_params lp name lc acc = Ok mpl ->
    NoDup (dict_keys lp) ->
    (forall n p, In (n, p) lp ->
       exists v, resolve_line_param n p name lc = Ok v /\ dict_get mpl n = Some v)
    /\ (forall n, ~ In n (dict_keys lp) -> dict_get mpl n = dict_get acc n)
    /\ (NoDup (dict_keys acc) -> NoDup (dict_keys mpl)).
Proof.
  induction lp as [| [n0 p0] lp IH]; intros acc mpl Hres Hnd.
  - cbn in Hres. injection Hres as <-.
    split; [intros n p [] |]. split; [reflexivity | auto].
  - cbn [resolve_line_params] in Hres.
    destruct (resolve_line_param n0 p0 name lc) as [v0 |] eqn:E0;
      cbn [bind] in Hres; [| discriminate].
    inversion Hnd as [| ? ? Hnotin Hnd']; subst.
    destruct (IH _ _ Hres Hnd') as [IH1 [IH2 IH3]].
    split; [| split].
    + intros n p [Heq | Hin].
      * injection Heq as <- <-. exists v0. split; [exact E0 |].
        rewrite (IH2 n0 Hnotin). apply dict_get_set_same.
      * exact (IH1 n p Hin).
    + intros n Hn. cbn in Hn.
      rewrite IH2 by tauto.
      apply dict_get_set_other. intros ->. apply Hn. left. reflexivity.
    + intros Hacc. apply IH3. apply dict_keys_set_NoDup. exact Hacc.
Qed.

(** record_line_params *)
Lemma lookup2_set_same (table : dict (dict pyval)) (n name : string)
    (inner : dict pyval) (p : pyval) :
  lookup2 (dict_set table n (dict_set inner name p)) n name = Some p.
Proof.
  unfold lookup2. rewrite dict_get_set_same. apply dict_get_set_same.
Qed.

Lemma lookup2_set_other (table : dict (dict pyval)) (n name n' name' : string)
    (inner : dict pyval) (p : pyval) :
  dict_get table n = Some inner ->
  (n', name') <> (n, name) ->
  lookup2 (dict_set table n (dict_set inner name p)) n' name' =
  lookup2 table n' name'.
Proof.
  intros Hin Hne. unfold lookup2.
  destruct (String.eqb_spec n' n) as [-> | Hn].
  - rewrite dict_get_set_same, Hin.
    apply dict_get_set_other. intros ->. apply Hne. reflexivity.
  - rewrite dict_get_set_other by exact Hn. reflexivity.
Qed.

Lemma record_line_params_spec (mpl : dict pyval) (name : string) :
  forall table table',
    record_line_params table mpl name = Ok table' ->
    (forall n name', name' <> name ->
       lookup2 table' n name' = lookup2 table n name')
    /\ (forall n, dict_get mpl n = None ->
          lookup2 table' n name = lookup2 table n name)
    /\ (NoDup (dict_keys mpl) ->
        forall n v, dict_get mpl n = Some v -> lookup2 table' n name = Some v).
Proof.
  induction mpl as [| [n0 p0] mpl IH]; intros table table' Hrec.
  - cbn in Hrec. injection Hrec as <-.
    split; [reflexivity |]. split; [reflexivity |]. intros _ n v H. discriminate.
  - cbn [record_line_params] in Hrec. unfold dict_item in Hrec.
    destruct (dict_get table n0) as [inner |] eqn:Einner;
      cbn [bind] in Hrec; [| discriminate].
    destruct (IH _ _ Hrec) as [IH1 [IH2 IH3]].
    split; [| split].
    + intros n name' Hne. rewrite IH1 by exact Hne.
      apply lookup2_set_other; [exact Einner |].
      intros Heq. apply Hne. congruence.
    + intros n Hn. cbn [dict_get] in Hn.
      destruct (String.eqb_spec n n0) as [Heq | Hne]; [discriminate |].
      rewrite IH2 by exact Hn.
      apply lookup2_set_other; [exact Einner |].
      intros Heq. apply Hne. congruence.
    + intros Hnd n v Hn. inversion Hnd as [| ? ? Hnotin Hnd']; subst.
      cbn [dict_get] in Hn.
      destruct (String.eqb_spec n n0) as [Heq | Hne].
      * subst n. injection Hn as <-.
        rewrite IH2 by (apply dict_get_None_notin; exact Hnotin).
        apply lookup2_set_same.
      * exact (IH3 Hnd' n v Hn).
Qed.

Lemma resolve_line_params_nodup (lp : dict pyval) (name : string) (lc : Z) :
  forall acc mpl,
    resolve_line_params lp name lc acc = Ok mpl ->
    NoDup (dict_keys acc) -> NoDup (dict_keys mpl).
Proof.
  induction lp as [| [n0 p0] lp IH]; intros acc mpl Hres Hacc.
  - cbn in Hres. injection Hres as <-. exact Hacc.
  - cbn [resolve_line_params] in Hres.
    destruct (resolve_line_param n0 p0 name lc) as [v0 |];
      cbn [bind] in Hres; [| discriminate].
    apply (IH _ _ Hres). apply dict_keys_set_NoDup. exact Hacc.
Qed.

Lemma lookup2_empty_table (keys : list string) (n name : string) :
  lookup2 (map (fun k => (k, [])) keys) n name = None.
Proof.
  unfold lookup2. induction keys as [| k keys IH]; cbn; [reflexivity |].
  destruct (String.eqb n k); [reflexivity | exact IH].
Qed.

Lemma plot_step_skip (projection : option string) (axes : option axes_arg)
    (lp : dict pyval) (st : loop_state) (item : string * data_array) :
  has_dims item = false -> plot_step projection axes lp st item = Ok st.
Proof.
  destruct item as [name var]. unfold has_dims, plot_step. cbn [snd].
  intros ->. reflexivity.
Qed.

Lemma plot_step_effect (projection : option string) (axes : option axes_arg)
    (lp : dict pyval) (st st' : loop_state) (name : string) (var : data_array) :
  has_dims (name, var) = true ->
  NoDup (dict_keys (tobeplotted st)) ->
  plot_step projection axes lp st (name, var) = Ok st' ->
  exists key mpl,
    series_key projection axes name var = Ok key /\
    line_count st' =
      line_count st
      + (if on_1d_path projection (Z.of_nat (length (v_dims (da_data var))))
         then 1 else 0) /\
    resolve_line_params lp name (line_count st') [] = Ok mpl /\
    NoDup (dict_keys (tobeplotted st')) /\
    member (tobeplotted st') key name = Some var /\
    (forall key' name', (key', name') <> (key, name) ->
       member (tobeplotted st') key' name' = member (tobeplotted st) key' name') /\
    (forall n v, dict_get mpl n = Some v ->
       style (tobeplotted st') key n name = Some v) /\
    (forall key' n name', (key', name') <> (key, name) ->
       style (tobeplotted st') key' n name' = style (tobeplotted st) key' n name').
Proof.
  intros Hdims Hnd Hstep. unfold has_dims in Hdims. cbn [snd] in Hdims.
  unfold plot_step in Hstep. rewrite Hdims in Hstep.
  unfold series_key.
  set (nd := Z.of_nat (length (v_dims (da_data var)))) in *.
  (* the key and the counter *)
  assert (Hkl : exists key,
    (if on_1d_path projection nd
     then key0 <- key_of_dims axes var ;;
          Ok (key0 ++ "." ++ str_opt (v_unit (da_data var)))
     else Ok name) = Ok key /\
    (if on_1d_path projection nd
     then key0 <- key_of_dims axes var ;;
          Ok (key0 ++ "." ++ str_opt (v_unit (da_data var)), line_count st + 1)
     else Ok (name, line_count st)) =
    Ok (key, line_count st + (if on_1d_path projection nd then 1 else 0))).
  { destruct (on_1d_path projection nd).
    - destruct (key_of_dims axes var) as [key0 |]; cbn [bind] in *;
        [| discriminate].
      eexists. split; reflexivity.
    - eexists. split; [reflexivity |]. rewrite Z.add_0_r. reflexivity. }
  destruct Hkl as [key [Hkey Hkl]]. rewrite Hkl in Hstep. cbn [bind] in Hstep.
  set (lc := line_count st + (if on_1d_path projection nd then 1 else 0)) in *.
  destruct (resolve_line_params lp name lc []) as [mpl |] eqn:Empl;
    cbn [bind] in Hstep; [| discriminate].
  set (g0 := {| ndims := nd; data_arrays := []; axes := axes;
                mpl_line_params := map (fun n => (n, [])) (dict_keys mpl) |}) in *.
  set (tbp1 := if dict_mem (tobeplotted st) key then tobeplotted st
               else dict_set (tobeplotted st) key g0) in *.
  (* the group exists in tbp1, which otherwise reads as before *)
  assert (H1 : NoDup (dict_keys tbp1) /\
               (forall key' name', member tbp1 key' name' =
                                   member (tobeplotted st) key' name') /\
               (forall key' n name', style tbp1 key' n name' =
                                     style (tobeplotted st) key' n name')).
  { subst tbp1. destruct (dict_mem (tobeplotted st) key) eqn:Emem.
    - split; [exact Hnd |]. split; reflexivity.
    - split; [apply dict_keys_set_NoDup; exact Hnd |].
      assert (Hnone : dict_get (tobeplotted st) key = None).
      { unfold dict_mem in Emem.
        destruct (dict_get (tobeplotted st) key); [discriminate | reflexivity]. }
      split.
      + intros key' name'. unfold member.
        destruct (String.eqb_spec key' key) as [Heq | Hne].
        * subst key'. rewrite dict_get_set_same, Hnone. reflexivity.
        * rewrite dict_get_set_other by exact Hne. reflexivity.
      + intros key' n name'. unfold style.
        destruct (String.eqb_spec key' key) as [Heq | Hne].
        * subst key'. rewrite dict_get_set_same, Hnone.
          apply lookup2_empty_table.
        * rewrite dict_get_set_other by exact Hne. reflexivity. }
  destruct H1 as [Hnd1 [Hmem1 Hsty1]].
  unfold dict_item in Hstep.
  destruct (dict_get tbp1 key) as [g |] eqn:Eg; cbn [bind] in Hstep;
    [| discriminate].
  destruct (record_line_params (mpl_line_params g) mpl name) as [table |]
    eqn:Erec; cbn [bind] in Hstep; [| discriminate].
  injection Hstep as <-. cbn [line_count tobeplotted].
  destruct (record_line_params_spec _ _ _ _ Erec) as [R1 [R2 R3]].
  pose proof (resolve_line_params_nodup _ _ _ _ _ Empl (NoDup_nil _)) as Hmplnd.
  exists key, mpl.
  split; [exact Hkey |]. split; [reflexivity |]. split; [exact Empl |].
  split; [apply dict_keys_set_NoDup; exact Hnd1 |].
  split.
  { unfold member. rewrite dict_get_set_same. cbn [data_arrays].
    apply dict_get_set_same. }
  split.
  { intros key' name' Hne. rewrite <- Hmem1. unfold member.
    destruct (String.eqb_spec key' key) as [Heq | Hk].
    - subst key'. rewrite dict_get_set_same, Eg. cbn [data_arrays].
      apply dict_get_set_other. intros ->. apply Hne. reflexivity.
    - rewrite dict_get_set_other by exact Hk. reflexivity. }
  split.
  { intros n v Hn. unfold style. rewrite dict_get_set_same.
    cbn [mpl_line_params]. apply R3; [exact Hmplnd | exact Hn]. }
  intros key' n name' Hne. rewrite <- Hsty1. unfold style.
  destruct (String.eqb_spec key' key) as [Heq | Hk].
  - subst key'. rewrite dict_get_set_same, Eg. cbn [mpl_line_params].
    apply R1. intros ->. apply Hne. reflexivity.
  - rewrite dict_get_set_other by exact Hk. reflexivity.
Qed.

Lemma count_1d_app (projection : option string)
    (a b : list (string * data_array)) :
  count_1d projection (a ++ b) = count_1d projection a + count_1d projection b.
Proof.
  induction a as [| x a IH]; cbn [count_1d app]; [reflexivity |].
  rewrite IH. lia.
Qed.

Lemma snoc_split {A : Type} (l : list A) (a : A) (l1 : list A) (x : A)
    (l2 : list A) :
  (l ++ [a] = l1 ++ x :: l2)%list ->
  (l2 = [] /\ l = l1 /\ x = a) \/
  (exists l2', l2 = (l2' ++ [a])%list /\ l = (l1 ++ x :: l2')%list).
Proof.
  intros H. destruct l2 as [| y l2] using rev_ind.
  - left. apply app_inj_tail in H. destruct H as [-> ->]. auto.
  - right. exists l2. clear IHl2.
    change (l1 ++ x :: l2 ++ [y])%list with (l1 ++ (x :: l2) ++ [y])%list in H.
    rewrite app_assoc in H. apply app_inj_tail in H.
    destruct H as [-> ->]. auto.
Qed.

Lemma loop_invariant_init (projection : option string)
    (axes : option axes_arg) (lp : dict pyval) :
  loop_invariant projection axes lp []
    {| line_count := -1; tobeplotted := [] |}.
Proof.
  unfold loop_invariant. cbn [line_count tobeplotted count_1d].
  split; [reflexivity |]. split; [constructor |]. split.
  - intros key name v H. discriminate.
  - intros before name v after H. destruct before; discriminate.
Qed.

Lemma loop_invariant_step (projection : option string)
    (axes : option axes_arg) (lp : dict pyval)
    (done : list (string * data_array)) (item : string * data_array)
    (st st' : loop_state) :
  NoDup (dict_keys lp) ->
  NoDup (map fst (done ++ [item])) ->
  loop_invariant projection axes lp done st ->
  plot_step projection axes lp st item = Ok st' ->
  loop_invariant projection axes lp (done ++ [item]) st'.
Proof.
  intros Hlp Hnames [Hcount [Hnd [Hsound Hcompl]]] Hstep.
  destruct item as [name var].
  destruct (has_dims (name, var)) eqn:Hdims.
  - (* the entry joins a group *)
    destruct (plot_step_effect _ _ _ _ _ _ _ Hdims Hnd Hstep)
      as [key [mpl [Hkey [Hlc [Hres [Hnd' [Hmem [Hframe [Hsty Hsframe]]]]]]]]].
    assert (Hcount' : line_count st' =
                      count_1d projection (done ++ [(name, var)]) - 1).
    { rewrite Hlc, Hcount, count_1d_app. cbn [count_1d snd].
      rewrite Hdims. cbn [andb]. lia. }
    assert (Hfresh : forall v, In (name, v) done -> False).
    { intros v Hin. rewrite map_app in Hnames. cbn [map fst] in Hnames.
      apply NoDup_remove_2 in Hnames. apply Hnames.
      rewrite app_nil_r. apply (in_map fst) in Hin. exact Hin. }
    split; [exact Hcount' |]. split; [exact Hnd' |]. split.
    + intros key' name' v Hm.
      destruct (String.eqb_spec name' name) as [Hn | Hn].
      * subst name'.
        destruct (String.eqb_spec key' key) as [Hk | Hk].
        -- subst key'. rewrite Hmem in Hm. injection Hm as <-.
           split; [apply in_or_app; right; left; reflexivity |].
           split; [exact Hdims | exact Hkey].
        -- rewrite Hframe in Hm by congruence.
           destruct (Hsound _ _ _ Hm) as [Hin _]. destruct (Hfresh _ Hin).
      * rewrite Hframe in Hm by congruence.
        destruct (Hsound _ _ _ Hm) as [Hin [Hd Hk]].
        split; [apply in_or_app; left; exact Hin |]. split; assumption.
    + intros before name' v after Hsplit Hd.
      destruct (snoc_split _ _ _ _ _ Hsplit) as [[-> [-> Hx]] | [after' [-> ->]]].
      * injection Hx as -> ->. exists key.
        split; [exact Hkey |]. split; [exact Hmem |].
        intros n p Hin.
        destruct (resolve_line_params_spec _ _ _ _ _ Hres Hlp) as [Hall _].
        destruct (Hall n p Hin) as [val [Hval Hget]].
        exists val. split; [rewrite <- Hcount'; exact Hval |].
        apply Hsty. exact Hget.
      * destruct (Hcompl before name' v after' eq_refl Hd)
          as [key0 [Hkey0 [Hmem0 Hsty0]]].
        assert (Hne : name' <> name).
        { intros ->. apply (Hfresh v). apply in_or_app. right. left. reflexivity. }
        exists key0. split; [exact Hkey0 |].
        split; [rewrite Hframe by congruence; exact Hmem0 |].
        intros n p Hin. destruct (Hsty0 n p Hin) as [val [Hval Hs]].
        exists val. split; [exact Hval |].
        rewrite Hsframe by congruence. exact Hs.
  - (* the entry is skipped *)
    rewrite (plot_step_skip _ _ _ _ _ Hdims) in Hstep. injection Hstep as <-.
    split.
    { rewrite Hcount, count_1d_app. cbn [count_1d]. rewrite Hdims.
      cbn [andb]. lia. }
    split; [exact Hnd |]. split.
    + intros key name' v Hm. destruct (Hsound _ _ _ Hm) as [Hin [Hd Hk]].
      split; [apply in_or_app; left; exact Hin |]. split; assumption.
    + intros before name' v after Hsplit Hd.
      destruct (snoc_split _ _ _ _ _ Hsplit) as [[-> [-> Hx]] | [after' [-> ->]]].
      * injection Hx as -> ->. congruence.
      * exact (Hcompl before name' v after' eq_refl Hd).
Qed.

Lemma plot_loop_invariant (projection : option string)
    (axes : option axes_arg) (lp : dict pyval) :
  NoDup (dict_keys lp) ->
  forall items done st st',
    NoDup (map fst (done ++ items)) ->
    loop_invariant projection axes lp done st ->
    plot_loop projection axes lp items st = Ok st' ->
    loop_invariant projection axes lp (done ++ items) st'.
Proof.
  intros Hlp. induction items as [| item rest IH]; intros done st st' Hnd Hinv Hloop.
  - cbn in Hloop. injection Hloop as <-. rewrite app_nil_r. exact Hinv.
  - cbn [plot_loop] in Hloop.
    destruct (plot_step projection axes lp st item) as [st1 |] eqn:Hstep;
      cbn [bind] in Hloop; [| discriminate].
    change (done ++ item :: rest)%list with (done ++ [item] ++ rest)%list in *.
    rewrite app_assoc in *.
    apply (IH _ st1 st' Hnd); [| exact Hloop].
    apply (loop_invariant_step _ _ _ _ _ st st1 Hlp); try assumption.
    rewrite map_app in Hnd. apply NoDup_app_remove_r in Hnd. exact Hnd.
Qed.

(** ** The order of the names *)

Lemma ascii_compare_trans_le (a b c : ascii) :
  Ascii.compare a b <> Gt -> Ascii.compare b c <> Gt ->
  Ascii.compare a c <> Gt /\
  (Ascii.compare a c = Eq -> Ascii.compare a b = Eq /\ Ascii.compare b c = Eq).
Proof.
  unfold Ascii.compare. intros Hab Hbc.
  destruct (N.compare_spec (N_of_ascii a) (N_of_ascii b)) as [E1 | L1 | G1];
    [| | congruence];
    destruct (N.compare_spec (N_of_ascii b) (N_of_ascii c)) as [E2 | L2 | G2];
    try congruence;
    destruct (N.compare_spec (N_of_ascii a) (N_of_ascii c)) as [E3 | L3 | G3];
    (split;
     [ first [ discriminate | exfalso; lia ]
     | intros H; first [ discriminate H | split; reflexivity | exfalso; lia ] ]).
Qed.

Lemma string_leb_trans (a b c : string) :
  String.leb a b = true -> String.leb b c = true -> String.leb a c = true.
Proof.
  unfold String.leb.
  assert (H : forall a b c,
             String.compare a b <> Gt -> String.compare b c <> Gt ->
             String.compare a c <> Gt).
  { clear. induction a as [| x a IH]; intros [| y b] [| z c]; cbn;
      try congruence.
    intros Hab Hbc.
    destruct (Ascii.compare x y) eqn:Exy; try congruence;
      destruct (Ascii.compare y z) eqn:Eyz; try congruence;
      destruct (ascii_compare_trans_le x y z) as [Hle Heq];
      try congruence;
      destruct (Ascii.compare x z) eqn:Exz; try congruence;
      try (destruct (Heq eq_refl); congruence).
    eapply IH; eassumption. }
  intros Hab Hbc.
  specialize (H a b c).
  destruct (String.compare a b); try discriminate;
    destruct (String.compare b c); try discriminate;
    destruct (String.compare a c); try reflexivity;
    exfalso; apply H; congruence.
Qed.

Lemma insert_sorted_perm {V : Type} (x : string * V) (l : list (string * V)) :
  Permutation (insert_sorted x l) (x :: l).
Proof.
  induction l as [| y l IH]; cbn [insert_sorted]; [reflexivity |].
  destruct (String.leb (fst x) (fst y)); [reflexivity |].
  rewrite IH. apply perm_swap.
Qed.

Lemma sorted_perm {V : Type} (l : list (string * V)) :
  Permutation (sorted l) l.
Proof.
  induction l as [| x l IH]; cbn [sorted]; [reflexivity |].
  rewrite insert_sorted_perm. constructor. exact IH.
Qed.

Lemma sorted_NoDup {V : Type} (l : list (string * V)) :
  NoDup (map fst l) -> NoDup (map fst (sorted l)).
Proof.
  intros H. eapply Permutation_NoDup; [| exact H].
  apply Permutation_map. symmetry. apply sorted_perm.
Qed.

Lemma sorted_In {V : Type} (l : list (string * V)) (x : string * V) :
  In x (sorted l) <-> In x l.
Proof.
  split; apply Permutation_in; [| symmetry]; apply sorted_perm.
Qed.

(** Below every element of the list. *)
Lemma insert_sorted_below {V : Type} (x : string * V) (l : list (string * V)) :
  Forall (fun y => String.leb (fst x) (fst y) = true) l ->
  insert_sorted x l = x :: l.
Proof.
  intros H. destruct l as [| y l]; [reflexivity |].
  cbn [insert_sorted]. inversion H as [| ? ? Hy _]; subst.
  rewrite Hy. reflexivity.
Qed.

Lemma insert_sorted_ordered {V : Type} (x : string * V) (l : list (string * V)) :
  StronglySorted (fun a b => String.leb (fst a) (fst b) = true) l ->
  StronglySorted (fun a b => String.leb (fst a) (fst b) = true)
    (insert_sorted x l).
Proof.
  induction l as [| y l IH]; intros Hs; cbn [insert_sorted].
  - constructor; constructor.
  - inversion Hs as [| ? ? Hs' Hall]; subst.
    destruct (String.leb (fst x) (fst y)) eqn:E.
    + constructor; [exact Hs |]. constructor; [exact E |].
      eapply Forall_impl; [| exact Hall].
      intros z Hz. cbv beta in Hz. eapply string_leb_trans; eassumption.
    + constructor; [apply IH; exact Hs' |].
      assert (Hyx : String.leb (fst y) (fst x) = true).
      { destruct (String.leb_total (fst x) (fst y)); congruence. }
      eapply Permutation_Forall; [symmetry; apply insert_sorted_perm |].
      constructor; assumption.
Qed.

Lemma sorted_ordered {V : Type} (l : list (string * V)) :
  StronglySorted (fun a b => String.leb (fst a) (fst b) = true) (sorted l).
Proof.
  induction l as [| x l IH]; cbn [sorted]; [constructor |].
  apply insert_sorted_ordered. exact IH.
Qed.

Lemma filter_insert_sorted {V : Type} (f : string * V -> bool)
    (x : string * V) (l : list (string * V)) :
  StronglySorted (fun a b => String.leb (fst a) (fst b) = true) l ->
  filter f (insert_sorted x l) =
  if f x then insert_sorted x (filter f l) else filter f l.
Proof.
  induction l as [| y l IH]; intros Hs.
  - cbn. destruct (f x); reflexivity.
  - inversion Hs as [| ? ? Hs' Hall]; subst. cbn [insert_sorted].
    destruct (String.leb (fst x) (fst y)) eqn:E.
    + cbn [filter]. destruct (f x); [| reflexivity].
      symmetry. apply insert_sorted_below.
      apply incl_Forall with (l1 := y :: l).
      * intros z Hz. destruct (f y); [| right].
        -- destruct Hz as [<- | Hz]; [left; reflexivity | right].
           apply filter_In in Hz. tauto.
        -- apply filter_In in Hz. tauto.
      * constructor; [exact E |].
        eapply Forall_impl; [| exact Hall].
        intros z Hz. cbv beta in Hz. eapply string_leb_trans; eassumption.
    + cbn [filter]. rewrite (IH Hs').
      destruct (f y), (f x); cbn [insert_sorted]; try rewrite E; reflexivity.
Qed.

Lemma sorted_filter {V : Type} (f : string * V -> bool) (l : list (string * V)) :
  sorted (filter f l) = filter f (sorted l).
Proof.
  induction l as [| x l IH]; [reflexivity |].
  cbn [sorted filter]. rewrite filter_insert_sorted by apply sorted_ordered.
  destruct (f x); cbn [sorted]; rewrite IH; reflexivity.
Qed.

(** ** The loop skips the entries without dimensions *)

Lemma plot_loop_filter (projection : option string) (axes : option axes_arg)
    (lp : dict pyval) (items : list (string * data_array)) :
  forall st,
    plot_loop projection axes lp items st =
    plot_loop projection axes lp (filter has_dims items) st.
Proof.
  induction items as [| item rest IH]; intros st; [reflexivity |].
  cbn [filter]. destruct (has_dims item) eqn:E.
  - cbn [plot_loop]. destruct (plot_step projection axes lp st item);
      cbn [bind]; [apply IH | reflexivity].
  - cbn [plot_loop]. rewrite plot_step_skip by exact E. cbn [bind]. apply IH.
Qed.

(** ** dispatch.py *)

Lemma histogram_all_no_bins {D : Type} (items : dict D) :
  forall events_dict,
    histogram_all D items [] events_dict =
    Ok (fold_left (fun d kv => dict_set d (fst kv) (snd kv)) items events_dict).
Proof.
  induction items as [| [key obj] rest IH]; intros events_dict; [reflexivity |].
  cbn [histogram_all histogram_bins bind fold_left fst snd]. apply IH.
Qed.

Lemma histogram_all_unbound {D : Type} (key : string) (obj : D)
    (rest : dict D) (dim : string) (bn : pyval) (bins : dict pyval)
    (events_dict : dict D) :
  histogram_all D ((key, obj) :: rest) ((dim, bn) :: bins) events_dict =
  Raise (NameError "histogram_events_data").
Proof. reflexivity. Qed.

(** With [projection=None] and no [bins], a positive number of
    dimensions selects [plot_1d] for one dimension and [plot_2d] for
    more. *)
Lemma dispatch_routes_without_bins {D L K : Type} (data_arrays : dict D)
    (ndim : Z) (name : option string) (collapse : pyval)
    (mpl_line_params : option L) (kwargs : K) :
  1 <= ndim ->
  dispatch data_arrays ndim name collapse None None mpl_line_params kwargs =
  Ok (if ndim =? 1 then plot_1d data_arrays mpl_line_params kwargs
      else plot_2d data_arrays kwargs).
Proof.
  intros Hn. unfold dispatch.
  destruct (Z.ltb_spec ndim 1) as [Hlt | _]; [lia |]. cbn [bind].
  destruct (Z.ltb_spec ndim 3) as [Hlt3 | Hge3].
  - assert (Hcases : ndim = 1 \/ ndim = 2) by lia.
    destruct Hcases as [-> | ->]; reflexivity.
  - destruct (Z.eqb_spec ndim 1) as [-> | _]; [lia |]. reflexivity.
Qed.

(** When [dispatch] raises. *)
Lemma dispatch_raises_iff {D L K : Type} (data_arrays : dict D)
    (ndim : Z) (name : option string) (collapse : pyval)
    (bins : option (dict pyval)) (projection : option string)
    (mpl_line_params : option L) (kwargs : K) :
  raises (dispatch data_arrays ndim name collapse bins projection
            mpl_line_params kwargs) <->
  ndim < 1 \/
  (exists b, bins = Some b /\ b <> [] /\ data_arrays <> []) \/
  (exists p, projection = Some p /\
             lower p <> "1d" /\ lower p <> "2d").
Proof.
  unfold raises, dispatch.
  destruct (Z.ltb_spec ndim 1) as [Hlt | Hge].
  { split; [intros _; left; exact Hlt | intros _; eexists; reflexivity]. }
  assert (Hproj :
    forall da : dict D,
      (exists e,
         (let projection0 :=
            match projection with
            | Some p => p
            | None => if ndim <? 3 then str_int ndim ++ "d" else "2d"
            end in
          let projection1 := lower projection0 in
          if (projection1 =? "1d")%string
          then Ok (plot_1d da mpl_line_params kwargs)
          else if (projection1 =? "2d")%string then Ok (plot_2d da kwargs)
          else if (projection1 =? "3d")%string then plot_3d D L K da kwargs
          else Raise (RuntimeError
                 ("Wrong projection type. Expected either '2d' or '3d', got "
                  ++ projection1 ++ "."))) = Raise e) <->
      (exists p, projection = Some p /\ lower p <> "1d" /\ lower p <> "2d")).
  { intros da. cbv zeta. destruct projection as [p |].
    - destruct (String.eqb_spec (lower p) "1d") as [E1 | N1].
      { split; [intros [e He]; discriminate |].
        intros [q [Hq [H1 _]]]. injection Hq as <-. contradiction. }
      destruct (String.eqb_spec (lower p) "2d") as [E2 | N2].
      { split; [intros [e He]; discriminate |].
        intros [q [Hq [_ H2]]]. injection Hq as <-. contradiction. }
      split; [intros _; exists p; auto |]. intros _.
      destruct (String.eqb_spec (lower p) "3d"); eexists; reflexivity.
    - split; [| intros [q [Hq _]]; discriminate].
      intros [e He]. exfalso.
      destruct (Z.ltb_spec ndim 3) as [Hlt3 | Hge3].
      + assert (Hcases : ndim = 1 \/ ndim = 2) by lia.
        destruct Hcases as [-> | ->]; cbn in He; discriminate.
      + cbn in He. discriminate. }
  destruct bins as [b |].
  - destruct b as [| [dim bn] b].
    + rewrite histogram_all_no_bins. cbn [bind]. rewrite Hproj.
      split; [intros H; right; right; exact H |].
      intros [H | [[b [Hb [Hne _]]] | H]]; [lia | | exact H].
      injection Hb as <-. contradiction.
    + destruct data_arrays as [| [key obj] rest].
      * cbn [histogram_all bind]. rewrite Hproj.
        split; [intros H; right; right; exact H |].
        intros [H | [[b' [_ [_ Hne]]] | H]]; [lia | contradiction | exact H].
      * rewrite histogram_all_unbound. cbn [bind].
        split; [| intros _; eexists; reflexivity].
        intros _. right. left. eexists. split; [reflexivity |].
        split; discriminate.
  - cbn [bind]. rewrite Hproj.
    split; [intros H; right; right; exact H |].
    intros [H | [[b [Hb _]] | H]]; [lia | discriminate | exact H].
Qed.

(** What [dispatch] hands to [plot_1d] as line parameters is what it
    received. *)
Lemma dispatch_passes_line_params {D L K : Type} (data_arrays : dict D)
    (ndim : Z) (name : option string) (collapse : pyval)
    (bins : option (dict pyval)) (projection : option string)
    (mpl_line_params : option L) (kwargs : K) (fig : call D L K) :
  dispatch data_arrays ndim name collapse bins projection mpl_line_params
    kwargs = Ok fig ->
  match fig with
  | plot_1d _ m kw => m = mpl_line_params /\ kw = kwargs
  | plot_2d _ kw => kw = kwargs
  end.
Proof.
  unfold dispatch. destruct (ndim <? 1); [discriminate |].
  destruct (match bins with
            | Some b => histogram_all D data_arrays b []
            | None => Ok data_arrays
            end) as [da |]; cbn [bind]; [| discriminate].
  cbv zeta.
  repeat match goal with
         | |- context [if ?b then _ else _] => destruct b
         end; intros H; try discriminate; injection H as <-; auto.
Qed.

(** C1: with [projection=None] and [bins={"x": 10}], [dispatch] does not
    reach [plot_1d] for one-dimensional data: the call of the unbound
    name [histogram_events_data] raises [NameError]. *)
Theorem C1_dispatch_bins_unbound_name :
  dispatch [("a", as_data_array tof_counts)] 1 (Some "tof.counts") PNone
    (Some [("x", PInt 10)]) None (@None (dict (dict pyval))) tt =
  Raise (NameError "histogram_events_data").
Proof. reflexivity. Qed.

(** C2: [dispatch] raises for the recognized projection [3d] with a
    valid number of dimensions: the name [plot_3d] is unbound. *)
Theorem C2_dispatch_3d_unbound_name :
  dispatch [("a", as_data_array image_xy)] 2 (Some "a") PNone None
    (Some "3d") (@None (dict (dict pyval))) tt =
  Raise (NameError "plot_3d").
Proof. reflexivity. Qed.

(** ** plot.py: the figures *)

Lemma dispatch_all_spec {K : Type} (projection : option string)
    (bins : option (dict pyval)) (kwargs : K) :
  forall (groups : dict group) (output out : dict (figure K)),
    dispatch_all groups projection bins kwargs output = Ok out ->
    NoDup (dict_keys groups) ->
    (forall k, In k (dict_keys groups) -> ~ In k (dict_keys output)) ->
    dict_keys out = (dict_keys output ++ dict_keys groups)%list /\
    (forall key g, dict_get groups key = Some g ->
       exists fig,
         dispatch (data_arrays g) (ndims g) (Some key) PNone bins projection
           (Some (mpl_line_params g)) (axes g, kwargs) = Ok fig /\
         dict_get out key = Some fig) /\
    (forall key, ~ In key (dict_keys groups) ->
       dict_get out key = dict_get output key).
Proof.
  induction groups as [| [key0 g0] groups IH]; intros output out Hall Hnd Hdisj.
  - cbn in Hall. injection Hall as <-. cbn [dict_keys map].
    rewrite app_nil_r. split; [reflexivity |]. split; [| reflexivity].
    intros key g H. discriminate.
  - cbn [dispatch_all] in Hall.
    destruct (dispatch (data_arrays g0) (ndims g0) (Some key0) PNone bins
                projection (Some (mpl_line_params g0)) (axes g0, kwargs))
      as [fig0 |] eqn:Efig; cbn [bind] in Hall; [| discriminate].
    cbn [dict_keys map fst] in Hnd, Hdisj |- *.
    inversion Hnd as [| ? ? Hnotin Hnd']; subst.
    assert (Hnew : dict_mem output key0 = false).
    { destruct (dict_mem output key0) eqn:E; [| reflexivity].
      apply dict_mem_In in E. exfalso. apply (Hdisj key0); [left; reflexivity | exact E]. }
    destruct (IH _ _ Hall Hnd') as [IHk [IHg IHo]].
    { intros k Hk. rewrite dict_keys_set_new by exact Hnew.
      intros Hin. apply in_app_or in Hin. destruct Hin as [Hin | [<- | []]].
      - apply (Hdisj k); [right; exact Hk | exact Hin].
      - contradiction. }
    split; [| split].
    + rewrite IHk, dict_keys_set_new by exact Hnew.
      rewrite <- app_assoc. reflexivity.
    + intros key g Hg. cbn [dict_get] in Hg.
      destruct (String.eqb_spec key key0) as [Heq | Hne].
      * subst key. injection Hg as <-. exists fig0. split; [exact Efig |].
        rewrite (IHo key0 Hnotin). apply dict_get_set_same.
      * exact (IHg key g Hg).
    + intros key Hkey.
      rewrite IHo by (intros Hin; apply Hkey; right; exact Hin).
      apply dict_get_set_other. intros ->. apply Hkey. left. reflexivity.
Qed.

(** ** plot.py: the exceptions of the loop *)

Lemma list_item_raises {A : Type} (l : list A) (i : Z) (e : exn) :
  list_item l i = Raise e -> e = IndexError.
Proof.
  unfold list_item.
  destruct ((_ <? 0) || (_ <=? _)); [intros H; congruence |].
  destruct (nth_error l _); intros H; congruence.
Qed.

Lemma get_line_param_line_names (n : string) (index : Z) :
  In n ["color"; "marker"; "linestyle"; "linewidth"] ->
  exists v, get_line_param n index = Ok v.
Proof.
  intros Hn.
  assert (Hl : exists l, dict_get config n = Some (PList l)).
  { cbn [In] in Hn. destruct Hn as [<- | [<- | [<- | [<- | []]]]];
      eexists; reflexivity. }
  destruct Hl as [l Hcfg].
  rewrite (get_line_param_list _ _ _ Hcfg).
  pose proof (config_lists_nonempty _ _ Hcfg) as Hne.
  assert (Hlen : 0 < Z.of_nat (length l)).
  { destruct l; [contradiction | cbn [length]; lia]. }
  pose proof (Z.mod_pos_bound index _ Hlen) as Hb.
  destruct (list_item_nat l (Z.to_nat (index mod Z.of_nat (length l))))
    as [v [_ Hv]]; [lia |].
  rewrite Z2Nat.id in Hv by lia. exists v. exact Hv.
Qed.

Lemma resolve_line_param_raises (n : string) (p : pyval) (name : string)
    (lc : Z) (e : exn) :
  In n ["color"; "marker"; "linestyle"; "linewidth"] ->
  resolve_line_param n p name lc = Raise e ->
  e = IndexError /\ exists l, p = PList l.
Proof.
  intros Hn. unfold resolve_line_param.
  assert (Hint : forall v,
            match int_value v with
            | Some index => get_line_param n index
            | None => Ok v
            end <> Raise e).
  { intros v. destruct (int_value v) as [i |]; [| discriminate].
    destruct (get_line_param_line_names n i Hn) as [x ->]. discriminate. }
  destruct p as [| b | z | q | s | l | d | c a]; cbn [bind];
    try (intros H; exfalso;
         match type of H with
         | match int_value ?v with _ => _ end = _ => exact (Hint v H)
         end).
  - destruct (list_item l lc) as [x |] eqn:E; cbn [bind].
    + intros H. exfalso. exact (Hint x H).
    + intros H. injection H as <-. split; [| eexists; reflexivity].
      exact (list_item_raises _ _ _ E).
  - unfold dict_mem, dict_item. destruct (dict_get d name) as [x |];
      cbn [bind]; intros H; exfalso;
      [exact (Hint x H) | exact (Hint (PInt lc) H)].
Qed.

Lemma resolve_line_params_raises (lp : dict pyval) (name : string) (lc : Z)
    (e : exn) :
  (forall n, In n (dict_keys lp) ->
             In n ["color"; "marker"; "linestyle"; "linewidth"]) ->
  forall acc,
    resolve_line_params lp name lc acc = Raise e ->
    e = IndexError /\ exists n l, In (n, PList l) lp.
Proof.
  induction lp as [| [n0 p0] lp IH]; intros Hnames acc H;
    [discriminate |].
  cbn [resolve_line_params] in H.
  destruct (resolve_line_param n0 p0 name lc) as [v |] eqn:E; cbn [bind] in H.
  - destruct (IH (fun n Hn => Hnames n (or_intror Hn)) _ H)
      as [He [n [l Hin]]].
    split; [exact He |]. exists n, l. right. exact Hin.
  - injection H as <-.
    destruct (resolve_line_param_raises n0 p0 name lc _
                (Hnames n0 (or_introl eq_refl)) E) as [He [l ->]].
    split; [exact He |]. exists n0, l. left. reflexivity.
Qed.

Lemma resolve_line_params_mem (lp : dict pyval) (name : string) (lc : Z) :
  forall acc mpl,
    resolve_line_params lp name lc acc = Ok mpl ->
    forall n, dict_mem mpl n = true <->
              dict_mem acc n = true \/ In n (dict_keys lp).
Proof.
  induction lp as [| [n0 p0] lp IH]; intros acc mpl H n.
  - cbn in H. injection H as <-. cbn. tauto.
  - cbn [resolve_line_params] in H.
    destruct (resolve_line_param n0 p0 name lc) as [v |]; cbn [bind] in H;
      [| discriminate].
    rewrite (IH _ _ H n). cbn [dict_keys map fst In].
    unfold dict_mem at 1.
    destruct (String.eqb_spec n n0) as [-> | Hne].
    + rewrite dict_get_set_same. intuition.
    + rewrite dict_get_set_other by exact Hne. fold (dict_mem acc n).
      intuition congruence.
Qed.

Lemma record_line_params_ok (mpl : dict pyval) (name : string) :
  forall table,
    (forall n, dict_mem mpl n = true -> dict_mem table n = true) ->
    exists table',
      record_line_params table mpl name = Ok table' /\
      forall n, dict_mem table' n = dict_mem table n.
Proof.
  induction mpl as [| [n0 p0] mpl IH]; intros table Hkeys.
  - exists table. split; reflexivity.
  - cbn [record_line_params]. unfold dict_item.
    assert (H0 : dict_mem table n0 = true).
    { apply Hkeys. unfold dict_mem. cbn [dict_get].
      rewrite String.eqb_refl. reflexivity. }
    unfold dict_mem in H0.
    destruct (dict_get table n0) as [inner |] eqn:E; [| discriminate].
    cbn [bind].
    assert (Hsame : forall n,
              dict_mem (dict_set table n0 (dict_set inner name p0)) n
              = dict_mem table n).
    { intros n. unfold dict_mem.
      destruct (String.eqb_spec n n0) as [-> | Hne].
      - rewrite dict_get_set_same, E. reflexivity.
      - rewrite dict_get_set_other by exact Hne. reflexivity. }
    destruct (IH (dict_set table n0 (dict_set inner name p0)))
      as [table' [Hrec Hmem]].
    { intros n Hn. rewrite Hsame.
      destruct (String.eqb_spec n n0) as [-> | Hne].
      - unfold dict_mem. rewrite E. reflexivity.
      - apply Hkeys. unfold dict_mem in *. cbn [dict_get].
        destruct (String.eqb_spec n n0); [contradiction | exact Hn]. }
    exists table'. split; [exact Hrec |].
    intros n. rewrite Hmem. apply Hsame.
Qed.

Lemma dict_set_twice {V : Type} (d : dict V) (k : string) (a b : V) :
  dict_set (dict_set d k a) k b = dict_set d k b.
Proof.
  induction d as [| [k' v'] d IH]; cbn.
  - rewrite String.eqb_refl. reflexivity.
  - destruct (String.eqb k k') eqn:E; cbn; rewrite E; [reflexivity |].
    rewrite IH. reflexivity.
Qed.

Lemma Forall_dict_set {V : Type} (P : string * V -> Prop) (d : dict V)
    (k : string) (v : V) :
  (forall k', P (k', v)) -> Forall P d -> Forall P (dict_set d k v).
Proof.
  intros Hv. induction d as [| [k' v'] d IH]; intros Hd; cbn.
  - constructor; [apply Hv | constructor].
  - inversion Hd as [| ? ? Hh Ht]; subst.
    destruct (String.eqb k k'); constructor; auto.
Qed.

Lemma dict_set_nonempty {V : Type} (d : dict V) (k : string) (v : V) :
  dict_set d k v <> [].
Proof.
  destruct d as [| [k' v'] d]; cbn; [discriminate |].
  destruct (String.eqb k k'); discriminate.
Qed.

(** The outcome of one turn of the loop. *)
Lemma plot_step_outcome (projection : option string) (axes : option axes_arg)
    (lp : dict pyval) (st : loop_state) (item : string * data_array) :
  (forall n, In n (dict_keys lp) ->
             In n ["color"; "marker"; "linestyle"; "linewidth"]) ->
  Forall (group_ok lp) (tobeplotted st) ->
  match plot_step projection axes lp st item with
  | Ok st' =>
      Forall (group_ok lp) (tobeplotted st') /\
      (has_dims item = true -> tobeplotted st' <> []) /\
      (tobeplotted st <> [] -> tobeplotted st' <> [])
  | Raise e =>
      (e = IndexError /\ exists n l, In (n, PList l) lp) \/
      (e = AttributeError "dims" /\ exists labels, axes = Some (AxesDict labels))
  end.
Proof.
  intros Hnames Hok. destruct item as [name var].
  unfold plot_step, has_dims. cbn [snd].
  set (nd := Z.of_nat (length (v_dims (da_data var)))).
  destruct (Z.ltb_spec 0 nd) as [Hnd | Hnd];
    [| split; [exact Hok | split; [discriminate | auto]]].
  assert (Hkl : (exists e labels,
                   axes = Some (AxesDict labels) /\ e = AttributeError "dims" /\
                   (if on_1d_path projection nd
                    then key <- key_of_dims axes var ;;
                         Ok (key ++ "." ++ str_opt (v_unit (da_data var)),
                             line_count st + 1)
                    else Ok (name, line_count st)) = Raise e) \/
                (exists key lc,
                   (if on_1d_path projection nd
                    then key <- key_of_dims axes var ;;
                         Ok (key ++ "." ++ str_opt (v_unit (da_data var)),
                             line_count st + 1)
                    else Ok (name, line_count st)) = Ok (key, lc))).
  { destruct (on_1d_path projection nd); [| right; eauto].
    unfold key_of_dims.
    destruct axes as [[labels | labels] |]; cbn [bind];
      [right; eauto | left | right; eauto].
    exists (AttributeError "dims"), labels. auto. }
  destruct Hkl as [[e [labels [Hax [He ->]]]] | [key [lc ->]]]; cbn [bind].
  { right. split; [exact He | exists labels; exact Hax]. }
  destruct (resolve_line_params lp name lc []) as [mpl |] eqn:Empl;
    cbn [bind].
  2:{ left. exact (resolve_line_params_raises _ _ _ _ Hnames _ Empl). }
  assert (Hmplkeys : forall n, dict_mem mpl n = true <-> In n (dict_keys lp)).
  { intros n. rewrite (resolve_line_params_mem _ _ _ _ _ Empl n).
    cbn. intuition discriminate. }
  set (g0 := {| ndims := nd; data_arrays := []; axes := axes;
                mpl_line_params := map (fun n => (n, [])) (dict_keys mpl) |}).
  assert (Hg : exists g,
            dict_item (if dict_mem (tobeplotted st) key then tobeplotted st
                       else dict_set (tobeplotted st) key g0) key = Ok g /\
            1 <= ndims g /\
            (forall n, In n (dict_keys lp) ->
                       dict_mem (mpl_line_params g) n = true) /\
            (forall g',
               dict_set (if dict_mem (tobeplotted st) key then tobeplotted st
                         else dict_set (tobeplotted st) key g0) key g'
               = dict_set (tobeplotted st) key g')).
  { unfold dict_item. destruct (dict_mem (tobeplotted st) key) eqn:Emem.
    - unfold dict_mem in Emem.
      destruct (dict_get (tobeplotted st) key) as [g |] eqn:Eg;
        [| discriminate].
      exists g. split; [reflexivity |].
      apply dict_get_In in Eg.
      rewrite Forall_forall in Hok. destruct (Hok _ Eg) as [H1 [_ H3]].
      cbn [snd] in *. split; [exact H1 |]. split; [exact H3 | reflexivity].
    - rewrite dict_get_set_same. exists g0. split; [reflexivity |].
      cbn [g0 ndims mpl_line_params]. split; [lia |]. split.
      + intros n Hn. apply Hmplkeys in Hn. apply dict_mem_In in Hn.
        apply dict_mem_In. unfold dict_keys. rewrite map_map. cbn [fst].
        rewrite map_id. exact Hn.
      + intros g'. apply dict_set_twice. }
  destruct Hg as [g [-> [Hg1 [Hg3 Hset]]]]. cbn [bind].
  destruct (record_line_params_ok mpl name (mpl_line_params g))
    as [table [-> Htable]].
  { intros n Hn. apply Hg3. apply Hmplkeys. exact Hn. }
  cbn [bind tobeplotted]. rewrite Hset.
  split; [| split; intros _; apply dict_set_nonempty].
  apply Forall_dict_set; [| exact Hok].
  intros k'. unfold group_ok. cbn [snd ndims data_arrays mpl_line_params].
  split; [exact Hg1 |]. split; [apply dict_set_nonempty |].
  intros n Hn. rewrite Htable. apply Hg3. exact Hn.
Qed.

Lemma plot_loop_outcome (projection : option string) (axes : option axes_arg)
    (lp : dict pyval) (items : list (string * data_array)) :
  (forall n, In n (dict_keys lp) ->
             In n ["color"; "marker"; "linestyle"; "linewidth"]) ->
  forall st,
    Forall (group_ok lp) (tobeplotted st) ->
    match plot_loop projection axes lp items st with
    | Ok st' =>
        Forall (group_ok lp) (tobeplotted st') /\
        ((exists item, In item items /\ has_dims item = true) ->
         tobeplotted st' <> []) /\
        (tobeplotted st <> [] -> tobeplotted st' <> [])
    | Raise e =>
        (e = IndexError /\ exists n l, In (n, PList l) lp) \/
        (e = AttributeError "dims" /\
         exists labels, axes = Some (AxesDict labels))
    end.
Proof.
  intros Hnames. induction items as [| item rest IH]; intros st Hok.
  - cbn [plot_loop]. split; [exact Hok |]. split; [| auto].
    intros [item [[] _]].
  - cbn [plot_loop].
    pose proof (plot_step_outcome projection axes lp st item Hnames Hok)
      as Hstep.
    destruct (plot_step projection axes lp st item) as [st1 | e];
      cbn [bind]; [| exact Hstep].
    destruct Hstep as [Hok1 [Hdims1 Hne1]].
    specialize (IH st1 Hok1).
    destruct (plot_loop projection axes lp rest st1) as [st' | e];
      [| exact IH].
    destruct IH as [Hok' [Hsome Hne']].
    split; [exact Hok' |]. split.
    + intros [x [[<- | Hin] Hx]].
      * apply Hne'. apply Hdims1. exact Hx.
      * apply Hsome. exists x. split; assumption.
    + intros Hst. apply Hne'. apply Hne1. exact Hst.
Qed.

(** ** plot.py: the line parameters of a series *)

Lemma has_dims_iff (name : string) (var : data_array) :
  has_dims (name, var) = true <-> v_dims (da_data var) <> [].
Proof.
  unfold has_dims. cbn [snd]. destruct (v_dims (da_data var)) as [| d ds].
  - split; [discriminate | intros H; contradiction].
  - split; [discriminate |]. intros _. cbn [length].
    destruct (Z.ltb_spec 0 (Z.of_nat (S (length ds)))); [reflexivity | lia].
Qed.

Lemma has_dims_false_iff (name : string) (var : data_array) :
  has_dims (name, var) = false <-> v_dims (da_data var) = [].
Proof.
  pose proof (has_dims_iff name var) as H.
  destruct (has_dims (name, var)), (v_dims (da_data var)); split; intros;
    try reflexivity; try discriminate.
  - exfalso. apply (proj1 H); reflexivity.
  - exfalso. assert (false = true) by (apply H; discriminate). discriminate.
Qed.

Lemma line_params_of_NoDup (color marker linestyle linewidth : pyval) :
  NoDup (dict_keys (line_params_of color marker linestyle linewidth)).
Proof.
  cbn. repeat constructor; cbn; intuition discriminate.
Qed.

Lemma resolve_line_param_cases (n : string) (p : pyval) (name : string)
    (i : Z) (val : pyval) :
  resolve_line_param n p name i = Ok val ->
  match p with
  | PNone => get_line_param n i = Ok val
  | PList l => exists x, list_item l i = Ok x /\ resolved_through_config n x val
  | PDict d =>
      match dict_get d name with
      | Some x => resolved_through_config n x val
      | None => get_line_param n i = Ok val
      end
  | _ => resolved_through_config n p val
  end.
Proof.
  unfold resolve_line_param, resolved_through_config.
  destruct p as [| b | z | q | s | l | d | c a]; cbn [bind int_value].
  - auto.
  - destruct b; auto.
  - auto.
  - intros H. injection H as <-. reflexivity.
  - intros H. injection H as <-. reflexivity.
  - destruct (list_item l i) as [x |]; cbn [bind]; [| discriminate].
    intros H. exists x. split; [reflexivity |].
    destruct (int_value x); [exact H | injection H as <-; reflexivity].
  - unfold dict_mem, dict_item. destruct (dict_get d name) as [x |];
      cbn [bind int_value]; [| auto].
    intros H. destruct (int_value x); [exact H | injection H as <-; reflexivity].
  - intros H. injection H as <-. reflexivity.
Qed.

Lemma line_params_of_names (color marker linestyle linewidth : pyval) :
  forall n,
    In n (dict_keys (line_params_of color marker linestyle linewidth)) ->
    In n ["color"; "marker"; "linestyle"; "linewidth"].
Proof. intros n H. exact H. Qed.

Lemma series_key_explicit (projection : option string)
    (axes : option axes_arg) (name : string) (var : data_array) (key : string) :
  series_key projection axes name var = Ok key ->
  key =
    if on_1d_path projection (Z.of_nat (length (v_dims (da_data var)))) then
      String.concat "."
        match axes with
        | Some (AxesList labels) => labels
        | _ => v_dims (da_data var)
        end
      ++ "." ++ str_opt (v_unit (da_data var))
    else name.
Proof.
  unfold series_key, key_of_dims.
  destruct (on_1d_path projection (Z.of_nat (length (v_dims (da_data var))))).
  - destruct axes as [[labels | labels] |]; cbn [bind]; intros H;
      try discriminate; injection H as <-; reflexivity.
  - intros H. injection H as <-. reflexivity.
Qed.

(** Every group has its figure in the output, made by [dispatch] from
    the group; a figure made by [plot_1d] carries the line parameters of
    the group. *)
Lemma plot_output_of_groups {K : Type} (dict_obj : plot_input)
    (projection : option string) (axes : option axes_arg)
    (color marker linestyle linewidth : pyval)
    (bins : option (dict pyval)) (kwargs : K) (out : dict (figure K))
    (st : loop_state) (inv : dict data_array) :
  inventory_of dict_obj = Ok inv ->
  NoDup (dict_keys inv) ->
  plot_loop projection axes
    (line_params_of color marker linestyle linewidth)
    (sorted inv)
    {| line_count := -1; tobeplotted := [] |} = Ok st ->
  plot dict_obj projection axes color marker linestyle linewidth bins kwargs
    = Ok out ->
  forall key g,
    dict_get (tobeplotted st) key = Some g ->
    exists fig,
      dict_get out key = Some fig /\
      dispatch (data_arrays g) (ndims g) (Some key) PNone bins projection
        (Some (mpl_line_params g)) (Plot.axes g, kwargs) = Ok fig /\
      match fig with
      | plot_1d _ m _ => m = Some (mpl_line_params g)
      | plot_2d _ _ => True
      end.
Proof.
  intros Hinv Hnd Hloop Hplot key g Hg. unfold plot in Hplot.
  rewrite Hinv in Hplot. cbn [bind] in Hplot.
  rewrite Hloop in Hplot. cbn [bind] in Hplot.
  pose proof (plot_loop_invariant projection axes _
                (line_params_of_NoDup color marker linestyle linewidth)
                (sorted inv) [] _ st
                (sorted_NoDup _ Hnd)
                (loop_invariant_init _ _ _) Hloop) as Hinvar.
  destruct Hinvar as [_ [Hkeys _]].
  destruct (dispatch_all_spec _ _ _ _ _ _ Hplot Hkeys) as [_ [Hfig _]].
  { intros k _ []. }
  destruct (Hfig key g Hg) as [fig [Hd Hout]].
  exists fig. split; [exact Hout |]. split; [exact Hd |].
  pose proof (dispatch_passes_line_params _ _ _ _ _ _ _ _ _ Hd) as Hp.
  destruct fig; [destruct Hp as [Hp _]; exact Hp | exact I].
Qed.

(** C3 (amended): for every series with dimensions of the sorted
    inventory and each of the four line parameters [n] with user value
    [p], let [i] be the number of 1d-path series before it if the series
    is on the 1d path, and that number minus one otherwise. When [plot]
    returns, the value stored for the series is resolved with the index
    [i], and it is what [plot_1d] receives for the series in the figure
    of its group: [None] gives the default of index [i]; a list gives its
    element [i]; a dict gives the entry of the series name, or the
    default of index [i] without one; any other value is kept; and a
    result that is an [int] is replaced by the default of that index.
    When [p] is a list without an element [i] and [axes] is not a dict,
    [plot] raises [IndexError]. *)
Theorem C3_line_params_by_line_count {K : Type} (dict_obj : plot_input)
    (projection : option string) (axes : option axes_arg)
    (color marker linestyle linewidth : pyval)
    (bins : option (dict pyval)) (kwargs : K) (inv : dict data_array) :
  inventory_of dict_obj = Ok inv ->
  NoDup (dict_keys inv) ->
  let lp := line_params_of color marker linestyle linewidth in
  let run := plot dict_obj projection axes color marker linestyle linewidth
               bins kwargs in
  forall before name var after,
    sorted inv = (before ++ (name, var) :: after)%list ->
    v_dims (da_data var) <> [] ->
    forall n p,
      In (n, p) lp ->
      let nd := Z.of_nat (length (v_dims (da_data var))) in
      let i := count_1d projection before
               - (if on_1d_path projection nd then 0 else 1) in
      (forall out,
         run = Ok out ->
         exists st key val fig,
           plot_loop projection axes lp (sorted inv)
             {| line_count := -1; tobeplotted := [] |} = Ok st /\
           series_key projection axes name var = Ok key /\
           style (tobeplotted st) key n name = Some val /\
           dict_get out key = Some fig /\
           (forall das m kw,
              fig = plot_1d das m kw ->
              exists table, m = Some table /\ lookup2 table n name = Some val) /\
           resolve_line_param n p name i = Ok val /\
           match p with
           | PNone => get_line_param n i = Ok val
           | PList l =>
               exists x, list_item l i = Ok x /\ resolved_through_config n x val
           | PDict d =>
               match dict_get d name with
               | Some x => resolved_through_config n x val
               | None => get_line_param n i = Ok val
               end
           | _ => resolved_through_config n p val
           end) /\
      (forall l,
         p = PList l ->
         list_item l i = Raise IndexError ->
         (forall labels, axes <> Some (AxesDict labels)) ->
         run = Raise IndexError).
Proof.
  intros Hinv Hnd lp run before name var after Hsplit Hdims n p Hin nd i.
  apply (has_dims_iff name) in Hdims.
  assert (Hi : count_1d projection (before ++ [(name, var)]) - 1 = i).
  { subst i nd. rewrite count_1d_app. cbn [count_1d snd]. rewrite Hdims.
    cbn [andb].
    destruct (on_1d_path projection
                (Z.of_nat (length (v_dims (da_data var))))); lia. }
  assert (Hresolved : forall st,
            plot_loop projection axes lp (sorted inv)
              {| line_count := -1; tobeplotted := [] |} = Ok st ->
            exists key val,
              series_key projection axes name var = Ok key /\
              style (tobeplotted st) key n name = Some val /\
              resolve_line_param n p name i = Ok val).
  { intros st Hloop.
    pose proof (plot_loop_invariant projection axes _
                  (line_params_of_NoDup color marker linestyle linewidth)
                  (sorted inv) [] _ st
                  (sorted_NoDup _ Hnd)
                  (loop_invariant_init _ _ _) Hloop) as Hinvar.
    cbn [app] in Hinvar. destruct Hinvar as [_ [_ [_ Hcompl]]].
    destruct (Hcompl before name var after Hsplit Hdims)
      as [key [Hkey [_ Hsty]]].
    destruct (Hsty n p Hin) as [val [Hval Hs]].
    rewrite Hi in Hval. exists key, val. auto. }
  split.
  - intros out Hrun. pose proof Hrun as Hplot. subst run. unfold plot in Hrun.
    rewrite Hinv in Hrun. cbn [bind] in Hrun. fold lp in Hrun.
    destruct (plot_loop projection axes lp (sorted inv)
                {| line_count := -1; tobeplotted := [] |}) as [st |] eqn:Hloop;
      cbn [bind] in Hrun; [| discriminate].
    destruct (Hresolved st eq_refl) as [key [val [Hkey [Hs Hval]]]].
    assert (Hg : exists g, dict_get (tobeplotted st) key = Some g /\
                           lookup2 (mpl_line_params g) n name = Some val).
    { unfold style in Hs.
      destruct (dict_get (tobeplotted st) key) as [g |]; [| discriminate].
      exists g. auto. }
    destruct Hg as [g [Hg Hlook]].
    destruct (plot_output_of_groups dict_obj projection axes color marker
                linestyle linewidth bins kwargs out st inv Hinv Hnd Hloop
                Hplot key g Hg) as [fig [Hout [_ Hfig]]].
    exists st, key, val, fig.
    split; [reflexivity |]. split; [exact Hkey |]. split; [exact Hs |].
    split; [exact Hout |]. split.
    + intros das m kw ->. exists (mpl_line_params g).
      split; [exact Hfig | exact Hlook].
    + split; [exact Hval |]. apply resolve_line_param_cases. exact Hval.
  - intros l -> Hnone Haxes. subst run. unfold plot.
    rewrite Hinv. cbn [bind]. fold lp.
    pose proof (plot_loop_outcome projection axes lp (sorted inv)
                  (line_params_of_names color marker linestyle linewidth)
                  {| line_count := -1; tobeplotted := [] |}
                  (Forall_nil _)) as Hout.
    destruct (plot_loop projection axes lp (sorted inv)
                {| line_count := -1; tobeplotted := [] |}) as [st | e]
      eqn:Hloop; cbn [bind].
    + exfalso. destruct (Hresolved st eq_refl) as [_ [val [_ [_ Hval]]]].
      unfold resolve_line_param in Hval. rewrite Hnone in Hval.
      discriminate Hval.
    + destruct Hout as [[-> _] | [_ [labels Hax]]]; [reflexivity |].
      exfalso. exact (Haxes labels Hax).
Qed.

Lemma three_series_NoDup :
  NoDup (dict_keys [ ("img", as_data_array image_xy);
                     ("b", as_data_array tof_counts);
                     ("a", as_data_array tof_counts) ]).
Proof. cbn. repeat constructor; cbn; intuition discriminate. Qed.

Lemma C3_witness :
  inventory_of three_series
  = Ok [ ("img", as_data_array image_xy); ("b", as_data_array tof_counts);
         ("a", as_data_array tof_counts) ] /\
  NoDup (dict_keys [ ("img", as_data_array image_xy);
                     ("b", as_data_array tof_counts);
                     ("a", as_data_array tof_counts) ]) /\
  (exists out fig table,
     plot three_series None None PNone PNone PNone PNone None tt = Ok out /\
     dict_get out "tof.counts" = Some fig /\
     fig = plot_1d [ ("a", as_data_array tof_counts);
                     ("b", as_data_array tof_counts) ] (Some table)
             (None, tt) /\
     lookup2 table "color" "b" = Some (PStr "#ff7f0e") /\
     get_line_param "color" 1 = Ok (PStr "#ff7f0e")) /\
  plot three_series None None (PList [PStr "red"]) PNone PNone PNone None tt
  = Raise IndexError.
Proof.
  assert (Hinv : inventory_of three_series
                 = Ok [ ("img", as_data_array image_xy);
                        ("b", as_data_array tof_counts);
                        ("a", as_data_array tof_counts) ]) by reflexivity.
  split; [exact Hinv |]. split; [exact three_series_NoDup |]. split.
  - destruct (C3_line_params_by_line_count three_series None None
                PNone PNone PNone PNone None tt _ Hinv three_series_NoDup
                [("a", as_data_array tof_counts)] "b"
                (as_data_array tof_counts)
                [("img", as_data_array image_xy)] eq_refl
                ltac:(discriminate) "color" PNone
                ltac:(left; reflexivity)) as [Hret _].
    destruct (Hret _ eq_refl)
      as [st [key [val [fig [_ [Hkey [_ [Hout [Hfig [_ Hdef]]]]]]]]]].
    vm_compute in Hkey. injection Hkey as <-.
    vm_compute in Hdef. injection Hdef as <-.
    pose proof Hout as Hout'. vm_compute in Hout'. injection Hout' as Hf.
    destruct (Hfig _ _ _ (eq_sym Hf)) as [table [Ht Hlook]].
    injection Ht as <-.
    eexists. exists fig. eexists.
    split; [reflexivity |]. split; [exact Hout |].
    split; [symmetry; exact Hf |]. split; [exact Hlook | reflexivity].
  - destruct (C3_line_params_by_line_count three_series None None
                (PList [PStr "red"]) PNone PNone PNone None tt _ Hinv
                three_series_NoDup
                [("a", as_data_array tof_counts)] "b"
                (as_data_array tof_counts)
                [("img", as_data_array image_xy)] eq_refl
                ltac:(discriminate) "color" (PList [PStr "red"])
                ltac:(left; reflexivity)) as [_ Hraise].
    apply (Hraise [PStr "red"] eq_refl eq_refl). intros labels H.
    discriminate H.
Defined.

(** C3 as stated fails: (1) a series with two dimensions that comes
    before any 1d series is resolved with the index -1, not with the
    count 0 of the 1d series processed so far; (2) a list shorter than the
    number of 1d series has no i-th element and the call raises. *)
Lemma C3_counterexample :
  (exists out st val,
     plot (DatasetLike [("img", as_data_array image_xy)])
       None None PNone PNone PNone PNone None tt = Ok out /\
     plot_loop None None (line_params_of PNone PNone PNone PNone)
       (sorted [("img", as_data_array image_xy)])
       {| line_count := -1; tobeplotted := [] |} = Ok st /\
     style (tobeplotted st) "img" "color" "img" = Some val /\
     count_1d None [] = 0 /\
     get_line_param "color" (count_1d None []) <> Ok val) /\
  plot (DatasetLike [("a", as_data_array tof_counts);
                     ("b", as_data_array tof_counts)])
    None None (PList [PStr "red"]) PNone PNone PNone None tt
  = Raise IndexError.
Proof.
  split.
  - eexists. eexists. exists (PStr "#17becf").
    split; [vm_compute; reflexivity |].
    split; [vm_compute; reflexivity |].
    split; [vm_compute; reflexivity |].
    split; [reflexivity |].
    vm_compute. discriminate.
  - vm_compute. reflexivity.
Qed.

(** ** plot.py: the groups and their keys *)

(** C4 (amended): the figures are keyed like the groups; an entry with at
    least one dimension lies in the group of its key and in no other. The
    key of an entry on the 1d path joins with dots the labels of [axes]
    when [axes] is a list, the dimension names otherwise, and ends with a
    dot and the unit; the key of any other entry is its name, and that
    entry is alone in its group when no key of the 1d path equals its
    name. *)
Theorem C4_grouping_by_key {K : Type} (dict_obj : plot_input)
    (projection : option string) (axes : option axes_arg)
    (color marker linestyle linewidth : pyval)
    (bins : option (dict pyval)) (kwargs : K) (out : dict (figure K))
    (inv : dict data_array) :
  inventory_of dict_obj = Ok inv ->
  NoDup (dict_keys inv) ->
  plot dict_obj projection axes color marker linestyle linewidth bins kwargs
    = Ok out ->
  exists st,
    plot_loop projection axes
      (line_params_of color marker linestyle linewidth)
      (sorted inv)
      {| line_count := -1; tobeplotted := [] |} = Ok st /\
    dict_keys out = dict_keys (tobeplotted st) /\
    forall name var,
      In (name, var) inv ->
      v_dims (da_data var) <> [] ->
      let key :=
        if on_1d_path projection (Z.of_nat (length (v_dims (da_data var))))
        then String.concat "."
               match axes with
               | Some (AxesList labels) => labels
               | _ => v_dims (da_data var)
               end
             ++ "." ++ str_opt (v_unit (da_data var))
        else name in
      member (tobeplotted st) key name = Some var /\
      dict_mem out key = true /\
      (forall key', key' <> key -> member (tobeplotted st) key' name = None) /\
      (on_1d_path projection (Z.of_nat (length (v_dims (da_data var))))
         = false ->
       (forall name' var',
          In (name', var') inv ->
          on_1d_path projection
            (Z.of_nat (length (v_dims (da_data var')))) = true ->
          series_key projection axes name' var' <> Ok name) ->
       forall name' var',
         member (tobeplotted st) key name' = Some var' -> name' = name).
Proof.
  intros Hinv Hnd Hplot. unfold plot in Hplot.
  rewrite Hinv in Hplot. cbn [bind] in Hplot.
  destruct (plot_loop projection axes
              (line_params_of color marker linestyle linewidth)
              (sorted inv)
              {| line_count := -1; tobeplotted := [] |}) as [st |] eqn:Hloop;
    cbn [bind] in Hplot; [| discriminate].
  exists st. split; [reflexivity |].
  pose proof (plot_loop_invariant projection axes _
                (line_params_of_NoDup color marker linestyle linewidth)
                (sorted inv) [] _ st
                (sorted_NoDup _ Hnd)
                (loop_invariant_init _ _ _) Hloop) as Hinvar.
  cbn [app] in Hinvar. destruct Hinvar as [_ [Hkeys [Hsound Hcompl]]].
  destruct (dispatch_all_spec _ _ _ _ _ _ Hplot Hkeys) as [Hout [Hfig _]].
  { intros k _ []. }
  cbn [dict_keys map app] in Hout.
  split; [exact Hout |].
  intros name var Hin Hdims key.
  apply (has_dims_iff name) in Hdims.
  apply sorted_In in Hin. destruct (in_split _ _ Hin) as [before [after Hsplit]].
  destruct (Hcompl before name var after Hsplit Hdims) as [key0 [Hkey0 [Hmem _]]].
  pose proof (series_key_explicit _ _ _ _ _ Hkey0) as Hk. fold key in Hk.
  subst key0.
  split; [exact Hmem |]. split; [| split].
  - apply dict_mem_In. rewrite Hout. apply dict_mem_In.
    unfold member in Hmem. unfold dict_mem.
    destruct (dict_get (tobeplotted st) key); [reflexivity | discriminate].
  - intros key' Hne.
    destruct (member (tobeplotted st) key' name) as [v' |] eqn:Em;
      [| reflexivity].
    exfalso. destruct (Hsound _ _ _ Em) as [Hin' [_ Hkey']].
    assert (Hv : v' = var).
    { pose proof (sorted_NoDup _ Hnd) as Hnd'.
      apply (In_dict_get _ _ _ Hnd') in Hin.
      apply (In_dict_get _ _ _ Hnd') in Hin'. congruence. }
    subst v'. apply Hne. congruence.
  - intros Hpath Hfree name' var' Hm.
    assert (Hkn : key = name) by (subst key; rewrite Hpath; reflexivity).
    rewrite Hkn in Hm.
    destruct (Hsound _ _ _ Hm) as [Hin' [_ Hkey']].
    destruct (on_1d_path projection
                (Z.of_nat (length (v_dims (da_data var'))))) eqn:Epath'.
    + exfalso. apply (Hfree name' var'); [| exact Epath' | exact Hkey'].
      apply sorted_In. exact Hin'.
    + unfold series_key in Hkey'. rewrite Epath' in Hkey'.
      injection Hkey' as ->. reflexivity.
Qed.

Lemma C4_witness :
  exists out st,
    inventory_of three_series
    = Ok [ ("img", as_data_array image_xy); ("b", as_data_array tof_counts);
           ("a", as_data_array tof_counts) ] /\
    NoDup (dict_keys [ ("img", as_data_array image_xy);
                       ("b", as_data_array tof_counts);
                       ("a", as_data_array tof_counts) ]) /\
    plot three_series None None PNone PNone PNone PNone None tt = Ok out /\
    plot_loop None None (line_params_of PNone PNone PNone PNone)
      (sorted [ ("img", as_data_array image_xy);
                ("b", as_data_array tof_counts);
                ("a", as_data_array tof_counts) ])
      {| line_count := -1; tobeplotted := [] |} = Ok st /\
    dict_keys out = dict_keys (tobeplotted st) /\
    member (tobeplotted st) "tof.counts" "b" = Some (as_data_array tof_counts) /\
    dict_mem out "tof.counts" = true /\
    forall key', key' <> "tof.counts" -> member (tobeplotted st) key' "b" = None.
Proof.
  eexists.
  destruct (C4_grouping_by_key three_series None None PNone PNone PNone PNone
              None tt _ _ eq_refl three_series_NoDup
              ltac:(vm_compute; reflexivity)) as [st [Hloop [Hkeys Hall]]].
  exists st. split; [reflexivity |]. split; [exact three_series_NoDup |].
  split; [vm_compute; reflexivity |].
  split; [exact Hloop |]. split; [exact Hkeys |].
  destruct (Hall "b" (as_data_array tof_counts)) as [Hm [Ho [Hu _]]].
  - right. left. reflexivity.
  - discriminate.
  - split; [exact Hm |]. split; [exact Ho | exact Hu].
Defined.

(** C4 as stated fails: with [axes=["x"]] the group of a one-dimensional
    entry with dimension tof and unit counts is keyed "x.counts"; the
    output has no key "tof.counts". *)
Lemma C4_counterexample :
  exists out,
    plot (DatasetLike [("a", as_data_array tof_counts)]) None
      (Some (AxesList ["x"])) PNone PNone PNone PNone None tt = Ok out /\
    dict_keys out = ["x.counts"] /\
    dict_get out
      (String.concat "." (v_dims tof_counts) ++ "."
       ++ str_opt (v_unit tof_counts)) = None.
Proof.
  eexists. split; [vm_compute; reflexivity |].
  split; reflexivity.
Qed.

(** ** plot.py: the inventory *)

Lemma dataset_inventory (items inv : dict data_array) :
  inventory_of (DatasetLike items) = Ok inv ->
  inv = items /\ data_array_keys items = false /\ variable_keys items = false.
Proof.
  unfold inventory_of.
  destruct (data_array_keys items).
  { destruct (dict_item items "name"); cbn [bind]; discriminate. }
  destruct (variable_keys items).
  { destruct (dict_item items "dims"); cbn [bind]; [| discriminate].
    destruct (dict_item items "shape"); cbn [bind]; discriminate. }
  intros H. injection H as <-. auto.
Qed.

Lemma inventory_of_dataset (items : dict data_array) :
  data_array_keys items = false -> variable_keys items = false ->
  inventory_of (DatasetLike items) = Ok items.
Proof. intros H1 H2. unfold inventory_of. rewrite H1, H2. reflexivity. Qed.

Lemma issubset_mono {V : Type} (ks : list string) (d d' : dict V) :
  (forall k, dict_mem d' k = true -> dict_mem d k = true) ->
  issubset ks d' = true -> issubset ks d = true.
Proof.
  intros Hsub. unfold issubset. rewrite !forallb_forall.
  intros H k Hk. apply Hsub. apply H. exact Hk.
Qed.

Lemma key_tests_mono {V : Type} (d d' : dict V) :
  (forall k, dict_mem d' k = true -> dict_mem d k = true) ->
  (data_array_keys d = false -> data_array_keys d' = false) /\
  (variable_keys d = false -> variable_keys d' = false).
Proof.
  intros Hsub. unfold data_array_keys, variable_keys.
  split; intros H; apply orb_false_iff in H; destruct H as [H1 H2];
    apply orb_false_iff; split;
    match goal with
    | |- issubset ?ks d' = false =>
        destruct (issubset ks d') eqn:E; [| reflexivity];
        apply (issubset_mono ks d d' Hsub) in E; congruence
    end.
Qed.

Lemma dict_mem_remove {V : Type} (before after : dict V) (x : string * V)
    (k : string) :
  dict_mem (before ++ after)%list k = true ->
  dict_mem (before ++ x :: after)%list k = true.
Proof.
  rewrite !dict_mem_In. unfold dict_keys. rewrite !map_app.
  cbn [map]. rewrite !in_app_iff. cbn [In]. tauto.
Qed.

(** ** plot.py: entries without dimensions *)

Lemma plot_filter_has_dims {K : Type} (items : dict data_array)
    (projection : option string) (axes : option axes_arg)
    (color marker linestyle linewidth : pyval)
    (bins : option (dict pyval)) (kwargs : K) :
  inventory_of (DatasetLike items) = Ok items ->
  plot (DatasetLike items) projection axes color marker linestyle linewidth
    bins kwargs =
  (st <- plot_loop projection axes
           (line_params_of color marker linestyle linewidth)
           (sorted (filter has_dims items))
           {| line_count := -1; tobeplotted := [] |} ;;
   dispatch_all (tobeplotted st) projection bins kwargs []).
Proof.
  intros Hinv. unfold plot. rewrite Hinv. cbn [bind].
  rewrite sorted_filter, <- plot_loop_filter. reflexivity.
Qed.

(** C8: an entry whose data has no dimensions leaves the loop state as it
    is (no group, no error); a dict that [plot] takes for a dataset gives
    the same outcome with and without its entries of zero dimensions; a
    lone data array or variable of zero dimensions gives the empty
    output; and [dispatch] itself raises on [ndim = 0]. *)
Theorem C8_zero_dim_entries_skipped {K : Type} (name : string)
    (var : data_array) :
  v_dims (da_data var) = [] ->
  (forall projection axes lp st,
     plot_step projection axes lp st (name, var) = Ok st) /\
  (forall before after inv projection axes color marker linestyle linewidth
          bins (kwargs : K),
     inventory_of (DatasetLike (before ++ (name, var) :: after)%list)
       = Ok inv ->
     plot (DatasetLike (before ++ (name, var) :: after)%list) projection axes
       color marker linestyle linewidth bins kwargs =
     plot (DatasetLike (before ++ after)%list) projection axes color marker
       linestyle linewidth bins kwargs) /\
  (forall projection axes color marker linestyle linewidth bins (kwargs : K),
     plot (DataArrayLike (Some name) var) projection axes color marker
       linestyle linewidth bins kwargs = Ok [] /\
     plot (VariableLike (da_data var)) projection axes color marker linestyle
       linewidth bins kwargs = Ok []) /\
  (forall key collapse bins projection (kwargs : K),
     dispatch (dict_set [] name var)
       (Z.of_nat (length (v_dims (da_data var)))) key collapse bins projection
       (@None (dict (dict pyval))) kwargs =
     Raise (RuntimeError "Invalid number of dimensions for plotting: 0")).
Proof.
  intros Hdims.
  assert (Hskip : has_dims (name, var) = false)
    by (apply has_dims_false_iff; exact Hdims).
  split; [| split; [| split]].
  - intros. apply plot_step_skip. exact Hskip.
  - intros before after inv projection axes color marker linestyle linewidth
           bins kwargs Hinv.
    destruct (dataset_inventory _ _ Hinv) as [_ [Hda Hvar]].
    destruct (key_tests_mono (before ++ (name, var) :: after)%list
                (before ++ after)%list
                (dict_mem_remove before after (name, var))) as [Hda' Hvar'].
    rewrite (plot_filter_has_dims _ _ _ _ _ _ _ _ _
               (inventory_of_dataset _ Hda Hvar)).
    rewrite (plot_filter_has_dims _ _ _ _ _ _ _ _ _
               (inventory_of_dataset _ (Hda' Hda) (Hvar' Hvar))).
    rewrite !filter_app. cbn [filter]. rewrite Hskip. reflexivity.
  - intros. split.
    + unfold plot.
      cbn [inventory_of bind dict_set sorted insert_sorted plot_loop].
      rewrite plot_step_skip by exact Hskip. reflexivity.
    + unfold plot.
      cbn [inventory_of bind dict_set sorted insert_sorted plot_loop].
      rewrite plot_step_skip; [reflexivity |].
      apply has_dims_false_iff. cbn [da_data]. exact Hdims.
  - intros. rewrite Hdims. reflexivity.
Qed.

Lemma C8_witness :
  v_dims (da_data (as_data_array scalar_k)) = [] /\
  inventory_of
    (DatasetLike ([ ("a", as_data_array tof_counts) ]
                   ++ ("k", as_data_array scalar_k)
                   :: [ ("img", as_data_array image_xy) ])%list)
  = Ok [ ("a", as_data_array tof_counts); ("k", as_data_array scalar_k);
         ("img", as_data_array image_xy) ] /\
  plot (DatasetLike ([ ("a", as_data_array tof_counts) ]
                      ++ ("k", as_data_array scalar_k)
                      :: [ ("img", as_data_array image_xy) ])%list)
    None None PNone PNone PNone PNone None tt =
  plot (DatasetLike ([ ("a", as_data_array tof_counts) ]
                      ++ [ ("img", as_data_array image_xy) ])%list)
    None None PNone PNone PNone PNone None tt.
Proof.
  split; [reflexivity |]. split; [reflexivity |].
  apply (proj1 (proj2 (@C8_zero_dim_entries_skipped unit "k"
                         (as_data_array scalar_k) eq_refl))
           [ ("a", as_data_array tof_counts) ]
           [ ("img", as_data_array image_xy) ] _ None None PNone PNone PNone
           PNone None tt eq_refl).
Defined.

(** ** tools.py: number formatting *)

Lemma first_char_minus (t : string) :
  t <> "" ->
  exists c,
    list_item (list_ascii_of_string t) 0 = Ok c /\
    Ascii.eqb c "-"%char = String.prefix "-" t.
Proof.
  destruct t as [| c t]; [intros H; contradiction | intros _].
  exists c. cbn [list_ascii_of_string]. rewrite list_item_head.
  split; [reflexivity |]. cbn [String.prefix].
  destruct (Ascii.eqb_spec c "-"%char) as [-> | Hne].
  - destruct (ascii_dec "-" "-"); [| contradiction]. destruct t; reflexivity.
  - destruct (ascii_dec "-" c) as [E | _]; [congruence | reflexivity].
Qed.

(** C7 (amended): a value that is not a float, or is zero, is rendered
    with [str]. For a nonzero float, [10.0 ** (p + 1)] is computed first
    and [value_to_string] raises when it does; otherwise, with both
    powers computed, the float is rendered in scientific notation with
    [p] digits exactly when [abs(val) >= 10**(p+1)] or
    [abs(val) <= 10**(-p-1)], and else its plain text is kept unless it
    has more than [p + 2] characters, one more when it starts with a
    minus sign, in which case the fixed-point form with [p] digits is
    used. The second power is not computed when the first comparison
    holds. *)
Theorem C7_value_to_string_thresholds {F O : Type} (fabs : F -> F)
    (fleb : F -> F -> bool) (is_zero : F -> bool) (pow10 : Z -> result F)
    (str_float : F -> string) (f : F) (p : nat) :
  let v2s := value_to_string (O := O) fabs fleb is_zero pow10 str_float in
  (forall o : O, v2s (VOther o) p = Ok (Str (VOther o))) /\
  (is_zero f = true -> v2s (VFloat f) p = Ok (Str (VFloat f))) /\
  (is_zero f = false ->
   (forall e,
      pow10 (Z.of_nat p + 1) = Raise e -> v2s (VFloat f) p = Raise e) /\
   (forall hi,
      pow10 (Z.of_nat p + 1) = Ok hi ->
      (fleb hi (fabs f) = true -> v2s (VFloat f) p = Ok (FormatE f p)) /\
      (forall e,
         fleb hi (fabs f) = false ->
         pow10 (- Z.of_nat p - 1) = Raise e -> v2s (VFloat f) p = Raise e) /\
      (forall lo,
         pow10 (- Z.of_nat p - 1) = Ok lo ->
         let extreme := fleb hi (fabs f) || fleb (fabs f) lo in
         (v2s (VFloat f) p = Ok (FormatE f p) <-> extreme = true) /\
         (extreme = false -> str_float f <> "" ->
          v2s (VFloat f) p =
          Ok (if Z.of_nat p + 2
                 + (if String.prefix "-" (str_float f) then 1 else 0)
                 <? Z.of_nat (String.length (str_float f))
              then FormatF f p
              else Str (VFloat f)))))).
Proof.
  intros v2s. subst v2s. unfold value_to_string.
  split; [reflexivity |]. split; [intros ->; reflexivity |].
  intros ->. split; [intros e ->; reflexivity |].
  intros hi ->. cbn [bind].
  split; [intros ->; reflexivity |].
  split; [intros e -> ->; reflexivity |].
  intros lo Hlo. rewrite Hlo.
  set (extreme := fleb hi (fabs f) || fleb (fabs f) lo).
  assert (Hrest : str_float f <> "" ->
    (c <- list_item (list_ascii_of_string (str_float f)) 0 ;;
     (let minus := if Ascii.eqb c "-"%char then 1 else 0 in
      if Z.of_nat p + 2 + minus <? Z.of_nat (String.length (str_float f))
      then Ok (FormatF f p)
      else Ok (Str (VFloat (O := O) f)))) =
    Ok (if Z.of_nat p + 2
           + (if String.prefix "-" (str_float f) then 1 else 0)
           <? Z.of_nat (String.length (str_float f))
        then FormatF f p
        else Str (VFloat f))).
  { intros Hne. destruct (first_char_minus _ Hne) as [c [Hc Hminus]].
    rewrite Hc. cbn [bind]. cbv zeta. rewrite Hminus.
    destruct (_ <? _); reflexivity. }
  assert (Hext : (if fleb hi (fabs f) then Ok true
                  else lo0 <- Ok lo ;; Ok (fleb (fabs f) lo0))
                 = Ok extreme).
  { subst extreme. destruct (fleb hi (fabs f)); reflexivity. }
  rewrite Hext. cbn [bind].
  destruct extreme eqn:E.
  - split; [split; reflexivity | intros H; discriminate].
  - split.
    + split; [| intros H; discriminate].
      intros H. exfalso.
      destruct (list_item (list_ascii_of_string (str_float f)) 0) as [c |];
        cbn [bind] in H; [| discriminate].
      cbv zeta in H. destruct (_ <? _) in H; discriminate.
    + intros _ Hne. apply Hrest. exact Hne.
Qed.

Lemma C7_witness :
  (Qeq_bool (- (12345678 # 10000)) 0 = false /\
   sample_pow10 (Z.of_nat 3 + 1) = Ok (10000 # 1)%Q /\
   sample_pow10 (- Z.of_nat 3 - 1) = Ok (1 # 10000)%Q /\
   sample_str (- (12345678 # 10000)) <> "") /\
  sample_value_to_string (VFloat (- (12345678 # 10000))%Q) 3
  = Ok (FormatF (- (12345678 # 10000))%Q 3).
Proof.
  assert (H0 : Qeq_bool (- (12345678 # 10000)) 0 = false) by reflexivity.
  assert (Hhi : sample_pow10 (Z.of_nat 3 + 1) = Ok (10000 # 1)%Q)
    by reflexivity.
  assert (Hlo : sample_pow10 (- Z.of_nat 3 - 1) = Ok (1 # 10000)%Q)
    by reflexivity.
  assert (Hs : sample_str (- (12345678 # 10000)) <> "") by discriminate.
  split; [auto |].
  destruct (C7_value_to_string_thresholds (O := Z) Qabs Qle_bool
              (fun q => Qeq_bool q 0) sample_pow10 sample_str
              (- (12345678 # 10000))%Q 3%nat) as [_ [_ Hfloat]].
  destruct (Hfloat H0) as [_ Hpow].
  destruct (Hpow _ Hhi) as [_ [_ Hboth]].
  destruct (Hboth _ Hlo) as [_ Hplain].
  apply Hplain; [reflexivity | exact Hs].
Defined.

(** C7 as stated fails: for the nonzero float 1.5 and the precision
    308 the power [10.0 ** 309] is beyond the largest float, and
    [value_to_string] raises [OverflowError] where the claim promises the
    plain text. *)
Lemma C7_counterexample :
  Qeq_bool (3 # 2) 0 = false /\
  sample_value_to_string (VFloat (3 # 2)%Q) 308 = Raise OverflowError /\
  sample_value_to_string (VFloat (3 # 2)%Q) 3 = Ok (Str (VFloat (3 # 2)%Q)).
Proof.
  split; [reflexivity |]. split; reflexivity.
Qed.

(** ** tools.py: the colorbar parameters *)

Lemma preserves_ret {A : Type} (a : A) : preserves_config (ret a).
Proof. intros s. reflexivity. Qed.

Lemma preserves_throw {A : Type} (e : exn) : preserves_config (@throw A e).
Proof. intros s. reflexivity. Qed.

Lemma preserves_lift {A : Type} (r : result A) : preserves_config (lift r).
Proof. intros s. reflexivity. Qed.

Lemma preserves_bind {A B : Type} (m : M A) (k : A -> M B) :
  preserves_config m -> (forall a, preserves_config (k a)) ->
  preserves_config (bindM m k).
Proof.
  intros Hm Hk s. unfold bindM. specialize (Hm s).
  destruct (m s) as [[a | e] s']; cbn [snd] in *.
  - rewrite Hk. exact Hm.
  - exact Hm.
Qed.

Lemma preserves_load (r : ref) : preserves_config (load r).
Proof. intros s. destruct r; reflexivity. Qed.

Lemma preserves_save_local (n : nat) (d : dict pyval) :
  preserves_config (save (Local n) d).
Proof. intros s. reflexivity. Qed.

Lemma preserves_getitem (r : ref) (k : string) : preserves_config (getitem r k).
Proof.
  unfold getitem. apply preserves_bind; [apply preserves_load |].
  intros d. apply preserves_lift.
Qed.

Lemma preserves_setitem_local (n : nat) (k : string) (v : pyval) :
  preserves_config (setitem (Local n) k v).
Proof.
  unfold setitem. apply preserves_bind; [apply preserves_load |].
  intros d. apply preserves_save_local.
Qed.

Lemma preserves_update_items_local (n : nat) (skip_none : bool)
    (items : dict pyval) :
  preserves_config (update_items (Local n) skip_none items).
Proof.
  induction items as [| [key val] rest IH]; cbn [update_items].
  - apply preserves_ret.
  - apply preserves_bind; [| intros _; exact IH].
    destruct (skip_none && is_none val);
      [apply preserves_ret | apply preserves_setitem_local].
Qed.

Lemma preserves_bind_new_dict {B : Type} (d : dict pyval) (k : ref -> M B) :
  (forall n, preserves_config (k (Local n))) ->
  preserves_config (bindM (new_dict d) k).
Proof.
  intros Hk s. unfold bindM, new_dict. rewrite (Hk (length (locals s))).
  reflexivity.
Qed.

Lemma bind_result {A B : Type} (m : M A) (k : A -> M B) (P : B -> Prop) :
  (forall a s b, fst (k a s) = Ok b -> P b) ->
  forall s b, fst (bindM m k s) = Ok b -> P b.
Proof.
  intros Hk s b. unfold bindM. destruct (m s) as [[a | e] s'].
  - apply Hk.
  - discriminate.
Qed.

Create HintDb frame.

#[local] Hint Resolve preserves_ret preserves_throw preserves_lift
  preserves_load preserves_getitem preserves_setitem_local
  preserves_update_items_local : frame.

Ltac frame :=
  repeat first
    [ progress auto with frame
    | apply preserves_bind; [| intro]
    | match goal with
      | |- preserves_config (if ?b then _ else _) => destruct b
      | |- preserves_config (match ?x with _ => _ end) => destruct x
      end ].

Section Frame.

Variable masked : Type.
Variables ma_log10 ma_masked_invalid : list Q -> masked.
Variables ma_min ma_max : masked -> result pyval.
Variables py_min py_max : pyval -> pyval -> result pyval.
Variable pow10 : pyval -> result pyval.
Variable from_list : string -> list pyval -> result pyval.

Lemma preserves_find_min_max (array : list Q) (n : nat) :
  preserves_config
    (_find_min_max masked ma_log10 ma_masked_invalid ma_min ma_max array
       (Local n)).
Proof. unfold _find_min_max. frame. Qed.

Lemma preserves_parse_params_body (params : pyval)
    (defaults globs : option (dict pyval)) (variable : option variable)
    (array : option (list Q)) (min_val max_val : pyval) :
  preserves_config
    (parse_params masked ma_log10 ma_masked_invalid ma_min ma_max
       py_min py_max pow10 from_list params defaults globs variable array
       min_val max_val).
Proof.
  unfold parse_params.
  apply preserves_bind; [apply preserves_load | intros cfg].
  apply preserves_bind_new_dict. intros n.
  pose proof preserves_find_min_max as Hf.
  frame.
Qed.

End Frame.

Lemma setitem_config_changes (k : string) (v : pyval) (s : store) :
  config_params (snd (setitem ConfigParams k v s)) =
  dict_set (config_params s) k v.
Proof. reflexivity. Qed.

(** C9: [parse_params] leaves the dict of [config["params"]] unchanged,
    for every argument and every store, whether it returns or raises,
    and what it returns is a dict of its own. *)
Theorem C9_parse_params_keeps_config (masked : Type)
    (ma_log10 ma_masked_invalid : list Q -> masked)
    (ma_min ma_max : masked -> result pyval)
    (py_min py_max : pyval -> pyval -> result pyval)
    (pow10 : pyval -> result pyval)
    (from_list : string -> list pyval -> result pyval)
    (params : pyval) (defaults globs : option (dict pyval))
    (variable : option variable) (array : option (list Q))
    (min_val max_val : pyval) (s : store) :
  let run :=
    parse_params masked ma_log10 ma_masked_invalid ma_min ma_max
      py_min py_max pow10 from_list params defaults globs variable array
      min_val max_val s in
  config_params (snd run) = config_params s /\
  (forall parsed, fst run = Ok parsed -> parsed = Local (length (locals s))).
Proof.
  cbv zeta. split; [apply preserves_parse_params_body |].
  unfold parse_params, bindM at 1, load at 1. cbv beta iota.
  unfold bindM at 1, new_dict at 1. cbv beta iota.
  intros parsed. revert parsed.
  match goal with
  | |- forall b, fst (?k ?s0) = Ok b -> _ => generalize s0
  end.
  repeat (apply bind_result; intros ?).
  intros s0 b H. injection H as <-. reflexivity.
Qed.

(** * Further properties *)

(** ** dispatch.py: outcomes *)

Lemma lower_ascii_idem (c : ascii) : lower_ascii (lower_ascii c) = lower_ascii c.
Proof.
  destruct c as [[] [] [] [] [] [] [] []]; reflexivity.
Qed.

Lemma lower_idem (s : string) : lower (lower s) = lower s.
Proof.
  induction s as [| c s IH]; cbn [lower]; [reflexivity |].
  rewrite lower_ascii_idem, IH. reflexivity.
Qed.

(** X1: the exceptions of [dispatch], in the order in which the body
    meets them: a number of dimensions below one; then, with bins and
    data arrays both non-empty, the unbound [histogram_events_data];
    then, for an explicit projection, the unbound [plot_3d] for 3d and the
    wrong-projection error for any text other than 1d, 2d and 3d, whose
    message quotes the lowercased projection: for ASCII text that is
    [lower p]. *)
Theorem X1_dispatch_error_table {D L K : Type} (data_arrays : dict D)
    (ndim : Z) (name : option string) (collapse : pyval)
    (bins : option (dict pyval)) (projection : option string)
    (mpl_line_params : option L) (kwargs : K) :
  let run := dispatch data_arrays ndim name collapse bins projection
               mpl_line_params kwargs in
  (ndim < 1 ->
   run = Raise (RuntimeError
                  ("Invalid number of dimensions for plotting: "
                   ++ str_int ndim))) /\
  (1 <= ndim ->
   (forall b, bins = Some b -> b <> [] -> data_arrays <> [] ->
      run = Raise (NameError "histogram_events_data")) /\
   ((bins = None \/ bins = Some [] \/ data_arrays = []) ->
    forall p, projection = Some p ->
      (lower p = "3d" -> run = Raise (NameError "plot_3d")) /\
      (lower p <> "1d" -> lower p <> "2d" -> lower p <> "3d" ->
       exists got,
         run = Raise (RuntimeError
                        ("Wrong projection type. Expected either '2d' or '3d', got "
                         ++ got ++ ".")) /\
         (is_ascii p = true -> got = lower p)))).
Proof.
  cbv zeta. unfold dispatch. split.
  - intros Hlt. destruct (Z.ltb_spec ndim 1); [reflexivity | lia].
  - intros Hge. destruct (Z.ltb_spec ndim 1) as [Hlt | _]; [lia |].
    split.
    + intros b -> Hb Hda.
      destruct b as [| [dim bn] b]; [contradiction |].
      destruct data_arrays as [| [key obj] rest]; [contradiction |].
      reflexivity.
    + intros Hinert p ->.
      assert (Hda : exists da,
                match bins with
                | Some b => histogram_all D data_arrays b []
                | None => Ok data_arrays
                end = Ok da).
      { destruct Hinert as [-> | [-> | ->]].
        - eexists. reflexivity.
        - rewrite histogram_all_no_bins. eexists. reflexivity.
        - destruct bins as [b |]; eexists; reflexivity. }
      destruct Hda as [da ->]. cbn [bind]. cbv zeta.
      split.
      * intros ->. reflexivity.
      * intros H1 H2 H3.
        destruct (String.eqb_spec (lower p) "1d"); [contradiction |].
        destruct (String.eqb_spec (lower p) "2d"); [contradiction |].
        destruct (String.eqb_spec (lower p) "3d"); [contradiction |].
        exists (lower p). split; [reflexivity | auto].
Qed.

Lemma X1_witness :
  (1 <= 2 /\ Some "Polar" = Some "Polar" /\ lower "Polar" <> "1d" /\
   lower "Polar" <> "2d" /\ lower "Polar" <> "3d" /\
   is_ascii "Polar" = true) /\
  dispatch [("a", as_data_array image_xy)] 2 (Some "a") PNone None
    (Some "Polar") (@None (dict (dict pyval))) tt =
  Raise (RuntimeError
           "Wrong projection type. Expected either '2d' or '3d', got polar.").
Proof.
  split.
  - repeat split; try discriminate; lia.
  - destruct (X1_dispatch_error_table [("a", as_data_array image_xy)] 2
                (Some "a") PNone None (Some "Polar")
                (@None (dict (dict pyval))) tt) as [_ H].
    destruct (H ltac:(lia)) as [_ H2].
    destruct (H2 (or_introl eq_refl) "Polar" eq_refl) as [_ H3].
    destruct H3 as [got [Hrun Hgot]]; try discriminate.
    rewrite Hrun, (Hgot eq_refl). reflexivity.
Defined.

(** X2: the projection is read without regard to case: a projection and
    its lowercase form give the same outcome, errors included. *)
Theorem X2_dispatch_case_insensitive {D L K : Type} (data_arrays : dict D)
    (ndim : Z) (name : option string) (collapse : pyval)
    (bins : option (dict pyval)) (p : string)
    (mpl_line_params : option L) (kwargs : K) :
  dispatch data_arrays ndim name collapse bins (Some p) mpl_line_params kwargs
  = dispatch data_arrays ndim name collapse bins (Some (lower p))
      mpl_line_params kwargs.
Proof.
  unfold dispatch. rewrite lower_idem. reflexivity.
Qed.

(** X3: with an explicit projection the outcome does not depend on the
    number of dimensions, as long as there is at least one: 1d in any
    letter case gives [plot_1d] even for data of more dimensions. *)
Theorem X3_dispatch_explicit_projection {D L K : Type} (data_arrays : dict D)
    (ndim ndim' : Z) (name : option string) (collapse : pyval)
    (bins : option (dict pyval)) (p : string)
    (mpl_line_params : option L) (kwargs : K) :
  1 <= ndim -> 1 <= ndim' ->
  dispatch data_arrays ndim name collapse bins (Some p) mpl_line_params kwargs
  = dispatch data_arrays ndim' name collapse bins (Some p) mpl_line_params
      kwargs.
Proof.
  intros Hge Hge'. unfold dispatch.
  destruct (Z.ltb_spec ndim 1) as [Hlt | _]; [lia |].
  destruct (Z.ltb_spec ndim' 1) as [Hlt | _]; [lia |].
  reflexivity.
Qed.

Lemma X3_witness :
  1 <= 3 /\ 1 <= 1 /\
  dispatch [("a", as_data_array image_xy)] 3 (Some "a") PNone None (Some "1D")
    (@None (dict (dict pyval))) tt
  = Ok (plot_1d [("a", as_data_array image_xy)] None tt).
Proof.
  split; [lia |]. split; [lia |].
  rewrite (X3_dispatch_explicit_projection [("a", as_data_array image_xy)] 3 1
             (Some "a") PNone None "1D" (@None (dict (dict pyval))) tt);
    [reflexivity | lia | lia].
Defined.

Lemma fold_dict_set_fresh {V : Type} (items acc : dict V) :
  NoDup (dict_keys (acc ++ items)%list) ->
  fold_left (fun d kv => dict_set d (fst kv) (snd kv)) items acc
  = (acc ++ items)%list.
Proof.
  revert acc. induction items as [| [k v] items IH]; intros acc Hnd.
  - cbn. rewrite app_nil_r. reflexivity.
  - cbn [fold_left fst snd].
    assert (Hnew : dict_mem acc k = false).
    { destruct (dict_mem acc k) eqn:E; [| reflexivity].
      apply dict_mem_In in E. unfold dict_keys in Hnd. rewrite map_app in Hnd.
      cbn [map fst] in Hnd. apply NoDup_remove_2 in Hnd.
      exfalso. apply Hnd. apply in_or_app. left. exact E. }
    assert (Hset : dict_set acc k v = (acc ++ [(k, v)])%list).
    { clear -Hnew. unfold dict_mem in Hnew.
      induction acc as [| [k' v'] acc IHa]; [reflexivity |].
      cbn [dict_get] in Hnew. cbn [dict_set app].
      destruct (String.eqb k k'); [discriminate |].
      rewrite IHa by exact Hnew. reflexivity. }
    rewrite Hset, IH; rewrite <- app_assoc; [reflexivity | exact Hnd].
Qed.

(** X4: an empty [bins] dict changes nothing: for data arrays with
    distinct names the outcome is that of [bins=None]. *)
Theorem X4_dispatch_empty_bins {D L K : Type} (data_arrays : dict D)
    (ndim : Z) (name : option string) (collapse : pyval)
    (projection : option string) (mpl_line_params : option L) (kwargs : K) :
  NoDup (dict_keys data_arrays) ->
  dispatch data_arrays ndim name collapse (Some []) projection
    mpl_line_params kwargs
  = dispatch data_arrays ndim name collapse None projection
      mpl_line_params kwargs.
Proof.
  intros Hnd. unfold dispatch. rewrite histogram_all_no_bins.
  rewrite fold_dict_set_fresh by exact Hnd. reflexivity.
Qed.

Lemma X4_witness :
  NoDup (dict_keys [("a", as_data_array tof_counts);
                    ("b", as_data_array tof_counts)]) /\
  dispatch [("a", as_data_array tof_counts); ("b", as_data_array tof_counts)]
    1 (Some "tof.counts") PNone (Some []) None (@None (dict (dict pyval))) tt
  = dispatch [("a", as_data_array tof_counts); ("b", as_data_array tof_counts)]
      1 (Some "tof.counts") PNone None None (@None (dict (dict pyval))) tt.
Proof.
  assert (H : NoDup (dict_keys [("a", as_data_array tof_counts);
                                ("b", as_data_array tof_counts)])).
  { cbn. repeat constructor; cbn; intuition discriminate. }
  split; [exact H |].
  apply (X4_dispatch_empty_bins _ 1 (Some "tof.counts") PNone None
           (@None (dict (dict pyval))) tt H).
Defined.

(** ** tools.py: the default line parameters, any index and any name *)

Lemma list_item_in_range {A : Type} (l : list A) (j : Z) :
  0 <= j < Z.of_nat (length l) ->
  exists a, nth_error l (Z.to_nat j) = Some a /\ list_item l j = Ok a.
Proof.
  intros Hj. destruct (list_item_nat l (Z.to_nat j)) as [a [Hn Hi]]; [lia |].
  rewrite Z2Nat.id in Hi by lia. exists a. split; assumption.
Qed.

Lemma list_item_negative {A : Type} (l : list A) (k : Z) :
  1 <= k <= Z.of_nat (length l) ->
  list_item l (- k) = list_item l (Z.of_nat (length l) - k).
Proof.
  intros Hk. unfold list_item.
  destruct (Z.ltb_spec (- k) 0) as [_ | H]; [| lia].
  destruct (Z.ltb_spec (Z.of_nat (length l) - k) 0) as [H | _]; [lia |].
  replace (- k + Z.of_nat (length l)) with (Z.of_nat (length l) - k) by lia.
  reflexivity.
Qed.

(** X5: for a name whose config entry is a list of defaults and any
    integer index, negative ones included, [get_line_param] returns the
    element at [index mod length]; the value repeats with period [length]
    in both directions, and the indices -1, -2, ... select the defaults
    from the last one backwards, as a subscript of the list would. *)
Theorem X5_get_line_param_any_integer (name : string) (l : list pyval)
    (index : Z) :
  dict_get config name = Some (PList l) ->
  exists v,
    get_line_param name index = Ok v /\
    nth_error l (Z.to_nat (index mod Z.of_nat (length l))) = Some v /\
    get_line_param name (index + Z.of_nat (length l)) = Ok v /\
    get_line_param name (index - Z.of_nat (length l)) = Ok v /\
    (- Z.of_nat (length l) <= index < Z.of_nat (length l) ->
     list_item l index = Ok v).
Proof.
  intros Hcfg. pose proof (config_lists_nonempty _ _ Hcfg) as Hne.
  assert (Hlen : 0 < Z.of_nat (length l)).
  { destruct l; [contradiction | cbn [length]; lia]. }
  destruct (list_item_in_range l (index mod Z.of_nat (length l)))
    as [v [Hnth Hitem]].
  { apply Z.mod_pos_bound. exact Hlen. }
  exists v. rewrite !(get_line_param_list _ _ _ Hcfg).
  split; [exact Hitem |]. split; [exact Hnth |]. split; [| split].
  - replace (index + Z.of_nat (length l))
      with (index + 1 * Z.of_nat (length l)) by lia.
    rewrite Z_mod_plus_full. exact Hitem.
  - replace (index - Z.of_nat (length l))
      with (index + (-1) * Z.of_nat (length l)) by lia.
    rewrite Z_mod_plus_full. exact Hitem.
  - intros Hrange. destruct (Z.ltb_spec index 0) as [Hneg | Hpos].
    + replace index with (- (- index)) by lia.
      rewrite list_item_negative by lia.
      replace (Z.of_nat (length l) - - index)
        with (index mod Z.of_nat (length l)); [exact Hitem |].
      symmetry. apply (Z.mod_unique _ _ (-1)); lia.
    + rewrite Z.mod_small in Hitem by lia. exact Hitem.
Qed.

Lemma X5_witness :
  dict_get config "marker" =
    Some (PList [ PStr "o"; PStr "^"; PStr "s"; PStr "d"; PStr "*"; PStr "1";
                  PStr "P"; PStr "h"; PStr "X"; PStr "v"; PStr "<"; PStr ">";
                  PStr "2"; PStr "3"; PStr "4"; PStr "8"; PStr "p"; PStr "H";
                  PStr "+"; PStr "x"; PStr "D" ]) /\
  get_line_param "marker" (-1) = Ok (PStr "D").
Proof.
  split; [reflexivity |].
  destruct (X5_get_line_param_any_integer "marker" _ (-1) eq_refl)
    as [v [Hv _]].
  rewrite Hv. vm_compute in Hv. injection Hv as <-. reflexivity.
Defined.

(** X6: [get_line_param] returns for exactly five names: the four line
    parameters, and aspect, whose text is subscripted like a list. A name
    that is not a key of the config raises [KeyError] with that name; the
    integer entries height, width and dpi raise [TypeError]; and the
    params dict raises [KeyError]. *)
Theorem X6_get_line_param_names (name : string) (index : Z) :
  ((exists v, get_line_param name index = Ok v) <->
   In name ["color"; "marker"; "linewidth"; "linestyle"; "aspect"]) /\
  (dict_get config name = None ->
   get_line_param name index = Raise (KeyError name)) /\
  (In name ["height"; "width"; "dpi"] ->
   get_line_param name index = Raise TypeError) /\
  (name = "params" -> exists k, get_line_param name index = Raise (KeyError k)).
Proof.
  assert (Hlist : forall l, dict_get config name = Some (PList l) ->
                            exists v, get_line_param name index = Ok v).
  { intros l Hcfg. rewrite (get_line_param_list _ _ _ Hcfg).
    pose proof (config_lists_nonempty _ _ Hcfg) as Hne.
    destruct (list_item_in_range l (index mod Z.of_nat (length l)))
      as [v [_ Hv]].
    { apply Z.mod_pos_bound. destruct l; [contradiction | cbn [length]; lia]. }
    exists v. exact Hv. }
  assert (Haspect : exists v, get_line_param "aspect" index = Ok v).
  { unfold get_line_param. cbn [dict_item dict_get config String.eqb Ascii.eqb
      Bool.eqb bind py_len String.length py_mod Z.of_nat Pos.of_succ_nat
      Pos.succ Z.eqb py_getitem list_ascii_of_string].
    destruct (list_item_in_range ["a"; "u"; "t"; "o"]%char (index mod 4))
      as [c [_ Hc]].
    { cbn [length]. apply Z.mod_pos_bound. lia. }
    rewrite Hc. eexists. reflexivity. }
  unfold get_line_param at 2 3 4. unfold dict_item, config. cbn [dict_get].
  split; [| split; [| split]].
  - split.
    + intros [v Hv]. revert Hv. unfold get_line_param, dict_item, config.
      cbn [dict_get In].
      repeat match goal with
             | |- context [String.eqb name ?s] =>
                 destruct (String.eqb_spec name s) as [-> | ?];
                 [ cbn [bind py_len py_mod]; try (intros; tauto) | ]
             end; cbn [bind]; intros Hv; try discriminate.
    + cbn [In]. intros [<- | [<- | [<- | [<- | [<- | []]]]]];
        try (eapply Hlist; reflexivity); exact Haspect.
  - repeat match goal with
           | |- context [String.eqb name ?s] => destruct (String.eqb name s)
           end; intros H; try discriminate; reflexivity.
  - cbn [In]. intros [<- | [<- | [<- | []]]]; reflexivity.
  - intros ->. cbn. eexists. reflexivity.
Qed.

Lemma X6_witness :
  In "height" ["height"; "width"; "dpi"] /\
  get_line_param "height" 3 = Raise TypeError.
Proof.
  split; [left; reflexivity |].
  apply (X6_get_line_param_names "height" 3). left. reflexivity.
Defined.

(** ** tools.py: centers and edges, further *)

(** X7: in any arithmetic, [edges_to_centers] never fails, returns one
    element less than it receives (none for an empty array), and its
    element [i] is the product of [0.5] and the sum of the elements
    [i + 1] and [i] of the input, as the arithmetic of the array computes
    them. *)
Theorem X7_edges_to_centers_midpoints {A : Type} `{Scalar A} (x : list A) :
  length (edges_to_centers x) = pred (length x) /\
  forall (i : nat) (a b : A),
    nth_error x i = Some a -> nth_error x (S i) = Some b ->
    nth_error (edges_to_centers x) i = Some (sc_mul sc_half (sc_add b a)).
Proof.
  split; [apply edges_to_centers_length |].
  destruct x as [| a0 x]; [intros [| i] a b Ha; discriminate |].
  revert a0. induction x as [| b0 r IH]; intros a0 i a b Ha Hb.
  - destruct i; cbn in Hb; [discriminate | destruct i; discriminate].
  - rewrite edges_to_centers_step. destruct i as [| i].
    + cbn in Ha, Hb. injection Ha as <-. injection Hb as <-. reflexivity.
    + cbn [nth_error] in Ha, Hb |- *. apply (IH b0 i a b); assumption.
Qed.

Lemma X7_witness :
  nth_error [1; 2; 4]%float 1 = Some 2%float /\
  nth_error [1; 2; 4]%float 2 = Some 4%float /\
  nth_error (edges_to_centers [1; 2; 4]%float) 1 = Some 3%float.
Proof.
  split; [reflexivity |]. split; [reflexivity |].
  rewrite (proj2 (X7_edges_to_centers_midpoints [1; 2; 4]%float) 1%nat
             2%float 4%float eq_refl eq_refl).
  vm_compute. reflexivity.
Defined.

(** X8: in any arithmetic, [centers_to_edges] fails on the empty array
    only, and then with [IndexError]. *)
Theorem X8_centers_to_edges_empty {A : Type} `{Scalar A} (x : list A) :
  (centers_to_edges x = Raise IndexError <-> x = []) /\
  (forall e, centers_to_edges x = Raise e -> e = IndexError /\ x = []).
Proof.
  destruct x as [| a [| b r]].
  - split; [split; reflexivity |]. intros e He. cbn in He.
    injection He as <-. split; reflexivity.
  - rewrite centers_to_edges_single.
    split; [split; intros He; discriminate | intros e He; discriminate].
  - rewrite centers_to_edges_step.
    split; [split; intros He; discriminate | intros e He; discriminate].
Qed.

Lemma X8_witness : centers_to_edges (@nil Q) = Raise IndexError.
Proof.
  apply (proj1 (X8_centers_to_edges_empty (@nil Q))). reflexivity.
Defined.

(** ** tools.py: the store *)

Lemma nth_list_update_same {A : Type} (l : list A) (n : nat) (a d : A) :
  (n < length l)%nat -> nth n (list_update l n a) d = a.
Proof.
  revert n. induction l as [| h t IH]; intros [| n] Hn; cbn in *;
    try lia; [reflexivity |]. apply IH. lia.
Qed.

Lemma nth_list_update_other {A : Type} (l : list A) (n m : nat) (a d : A) :
  m <> n -> nth m (list_update l n a) d = nth m l d.
Proof.
  revert n m. induction l as [| h t IH]; intros [| n] [| m] Hne; cbn;
    try reflexivity; try contradiction. apply IH. lia.
Qed.

Lemma length_list_update {A : Type} (l : list A) (n : nat) (a : A) :
  length (list_update l n a) = length l.
Proof.
  revert n. induction l as [| h t IH]; intros [| n]; cbn; try reflexivity.
  rewrite IH. reflexivity.
Qed.

Lemma getitem_run (r : ref) (k : string) (s : store) :
  getitem r k s = (dict_item (contents s r) k, s).
Proof. destruct r; reflexivity. Qed.

Lemma setitem_local_run (n : nat) (k : string) (v : pyval) (s : store) :
  setitem (Local n) k v s =
  (Ok tt, mk_store (config_params s)
            (list_update (locals s) n (dict_set (nth n (locals s) []) k v))).
Proof. reflexivity. Qed.

Lemma update_items_local_run (n : nat) (skip_none : bool) (items : dict pyval) :
  forall s,
    (n < length (locals s))%nat ->
    update_items (Local n) skip_none items s =
    (Ok tt, mk_store (config_params s)
              (list_update (locals s) n
                 (dict_update (nth n (locals s) []) skip_none items))).
Proof.
  induction items as [| [key val] rest IH]; intros s Hn.
  - cbn [update_items dict_update]. unfold ret.
    replace (list_update (locals s) n (nth n (locals s) [])) with (locals s).
    + destruct s; reflexivity.
    + clear. revert n. induction (locals s) as [| h t IHl]; intros [| n];
        cbn; try reflexivity. rewrite <- IHl. reflexivity.
  - cbn [update_items dict_update]. unfold bindM.
    destruct (skip_none && is_none val).
    + unfold ret. apply IH. exact Hn.
    + rewrite setitem_local_run. rewrite IH.
      * cbn [config_params locals].
        rewrite nth_list_update_same by exact Hn.
        f_equal. f_equal. clear. revert n.
        induction (locals s) as [| h t IHl]; intros [| n]; cbn;
          try reflexivity. rewrite IHl. reflexivity.
      * cbn [locals]. rewrite length_list_update. exact Hn.
Qed.

Lemma dict_update_get (d : dict pyval) (skip_none : bool) (items : dict pyval)
    (k : string) :
  NoDup (dict_keys items) ->
  dict_get (dict_update d skip_none items) k =
  match dict_get items k with
  | Some v => if skip_none && is_none v then dict_get d k else Some v
  | None => dict_get d k
  end.
Proof.
  revert d. induction items as [| [key val] rest IH]; intros d Hnd;
    [reflexivity |].
  inversion Hnd as [| ? ? Hnotin Hnd']; subst.
  cbn [dict_update dict_get]. rewrite IH by exact Hnd'.
  destruct (String.eqb_spec k key) as [-> | Hne].
  - apply dict_get_None_notin in Hnotin. rewrite Hnotin.
    destruct (skip_none && is_none val); [reflexivity |].
    apply dict_get_set_same.
  - destruct (dict_get rest k) as [v |].
    + destruct (skip_none && is_none v); [| reflexivity].
      destruct (skip_none && is_none val); [reflexivity |].
      apply dict_get_set_other. exact Hne.
    + destruct (skip_none && is_none val); [reflexivity |].
      apply dict_get_set_other. exact Hne.
Qed.

Lemma list_update_snoc {A : Type} (l : list A) (a b : A) :
  list_update (l ++ [a]) (length l) b = (l ++ [b])%list.
Proof.
  induction l as [| h t IH]; cbn; [reflexivity |]. rewrite IH. reflexivity.
Qed.

Lemma nth_snoc {A : Type} (l : list A) (a d : A) :
  nth (length l) (l ++ [a]) d = a.
Proof.
  rewrite app_nth2 by lia. rewrite Nat.sub_diag. reflexivity.
Qed.

(** Stepping through a computation in the store. *)

Lemma bindM_assoc {A B C : Type} (m : M A) (f : A -> M B) (g : B -> M C)
    (s : store) :
  bindM (bindM m f) g s = bindM m (fun a => bindM (f a) g) s.
Proof.
  unfold bindM. destruct (m s) as [[a | e] s']; [| reflexivity].
  reflexivity.
Qed.

Lemma bindM_ret {A B : Type} (a : A) (f : A -> M B) (s : store) :
  bindM (ret a) f s = f a s.
Proof. reflexivity. Qed.

Lemma bindM_throw {A B : Type} (e : exn) (f : A -> M B) (s : store) :
  bindM (throw e) f s = (Raise e, s).
Proof. reflexivity. Qed.

Lemma bindM_lift {A B : Type} (r : result A) (f : A -> M B) (s : store) :
  bindM (lift r) f s =
  match r with Ok a => f a s | Raise e => (Raise e, s) end.
Proof. unfold bindM, lift. destruct r; reflexivity. Qed.

Lemma bindM_getitem {B : Type} (r : ref) (k : string) (f : pyval -> M B)
    (s : store) :
  bindM (getitem r k) f s =
  match dict_get (contents s r) k with
  | Some v => f v s
  | None => (Raise (KeyError k), s)
  end.
Proof.
  unfold bindM. rewrite getitem_run. unfold dict_item.
  destruct (dict_get (contents s r) k); reflexivity.
Qed.

Lemma bindM_setitem_local {B : Type} (n : nat) (k : string) (v : pyval)
    (f : unit -> M B) (s : store) :
  bindM (setitem (Local n) k v) f s =
  f tt (mk_store (config_params s)
          (list_update (locals s) n (dict_set (contents s (Local n)) k v))).
Proof. reflexivity. Qed.

Lemma bindM_if {A B : Type} (b : bool) (m1 m2 : M A) (f : A -> M B)
    (s : store) :
  bindM (if b then m1 else m2) f s =
  if b then bindM m1 f s else bindM m2 f s.
Proof. destruct b; reflexivity. Qed.

Lemma contents_local_update (s : store) (n : nat) (d : dict pyval) :
  (n < length (locals s))%nat ->
  contents (mk_store (config_params s) (list_update (locals s) n d)) (Local n)
  = d.
Proof. intros Hn. cbn [contents locals]. apply nth_list_update_same. exact Hn. Qed.

Ltac step :=
  first [ rewrite bindM_assoc
        | rewrite bindM_ret
        | rewrite bindM_throw
        | rewrite bindM_lift
        | rewrite bindM_getitem
        | rewrite bindM_setitem_local ].

(** ** tools.py: the limits of the colorbar *)

Section Limits.

Variable masked : Type.
Variables ma_log10 ma_masked_invalid : list Q -> masked.
Variables ma_min ma_max : masked -> result pyval.

(** X11: [_find_min_max] keeps the limits that are set. With both
    [vmin] and [vmax] set it changes nothing and does not look at the
    array or at [log]. Otherwise it takes the missing limits from the
    array, through [log10] when [log] is set, first [vmin] and then
    [vmax]: a reduction that raises ends the call with its exception,
    after [vmin] is stored when it is the second one. No other key and
    no other dict is touched. *)
Theorem X11_find_min_max_keeps_given_limits (array : list Q) (n : nat)
    (s : store) (v w : pyval) :
  (n < length (locals s))%nat ->
  dict_get (contents s (Local n)) "vmin" = Some v ->
  dict_get (contents s (Local n)) "vmax" = Some w ->
  let run := _find_min_max masked ma_log10 ma_masked_invalid ma_min ma_max
               array (Local n) s in
  (is_none v = false -> is_none w = false -> run = (Ok tt, s)) /\
  (forall l,
     dict_get (contents s (Local n)) "log" = Some l ->
     let valid := if truthy l then ma_log10 array
                  else ma_masked_invalid array in
     config_params (snd run) = config_params s /\
     length (locals (snd run)) = length (locals s) /\
     (forall m, m <> n ->
        contents (snd run) (Local m) = contents s (Local m)) /\
     (forall k, k <> "vmin" -> k <> "vmax" ->
        dict_get (contents (snd run) (Local n)) k
        = dict_get (contents s (Local n)) k) /\
     match (if is_none v then ma_min valid else Ok v) with
     | Raise e => run = (Raise e, s)
     | Ok a =>
         dict_get (contents (snd run) (Local n)) "vmin" = Some a /\
         match (if is_none w then ma_max valid else Ok w) with
         | Raise e =>
             fst run = Raise e /\
             dict_get (contents (snd run) (Local n)) "vmax" = Some w
         | Ok b =>
             fst run = Ok tt /\
             dict_get (contents (snd run) (Local n)) "vmax" = Some b
         end
     end).
Proof.
  intros Hn Hv Hw run. subst run.
  assert (Hret : forall st : store, ret tt st = (Ok tt, st)) by reflexivity.
  assert (Hfinal : forall (k : string) (x : pyval) (st : store),
            setitem (Local n) k x st =
            (Ok tt, mk_store (config_params st)
                      (list_update (locals st) n
                         (dict_set (contents st (Local n)) k x))))
    by reflexivity.
  assert (Hlast : forall (r : result pyval) (k : string) (st : store),
            bindM (lift r) (fun a => setitem (Local n) k a) st =
            match r with
            | Ok a => (Ok tt, mk_store (config_params st)
                                (list_update (locals st) n
                                   (dict_set (contents st (Local n)) k a)))
            | Raise e => (Raise e, st)
            end).
  { intros r k st. destruct r; reflexivity. }
  split.
  - intros Nv Nw. unfold _find_min_max.
    repeat step. rewrite Hv, Nv. repeat step. rewrite Hw, Nw.
    repeat step. rewrite Hv, Nv. repeat step. rewrite Hw, Nw. reflexivity.
  - intros l Hl valid. unfold _find_min_max.
    repeat step. rewrite Hv.
    destruct (is_none v) eqn:Nv; destruct (is_none w) eqn:Nw.
    + repeat step. rewrite Hl. repeat step. rewrite Hv, Nv. repeat step.
      fold valid. destruct (ma_min valid) as [a | e].
      2:{ cbn [snd]. repeat split; reflexivity. }
      repeat step.
      rewrite contents_local_update by exact Hn.
      rewrite dict_get_set_other by discriminate. rewrite Hw, Nw.
      rewrite Hlast. rewrite contents_local_update by exact Hn.
      destruct (ma_max valid) as [b | e]; cbn [fst snd config_params locals contents].
      * split; [reflexivity |].
        split; [rewrite !length_list_update; reflexivity |].
        split; [intros m Hm; rewrite !nth_list_update_other by exact Hm;
                reflexivity |].
        rewrite nth_list_update_same
          by (rewrite length_list_update; exact Hn).
        split; [intros k K1 K2; rewrite !dict_get_set_other by assumption;
                reflexivity |].
        split; [rewrite dict_get_set_other by discriminate;
                apply dict_get_set_same |].
        split; [reflexivity | apply dict_get_set_same].
      * split; [reflexivity |].
        split; [rewrite !length_list_update; reflexivity |].
        split; [intros m Hm; rewrite !nth_list_update_other by exact Hm;
                reflexivity |].
        rewrite nth_list_update_same by exact Hn.
        split; [intros k K1 K2; rewrite !dict_get_set_other by assumption;
                reflexivity |].
        split; [apply dict_get_set_same |].
        split; [reflexivity |].
        rewrite dict_get_set_other by discriminate. exact Hw.
    + repeat step. rewrite Hl. repeat step. rewrite Hv, Nv. repeat step.
      fold valid. destruct (ma_min valid) as [a | e].
      2:{ cbn [snd]. repeat split; reflexivity. }
      repeat step.
      rewrite contents_local_update by exact Hn.
      rewrite dict_get_set_other by discriminate. rewrite Hw, Nw.
      rewrite Hret. cbn [fst snd config_params locals contents].
      split; [reflexivity |].
      split; [rewrite !length_list_update; reflexivity |].
      split; [intros m Hm; rewrite !nth_list_update_other by exact Hm;
              reflexivity |].
      rewrite nth_list_update_same by exact Hn.
      split; [intros k K1 K2; rewrite !dict_get_set_other by assumption;
              reflexivity |].
      split; [apply dict_get_set_same |].
      split; [reflexivity |].
      rewrite dict_get_set_other by discriminate. exact Hw.
    + repeat step. rewrite Hw, Nw. repeat step. rewrite Hl. repeat step.
      rewrite Hv, Nv. repeat step. rewrite Hw, Nw. rewrite Hlast.
      fold valid.
      destruct (ma_max valid) as [b | e]; cbn [fst snd config_params locals contents].
      * split; [reflexivity |].
        split; [rewrite !length_list_update; reflexivity |].
        split; [intros m Hm; rewrite !nth_list_update_other by exact Hm;
                reflexivity |].
        rewrite nth_list_update_same by exact Hn.
        split; [intros k K1 K2; rewrite !dict_get_set_other by assumption;
                reflexivity |].
        split; [rewrite dict_get_set_other by discriminate; exact Hv |].
        split; [reflexivity | apply dict_get_set_same].
      * repeat split; try reflexivity; assumption.
    + repeat step. rewrite Hw, Nw. repeat step. rewrite Hv, Nv.
      repeat step. rewrite Hw, Nw. rewrite Hret.
      cbn [fst snd]. repeat split; try reflexivity; assumption.
Qed.

End Limits.

Lemma X11_witness :
  (0 < length (locals sample_store))%nat /\
  _find_min_max (list Q) (fun a => a) (fun a => a)
    (fun _ => Ok (PFloat (2 # 1))) (fun _ => Raise ValueError) [5 # 1]%Q
    (Local 0) sample_store = (Ok tt, sample_store).
Proof.
  split; [cbn; lia |].
  apply (X11_find_min_max_keeps_given_limits (list Q) (fun a => a)
           (fun a => a) (fun _ => Ok (PFloat (2 # 1)))
           (fun _ => Raise ValueError)
           [5 # 1]%Q 0 sample_store (PFloat (0 # 1)) (PFloat (1 # 1)));
    try reflexivity. cbn. lia.
Defined.

(** ** tools.py: which value wins in [parse_params] *)

Section Precedence.

Variable masked : Type.
Variables ma_log10 ma_masked_invalid : list Q -> masked.
Variables ma_min ma_max : masked -> result pyval.
Variables py_min py_max : pyval -> pyval -> result pyval.
Variable pow10 : pyval -> result pyval.
Variable from_list : string -> list pyval -> result pyval.

(** X12: with neither a variable nor an array, [parse_params] builds
    a new dict in which every key has the value given in [params], else
    the value given in [globs] unless that is [None], else the value given
    in [defaults], else the value of [config["params"]]. When the
    resulting [color] is [None] that dict is returned; otherwise the
    two-colour map of that colour is made, which replaces [cmap] in the
    returned dict, or else the call raises what [from_list] raises.
    [min_val] and [max_val] play no part. *)
Theorem X12_parse_params_precedence (params : pyval)
    (defaults globs : option (dict pyval)) (min_val max_val : pyval)
    (s : store) (p : dict pyval) :
  params_items params = Some p ->
  NoDup (dict_keys p) ->
  NoDup (dict_keys (items_of defaults)) ->
  NoDup (dict_keys (items_of globs)) ->
  dict_mem (config_params s) "color" = true ->
  let pick (k : string) : option pyval :=
    match dict_get p k with
    | Some v => Some v
    | None =>
        let fallback :=
          match dict_get (items_of defaults) k with
          | Some v => Some v
          | None => dict_get (config_params s) k
          end in
        match dict_get (items_of globs) k with
        | Some v => if is_none v then fallback else Some v
        | None => fallback
        end
    end in
  let after (d : dict pyval) : store :=
    mk_store (config_params s) (locals s ++ [d])%list in
  exists d c,
    (forall k, dict_get d k = pick k) /\
    pick "color" = Some c /\
    parse_params masked ma_log10 ma_masked_invalid ma_min ma_max py_min py_max
      pow10 from_list params defaults globs None None min_val max_val s
    = if is_none c then (Ok (Local (length (locals s))), after d)
      else match from_list "tmp" [c; c] with
           | Ok cmap =>
               (Ok (Local (length (locals s))), after (dict_set d "cmap" cmap))
           | Raise e => (Raise e, after d)
           end.
Proof.
  intros Hp Hndp Hndd Hndg Hcolor pick after.
  set (d1 := dict_update (config_params s) false (items_of defaults)).
  set (d2 := dict_update d1 true (items_of globs)).
  set (d3 := dict_update d2 false p).
  assert (Hget : forall k, dict_get d3 k = pick k).
  { intros k. subst d3 d2 d1 pick. cbv beta zeta.
    rewrite !dict_update_get by assumption. cbn [andb].
    destruct (dict_get p k); [reflexivity |].
    destruct (dict_get (items_of globs) k) as [v |]; [| reflexivity].
    destruct (is_none v); reflexivity. }
  assert (Hc : exists c, dict_get d3 "color" = Some c).
  { rewrite Hget. subst pick. cbv beta zeta. unfold dict_mem in Hcolor.
    destruct (dict_get (config_params s) "color") as [c0 |]; [| discriminate].
    destruct (dict_get p "color"); [eexists; reflexivity |].
    destruct (dict_get (items_of globs) "color") as [v |];
      [destruct (is_none v) |];
      destruct (dict_get (items_of defaults) "color");
      eexists; reflexivity. }
  destruct Hc as [c Hc].
  set (n := length (locals s)).
  set (s0 := mk_store (config_params s) (locals s ++ [config_params s])%list).
  assert (Hn0 : (n < length (locals s0))%nat).
  { subst n s0. cbn [locals]. rewrite length_app. cbn. lia. }
  assert (Hrun1 : forall (skip : bool) (items d : dict pyval),
            update_items (Local n) skip items
              (mk_store (config_params s) (locals s ++ [d])%list)
            = (Ok tt, mk_store (config_params s)
                        (locals s ++ [dict_update d skip items])%list)).
  { intros skip items d. rewrite update_items_local_run.
    - cbn [config_params locals]. subst n.
      rewrite nth_snoc, list_update_snoc. reflexivity.
    - cbn [locals]. rewrite length_app. cbn. subst n. lia. }
  assert (Hstep : forall {B : Type} (skip : bool) (items d : dict pyval)
                         (f : unit -> M B),
            bindM (update_items (Local n) skip items) f
              (mk_store (config_params s) (locals s ++ [d])%list)
            = f tt (mk_store (config_params s)
                      (locals s ++ [dict_update d skip items])%list)).
  { intros B skip items d f. unfold bindM. rewrite Hrun1. reflexivity. }
  assert (Hopt : forall {B : Type} (o : option (dict pyval)) (skip : bool)
                        (d : dict pyval) (f : unit -> M B),
            bindM (match o with
                   | Some x => update_items (Local n) skip x
                   | None => ret tt
                   end) f
              (mk_store (config_params s) (locals s ++ [d])%list)
            = f tt (mk_store (config_params s)
                      (locals s ++ [dict_update d skip (items_of o)])%list)).
  { intros B o skip d f. destruct o; [apply Hstep | reflexivity]. }
  assert (Hpar : forall {B : Type} (d : dict pyval) (f : unit -> M B),
            bindM (match params with
                   | PNone => ret tt
                   | PBool b => update_items (Local n) false [("show", PBool b)]
                   | PDict x => update_items (Local n) false x
                   | _ => throw (AttributeError "items")
                   end) f
              (mk_store (config_params s) (locals s ++ [d])%list)
            = f tt (mk_store (config_params s)
                      (locals s ++ [dict_update d false p])%list)).
  { intros B d f. destruct params; cbn in Hp; try discriminate;
      injection Hp as <-; try apply Hstep. reflexivity. }
  exists d3, c. split; [exact Hget |]. split; [rewrite <- Hget; exact Hc |].
  unfold parse_params.
  unfold bindM at 1. unfold load at 1. cbv beta iota.
  unfold bindM at 1. unfold new_dict at 1. cbv beta iota.
  fold n. rewrite Hopt, Hopt, Hpar. fold d1 d2 d3.
  repeat step. cbn [contents locals]. subst n. rewrite nth_snoc, Hc.
  destruct (is_none c) eqn:Nc.
  - repeat step. reflexivity.
  - repeat step. cbn [contents locals]. rewrite nth_snoc, Hc.
    repeat step. cbn [contents locals]. rewrite nth_snoc, Hc.
    repeat step. destruct (from_list "tmp" [c; c]) as [cmap | e];
      [| reflexivity].
    rewrite bindM_setitem_local. cbn [contents locals config_params].
    rewrite nth_snoc, list_update_snoc. reflexivity.
Qed.

End Precedence.

Lemma X12_witness :
  params_items (PDict [("color", PStr "red")]) = Some [("color", PStr "red")]
  /\ NoDup (dict_keys [("color", PStr "red")])
  /\ NoDup (dict_keys (items_of (Some [("vmin", PFloat (0 # 1));
                                       ("log", PBool false)])))
  /\ NoDup (dict_keys (items_of (Some [("vmin", PNone);
                                       ("log", PBool true)])))
  /\ dict_mem (config_params sample_store) "color" = true
  /\ exists d,
       parse_params (list Q) (fun a => a) (fun a => a)
         (fun _ => Ok (PFloat (2 # 1))) (fun _ => Ok (PFloat (3 # 1)))
         (fun a _ => Ok a) (fun a _ => Ok a) (fun v => Ok v)
         (fun name colors => Ok (PObj name colors))
         (PDict [("color", PStr "red")])
         (Some [("vmin", PFloat (0 # 1)); ("log", PBool false)])
         (Some [("vmin", PNone); ("log", PBool true)])
         None None (PFloat (7 # 1)) (PFloat (8 # 1)) sample_store
       = (Ok (Local 1),
          mk_store (config_params sample_store)
            (locals sample_store
             ++ [dict_set d "cmap" (PObj "tmp" [PStr "red"; PStr "red"])])%list)
       /\
       dict_get d "vmin" = Some (PFloat (0 # 1)) /\
       dict_get d "log" = Some (PBool true) /\
       dict_get d "show" = Some (PBool true).
Proof.
  assert (H1 : params_items (PDict [("color", PStr "red")])
               = Some [("color", PStr "red")]) by reflexivity.
  assert (H2 : NoDup (dict_keys [("color", PStr "red")])).
  { repeat constructor; cbn; intuition discriminate. }
  assert (H3 : NoDup (dict_keys (items_of (Some [("vmin", PFloat (0 # 1));
                                                 ("log", PBool false)])))).
  { repeat constructor; cbn; intuition discriminate. }
  assert (H4 : NoDup (dict_keys (items_of (Some [("vmin", PNone);
                                                 ("log", PBool true)])))).
  { repeat constructor; cbn; intuition discriminate. }
  assert (H5 : dict_mem (config_params sample_store) "color" = true)
    by reflexivity.
  repeat (split; [assumption |]).
  destruct (X12_parse_params_precedence (list Q) (fun a => a) (fun a => a)
              (fun _ => Ok (PFloat (2 # 1))) (fun _ => Ok (PFloat (3 # 1)))
              (fun a _ => Ok a) (fun a _ => Ok a) (fun v => Ok v)
              (fun name colors => Ok (PObj name colors))
              (PDict [("color", PStr "red")])
              (Some [("vmin", PFloat (0 # 1)); ("log", PBool false)])
              (Some [("vmin", PNone); ("log", PBool true)])
              (PFloat (7 # 1)) (PFloat (8 # 1)) sample_store
              [("color", PStr "red")] H1 H2 H3 H4 H5)
    as [d [c [Hk [Hc Hrun]]]].
  cbn in Hc. injection Hc as <-. cbn [is_none] in Hrun.
  exists d. split; [exact Hrun |].
  rewrite !Hk. repeat split; reflexivity.
Defined.

(** ** tools.py: the keys of the colorbar parameters *)

Lemma dict_mem_set {V : Type} (d : dict V) (k k' : string) (v : V) :
  dict_mem d k' = true -> dict_mem (dict_set d k v) k' = true.
Proof.
  unfold dict_mem. intros H.
  destruct (String.eqb_spec k' k) as [-> | Hne].
  - rewrite dict_get_set_same. reflexivity.
  - rewrite dict_get_set_other by exact Hne. exact H.
Qed.

Lemma keeps_ret {A : Type} (a : A) : keeps_keys (ret a).
Proof. intros s. split; [reflexivity | auto]. Qed.

Lemma keeps_throw {A : Type} (e : exn) : keeps_keys (@throw A e).
Proof. intros s. split; [reflexivity | auto]. Qed.

Lemma keeps_lift {A : Type} (r : result A) : keeps_keys (lift r).
Proof. intros s. split; [reflexivity | auto]. Qed.

Lemma keeps_getitem (r : ref) (k : string) : keeps_keys (getitem r k).
Proof. intros s. rewrite getitem_run. split; [reflexivity | auto]. Qed.

Lemma keeps_setitem_local (n : nat) (k : string) (v : pyval) :
  keeps_keys (setitem (Local n) k v).
Proof.
  intros s. rewrite setitem_local_run. cbn [snd locals].
  split; [apply length_list_update |].
  intros i k' H. destruct (Nat.eq_dec i n) as [-> | Hne].
  - destruct (Nat.lt_ge_cases n (length (locals s))) as [Hlt | Hge].
    + rewrite nth_list_update_same by exact Hlt. apply dict_mem_set. exact H.
    + rewrite nth_overflow in H by exact Hge. discriminate.
  - rewrite nth_list_update_other by exact Hne. exact H.
Qed.

Lemma keeps_bind {A B : Type} (m : M A) (k : A -> M B) :
  keeps_keys m -> (forall a, keeps_keys (k a)) -> keeps_keys (bindM m k).
Proof.
  intros Hm Hk s. unfold bindM. destruct (Hm s) as [Hlen Hkeys].
  destruct (m s) as [[a | e] s']; cbn [snd] in *.
  - destruct (Hk a s') as [Hlen' Hkeys']. split; [congruence |].
    intros i key H. apply Hkeys'. apply Hkeys. exact H.
  - split; assumption.
Qed.

Lemma keeps_update_items_local (n : nat) (skip_none : bool)
    (items : dict pyval) :
  keeps_keys (update_items (Local n) skip_none items).
Proof.
  induction items as [| [key val] rest IH]; cbn [update_items].
  - apply keeps_ret.
  - apply keeps_bind; [| intros _; exact IH].
    destruct (skip_none && is_none val);
      [apply keeps_ret | apply keeps_setitem_local].
Qed.

Create HintDb keys.

#[local] Hint Resolve keeps_ret keeps_throw keeps_lift keeps_getitem
  keeps_setitem_local keeps_update_items_local : keys.

Ltac keys :=
  repeat first
    [ progress auto with keys
    | apply keeps_bind; [| intro]
    | match goal with
      | |- keeps_keys (if ?b then _ else _) => destruct b
      | |- keeps_keys (match ?x with _ => _ end) => destruct x
      end ].

Section Keys.

Variable masked : Type.
Variables ma_log10 ma_masked_invalid : list Q -> masked.
Variables ma_min ma_max : masked -> result pyval.
Variables py_min py_max : pyval -> pyval -> result pyval.
Variable pow10 : pyval -> result pyval.
Variable from_list : string -> list pyval -> result pyval.

Lemma keeps_find_min_max (array : list Q) (n : nat) :
  keeps_keys
    (_find_min_max masked ma_log10 ma_masked_invalid ma_min ma_max array
       (Local n)).
Proof. unfold _find_min_max. keys. Qed.

(** X13: when [parse_params] returns, the dict it returns has every key
    of [config["params"]], whatever the arguments add or replace. *)
Theorem X13_parse_params_keeps_keys (params : pyval)
    (defaults globs : option (dict pyval)) (variable : option variable)
    (array : option (list Q)) (min_val max_val : pyval) (s : store)
    (parsed : ref) :
  let run :=
    parse_params masked ma_log10 ma_masked_invalid ma_min ma_max py_min
      py_max pow10 from_list params defaults globs variable array min_val max_val s in
  fst run = Ok parsed ->
  forall k,
    dict_mem (config_params s) k = true ->
    dict_mem (contents (snd run) parsed) k = true.
Proof.
  cbv zeta.
  unfold parse_params. unfold bindM at 1. unfold load at 1. cbv beta iota.
  unfold bindM at 1. unfold new_dict at 1. cbv beta iota.
  set (n := length (locals s)).
  set (s0 := mk_store (config_params s) (locals s ++ [config_params s])%list).
  match goal with
  | |- fst (?k0 s0) = _ -> _ =>
      assert (Hk : keeps_keys k0);
      [ pose proof keeps_find_min_max as Hf; keys | set (rest := k0) in * ]
  end.
  intros Hrun k Hmem.
  assert (Hparsed : parsed = Local n).
  { assert (Hall : forall s1 b, fst (rest s1) = Ok b -> b = Local n).
    { subst rest. repeat (apply bind_result; intros ?).
      intros s1 b H. injection H as <-. reflexivity. }
    exact (Hall s0 parsed Hrun). }
  subst parsed. cbn [contents].
  destruct (Hk s0) as [_ Hkeys]. apply Hkeys.
  subst s0 n. cbn [locals]. rewrite nth_snoc. exact Hmem.
Qed.

End Keys.

Lemma X13_witness :
  let run :=
    parse_params (list Q) (fun a => a) (fun a => a)
      (fun _ => Ok (PFloat (2 # 1))) (fun _ => Ok (PFloat (3 # 1)))
      (fun a _ => Ok a) (fun a _ => Ok a) (fun v => Ok v)
      (fun name colors => Ok (PObj name colors))
      (PDict [("extend", PStr "both")]) None None (Some tof_counts) None
      PNone PNone sample_store in
  fst run = Ok (Local 1) /\
  dict_mem (config_params sample_store) "cbar" = true /\
  dict_mem (contents (snd run) (Local 1)) "cbar" = true.
Proof.
  cbv zeta.
  assert (H1 : fst (parse_params (list Q) (fun a => a) (fun a => a)
                      (fun _ => Ok (PFloat (2 # 1))) (fun _ => Ok (PFloat (3 # 1)))
                      (fun a _ => Ok a) (fun a _ => Ok a) (fun v => Ok v)
      (fun name colors => Ok (PObj name colors))
                      (PDict [("extend", PStr "both")]) None None
                      (Some tof_counts) None PNone PNone sample_store)
               = Ok (Local 1)) by (vm_compute; reflexivity).
  assert (H2 : dict_mem (config_params sample_store) "cbar" = true)
    by reflexivity.
  split; [exact H1 |]. split; [exact H2 |].
  exact (X13_parse_params_keeps_keys (list Q) (fun a => a) (fun a => a)
           (fun _ => Ok (PFloat (2 # 1))) (fun _ => Ok (PFloat (3 # 1)))
           (fun a _ => Ok a) (fun a _ => Ok a) (fun v => Ok v)
      (fun name colors => Ok (PObj name colors))
           (PDict [("extend", PStr "both")]) None None (Some tof_counts) None
           PNone PNone sample_store (Local 1) H1 "cbar" H2).
Defined.

(** ** tools.py: the norm and the limits *)

Lemma post_bind {A B : Type} (I : store -> Prop)
    (Q : result B * store -> Prop) (m : M A) (k : A -> M B) :
  (forall e s', Q (Raise e, s')) ->
  (forall s, I s -> I (snd (m s))) ->
  (forall a s1, I s1 -> Q (k a s1)) ->
  forall s, I s -> Q (bindM m k s).
Proof.
  intros Hraise Hm Hk s Hs. unfold bindM. specialize (Hm s Hs).
  destruct (m s) as [[a | e] s1]; cbn [snd] in Hm.
  - apply Hk. exact Hm.
  - apply Hraise.
Qed.

Lemma keeps_keys_length {A : Type} (m : M A) (n : nat) :
  keeps_keys m ->
  forall s, (n < length (locals s))%nat ->
            (n < length (locals (snd (m s))))%nat.
Proof. intros Hm s Hs. destruct (Hm s) as [Hlen _]. lia. Qed.

Section Norm.

Variable masked : Type.
Variables ma_log10 ma_masked_invalid : list Q -> masked.
Variables ma_min ma_max : masked -> result pyval.
Variables py_min py_max : pyval -> pyval -> result pyval.
Variable pow10 : pyval -> result pyval.
Variable from_list : string -> list pyval -> result pyval.

(** X14: when a variable or an array is given and [parse_params]
    returns, the norm of the returned dict is built from the limits of
    that same dict: [Normalize(vmin, vmax)], or, when [log] is set,
    [LogNorm(10**vmin, 10**vmax)]. A norm given by the caller is
    replaced. *)
Theorem X14_norm_matches_limits (params : pyval)
    (defaults globs : option (dict pyval)) (variable : option variable)
    (array : option (list Q)) (min_val max_val : pyval) (s : store)
    (parsed : ref) :
  let run :=
    parse_params masked ma_log10 ma_masked_invalid ma_min ma_max py_min
      py_max pow10 from_list params defaults globs variable array min_val max_val s in
  variable <> None \/ array <> None ->
  fst run = Ok parsed ->
  exists l v w,
    dict_get (contents (snd run) parsed) "log" = Some l /\
    dict_get (contents (snd run) parsed) "vmin" = Some v /\
    dict_get (contents (snd run) parsed) "vmax" = Some w /\
    if truthy l then
      exists lo hi,
        pow10 v = Ok lo /\ pow10 w = Ok hi /\
        dict_get (contents (snd run) parsed) "norm"
        = Some (PObj "LogNorm" [lo; hi])
    else
      dict_get (contents (snd run) parsed) "norm"
      = Some (PObj "Normalize" [v; w]).
Proof.
  cbv zeta. intros Hgiven.
  set (Q := fun out : result ref * store =>
    forall parsed, fst out = Ok parsed ->
    exists l v w,
      dict_get (contents (snd out) parsed) "log" = Some l /\
      dict_get (contents (snd out) parsed) "vmin" = Some v /\
      dict_get (contents (snd out) parsed) "vmax" = Some w /\
      if truthy l then
        exists lo hi,
          pow10 v = Ok lo /\ pow10 w = Ok hi /\
          dict_get (contents (snd out) parsed) "norm"
          = Some (PObj "LogNorm" [lo; hi])
      else
        dict_get (contents (snd out) parsed) "norm"
        = Some (PObj "Normalize" [v; w])).
  enough (HQ : Q (parse_params masked ma_log10 ma_masked_invalid ma_min ma_max
                    py_min py_max pow10 from_list params defaults globs variable array
                    min_val max_val s)) by (apply HQ).
  assert (Hraise : forall e s', Q (Raise e, s')).
  { intros e s' p H. discriminate. }
  unfold parse_params. unfold bindM at 1. unfold load at 1. cbv beta iota.
  unfold bindM at 1. unfold new_dict at 1. cbv beta iota.
  set (n := length (locals s)).
  set (s0 := mk_store (config_params s) (locals s ++ [config_params s])%list).
  set (I := fun st : store => (n < length (locals st))%nat).
  assert (HI0 : I s0).
  { subst I s0 n. cbn [locals]. rewrite length_app. cbn. lia. }
  assert (Hf := keeps_find_min_max masked ma_log10 ma_masked_invalid ma_min
                  ma_max).
  revert HI0. generalize s0. clear s0.
  do 3 (apply (post_bind I Q);
        [ exact Hraise
        | apply keeps_keys_length; keys
        | intros _; cbv beta ]).
  assert (Hgo : forall K2 : bool -> M ref,
            (forall s2, I s2 -> Q (K2 true s2)) ->
            forall s1, I s1 ->
              Q (bindM (match variable with
                        | Some v =>
                            bindM (_find_min_max masked ma_log10
                                     ma_masked_invalid ma_min ma_max
                                     (v_values v) (Local n))
                                  (fun _ => ret true)
                        | None => ret false
                        end)
                   (fun need_norm =>
                      bindM (match array with
                             | Some a =>
                                 bindM (_find_min_max masked ma_log10
                                          ma_masked_invalid ma_min ma_max
                                          a (Local n))
                                       (fun _ => ret true)
                             | None => ret need_norm
                             end) K2) s1)).
  { intros K2 HK2.
    assert (Harr : forall s2, I s2 ->
              Q (bindM (match array with
                        | Some a =>
                            bindM (_find_min_max masked ma_log10
                                     ma_masked_invalid ma_min ma_max
                                     a (Local n))
                                  (fun _ => ret true)
                        | None => ret true
                        end) K2 s2)).
    { destruct array as [a |].
      - intros s2 HI2. rewrite bindM_assoc. revert s2 HI2.
        apply (post_bind I Q);
          [exact Hraise | apply keeps_keys_length; apply Hf |].
        intros _ s3 HI3. rewrite bindM_ret. apply HK2. exact HI3.
      - intros s2 HI2. rewrite bindM_ret. apply HK2. exact HI2. }
    destruct variable as [v |].
    - intros s1 HI1. rewrite bindM_assoc. revert s1 HI1.
      apply (post_bind I Q);
        [exact Hraise | apply keeps_keys_length; apply Hf |].
      intros _ s2 HI2. rewrite bindM_ret.
      destruct array as [a |]; apply Harr; exact HI2.
    - intros s1 HI1. rewrite bindM_ret.
      destruct array as [a |]; [apply Harr; exact HI1 |].
      destruct Hgiven as [H | H]; contradiction. }
  apply Hgo. clear Hgo. cbv iota.
  intros s2 HI2. rewrite ?bindM_assoc. revert s2 HI2.
  apply (post_bind I Q); [exact Hraise | apply keeps_keys_length; keys |].
  intros _ s2 HI2. cbv beta. rewrite ?bindM_assoc. revert s2 HI2.
  apply (post_bind I Q); [exact Hraise | apply keeps_keys_length; keys |].
  intros _ s2 HI2. cbv beta. rewrite ?bindM_assoc.
  assert (HI2' : (n < length (locals s2))%nat) by exact HI2.
  assert (Hdone : forall (l v w : pyval) (d : dict pyval) (st : store),
            (n < length (locals st))%nat ->
            contents st (Local n) = d ->
            dict_get d "log" = Some l ->
            dict_get d "vmin" = Some v ->
            dict_get d "vmax" = Some w ->
            (if truthy l then
               exists lo hi,
                 pow10 v = Ok lo /\ pow10 w = Ok hi /\
                 dict_get d "norm" = Some (PObj "LogNorm" [lo; hi])
             else dict_get d "norm" = Some (PObj "Normalize" [v; w])) ->
            Q (bindM (getitem (Local n) "color")
                 (fun c =>
                    bindM (if is_none c then ret tt
                           else
                             bindM (getitem (Local n) "color") (fun c1 =>
                             bindM (getitem (Local n) "color") (fun c2 =>
                             bindM (lift (from_list "tmp" [c1; c2]))
                               (fun cmap =>
                                  setitem (Local n) "cmap" cmap))))
                          (fun _ => ret (Local n))) st)).
  { intros l v w d st Hst Hd Hl Hv Hw Hnorm.
    rewrite bindM_getitem, Hd.
    destruct (dict_get d "color") as [c |] eqn:Hc; [| apply Hraise].
    destruct (is_none c).
    - rewrite bindM_ret. unfold ret. intros p Hp. injection Hp as <-.
      cbn [snd]. rewrite Hd. exists l, v, w. auto.
    - rewrite ?bindM_assoc, bindM_getitem, Hd, Hc.
      rewrite ?bindM_assoc, bindM_getitem, Hd, Hc.
      rewrite ?bindM_assoc, bindM_lift.
      destruct (from_list "tmp" [c; c]) as [cmap |]; [| apply Hraise].
      rewrite bindM_setitem_local, Hd. unfold ret.
      intros p Hp. injection Hp as <-. cbn [snd].
      rewrite contents_local_update by exact Hst.
      exists l, v, w.
      rewrite !dict_get_set_other by discriminate. auto. }
  rewrite bindM_getitem.
  destruct (dict_get (contents s2 (Local n)) "log") as [l |] eqn:Hl;
    [| apply Hraise].
  rewrite ?bindM_assoc.
  destruct (truthy l) eqn:Tl.
  - rewrite ?bindM_assoc, bindM_getitem.
    destruct (dict_get (contents s2 (Local n)) "vmin") as [v |] eqn:Hv;
      [| apply Hraise].
    rewrite ?bindM_assoc, bindM_lift.
    destruct (pow10 v) as [lo |] eqn:Hlo; [| apply Hraise].
    rewrite ?bindM_assoc, bindM_getitem.
    destruct (dict_get (contents s2 (Local n)) "vmax") as [w |] eqn:Hw;
      [| apply Hraise].
    rewrite ?bindM_assoc, bindM_lift.
    destruct (pow10 w) as [hi |] eqn:Hhi; [| apply Hraise].
    rewrite ?bindM_assoc, bindM_ret, bindM_setitem_local.
    apply (Hdone l v w
             (dict_set (contents s2 (Local n)) "norm"
                (PObj "LogNorm" [lo; hi])));
      [ cbn [locals]; rewrite length_list_update; exact HI2'
      | apply contents_local_update; exact HI2'
      | rewrite dict_get_set_other by discriminate; exact Hl
      | rewrite dict_get_set_other by discriminate; exact Hv
      | rewrite dict_get_set_other by discriminate; exact Hw
      | rewrite Tl; exists lo, hi; split; [exact Hlo |];
        split; [exact Hhi | apply dict_get_set_same] ].
  - rewrite ?bindM_assoc, bindM_getitem.
    destruct (dict_get (contents s2 (Local n)) "vmin") as [v |] eqn:Hv;
      [| apply Hraise].
    rewrite ?bindM_assoc, bindM_getitem.
    destruct (dict_get (contents s2 (Local n)) "vmax") as [w |] eqn:Hw;
      [| apply Hraise].
    rewrite ?bindM_assoc, bindM_ret, bindM_setitem_local.
    apply (Hdone l v w
             (dict_set (contents s2 (Local n)) "norm"
                (PObj "Normalize" [v; w])));
      [ cbn [locals]; rewrite length_list_update; exact HI2'
      | apply contents_local_update; exact HI2'
      | rewrite dict_get_set_other by discriminate; exact Hl
      | rewrite dict_get_set_other by discriminate; exact Hv
      | rewrite dict_get_set_other by discriminate; exact Hw
      | rewrite Tl; apply dict_get_set_same ].
Qed.

End Norm.

Lemma X14_witness :
  let run :=
    parse_params (list Q) (fun a => a) (fun a => a)
      (fun _ => Ok (PFloat (2 # 1))) (fun _ => Ok (PFloat (3 # 1)))
      (fun a _ => Ok a) (fun a _ => Ok a) (fun v => Ok v)
      (fun name colors => Ok (PObj name colors))
      (PDict [("norm", PStr "mine")]) None None (Some tof_counts) None
      PNone PNone sample_store in
  (Some tof_counts <> None \/ @None (list Q) <> None) /\
  fst run = Ok (Local 1) /\
  dict_get (contents (snd run) (Local 1)) "norm"
  = Some (PObj "Normalize" [PFloat (2 # 1); PFloat (3 # 1)]).
Proof.
  cbv zeta.
  assert (H0 : Some tof_counts <> None \/ @None (list Q) <> None)
    by (left; discriminate).
  assert (H1 : fst (parse_params (list Q) (fun a => a) (fun a => a)
                      (fun _ => Ok (PFloat (2 # 1))) (fun _ => Ok (PFloat (3 # 1)))
                      (fun a _ => Ok a) (fun a _ => Ok a) (fun v => Ok v)
      (fun name colors => Ok (PObj name colors))
                      (PDict [("norm", PStr "mine")]) None None
                      (Some tof_counts) None PNone PNone sample_store)
               = Ok (Local 1)) by (vm_compute; reflexivity).
  split; [exact H0 |]. split; [exact H1 |].
  destruct (X14_norm_matches_limits (list Q) (fun a => a) (fun a => a)
              (fun _ => Ok (PFloat (2 # 1))) (fun _ => Ok (PFloat (3 # 1)))
              (fun a _ => Ok a) (fun a _ => Ok a) (fun v => Ok v)
      (fun name colors => Ok (PObj name colors))
              (PDict [("norm", PStr "mine")]) None None (Some tof_counts) None
              PNone PNone sample_store (Local 1) H0 H1)
    as [l [v [w [Hl [Hv [Hw Hnorm]]]]]].
  vm_compute in Hl. injection Hl as <-.
  vm_compute in Hv. injection Hv as <-.
  vm_compute in Hw. injection Hw as <-.
  exact Hnorm.
Defined.

(** ** plot.py: the exceptions of [plot] *)









(** X17: when the inventory of the input is built, [bins] is not
    empty and at least one entry has dimensions, [plot] never returns:
    it raises in the loop, or else, once the loop is through, the first
    group raises the [NameError] of [histogram_events_data]. *)
Theorem X17_plot_bins_never_returns {K : Type} (dict_obj : plot_input)
    (projection : option string) (axes : option axes_arg)
    (color marker linestyle linewidth : pyval)
    (b : dict pyval) (kwargs : K) (inv : dict data_array) :
  inventory_of dict_obj = Ok inv ->
  (exists name var, In (name, var) inv /\ v_dims (da_data var) <> []) ->
  b <> [] ->
  let run := plot dict_obj projection axes color marker linestyle linewidth
               (Some b) kwargs in
  (run = Raise (NameError "histogram_events_data") \/
   run = Raise IndexError \/
   run = Raise (AttributeError "dims")) /\
  (forall st,
     plot_loop projection axes
       (line_params_of color marker linestyle linewidth)
       (sorted inv)
       {| line_count := -1; tobeplotted := [] |} = Ok st ->
     run = Raise (NameError "histogram_events_data")).
Proof.
  intros Hinv [name [var [Hin Hdims]]] Hb. cbv zeta. unfold plot.
  rewrite Hinv. cbn [bind].
  pose proof (plot_loop_outcome projection axes
                (line_params_of color marker linestyle linewidth)
                (sorted inv)
                (line_params_of_names color marker linestyle linewidth)
                {| line_count := -1; tobeplotted := [] |}
                (Forall_nil _)) as Hloop.
  destruct (plot_loop projection axes
              (line_params_of color marker linestyle linewidth)
              (sorted inv)
              {| line_count := -1; tobeplotted := [] |}) as [st | e0];
    cbn [bind].
  - destruct Hloop as [Hok [Hsome _]].
    assert (Hne : tobeplotted st <> []).
    { apply Hsome. exists (name, var). split.
      - apply sorted_In. exact Hin.
      - apply has_dims_iff. exact Hdims. }
    assert (Hraise : dispatch_all (tobeplotted st) projection (Some b) kwargs []
                     = Raise (NameError "histogram_events_data")).
    { destruct (tobeplotted st) as [| [key g] rest]; [contradiction |].
      inversion Hok as [| ? ? [Hnd [Hda _]] _]; subst. cbn [snd] in Hnd, Hda.
      cbn [dispatch_all]. unfold dispatch.
      destruct (Z.ltb_spec (ndims g) 1) as [Hlt | _]; [lia |].
      destruct b as [| [dim bn] b']; [contradiction |].
      destruct (data_arrays g) as [| [k0 obj] das]; [contradiction |].
      reflexivity. }
    split; [left; exact Hraise |]. intros st' _. exact Hraise.
  - split; [| intros st H; discriminate].
    destruct Hloop as [[-> _] | [-> _]]; auto.
Qed.

Lemma X17_witness :
  inventory_of three_series
  = Ok [ ("img", as_data_array image_xy); ("b", as_data_array tof_counts);
         ("a", as_data_array tof_counts) ] /\
  (exists name var,
     In (name, var) [ ("img", as_data_array image_xy);
                      ("b", as_data_array tof_counts);
                      ("a", as_data_array tof_counts) ] /\
     v_dims (da_data var) <> [])
  /\ [("tof", PInt 10)] <> [] /\
  plot three_series None None PNone PNone PNone PNone
    (Some [("tof", PInt 10)]) tt
  = Raise (NameError "histogram_events_data").
Proof.
  assert (H0 : inventory_of three_series
               = Ok [ ("img", as_data_array image_xy);
                      ("b", as_data_array tof_counts);
                      ("a", as_data_array tof_counts) ]) by reflexivity.
  assert (H : exists name var,
            In (name, var) [ ("img", as_data_array image_xy);
                             ("b", as_data_array tof_counts);
                             ("a", as_data_array tof_counts) ] /\
            v_dims (da_data var) <> []).
  { exists "a", (as_data_array tof_counts). split; [| discriminate].
    right. right. left. reflexivity. }
  split; [exact H0 |]. split; [exact H |]. split; [discriminate |].
  destruct (X17_plot_bins_never_returns three_series None None PNone PNone
              PNone PNone [("tof", PInt 10)] tt _ H0 H ltac:(discriminate))
    as [_ Hst].
  eapply Hst. vm_compute. reflexivity.
Defined.

(** ** plot.py: the order of the dataset *)

Lemma keys_injective {V : Type} (l : list (string * V)) (a b : string * V) :
  NoDup (map fst l) -> In a l -> In b l -> fst a = fst b -> a = b.
Proof.
  intros Hnd Ha Hb Hab. destruct a as [ka va], b as [kb vb]. cbn in Hab.
  subst kb. f_equal.
  pose proof (In_dict_get l ka va Hnd Ha) as H1.
  pose proof (In_dict_get l ka vb Hnd Hb) as H2. congruence.
Qed.

Lemma sorted_unique {V : Type} (l1 : list (string * V)) :
  forall l2,
    StronglySorted (fun a b => String.leb (fst a) (fst b) = true) l1 ->
    StronglySorted (fun a b => String.leb (fst a) (fst b) = true) l2 ->
    Permutation l1 l2 ->
    NoDup (map fst l1) ->
    l1 = l2.
Proof.
  induction l1 as [| x t1 IH]; intros l2 Hs1 Hs2 Hperm Hnd.
  - apply Permutation_nil in Hperm. subst. reflexivity.
  - destruct l2 as [| y t2].
    { symmetry in Hperm. apply Permutation_nil in Hperm. discriminate. }
    inversion Hs1 as [| ? ? Hs1' Hall1]; subst.
    inversion Hs2 as [| ? ? Hs2' Hall2]; subst.
    assert (Hxy : x = y).
    { assert (Hy : In y (x :: t1)).
      { apply (Permutation_in _ (Permutation_sym Hperm)). left. reflexivity. }
      assert (Hx : In x (y :: t2)).
      { apply (Permutation_in _ Hperm). left. reflexivity. }
      destruct Hy as [Hy | Hy]; [exact Hy |].
      destruct Hx as [Hx | Hx]; [symmetry; exact Hx |].
      rewrite Forall_forall in Hall1, Hall2.
      apply (keys_injective (x :: t1)); [exact Hnd | left; reflexivity
                                        | right; exact Hy |].
      apply String.leb_antisym; [apply Hall1; exact Hy | apply Hall2; exact Hx]. }
    subst y. f_equal. apply IH; try assumption.
    + apply Permutation_cons_inv in Hperm. exact Hperm.
    + cbn in Hnd. inversion Hnd. assumption.
Qed.

Lemma sorted_permutation {V : Type} (l l' : list (string * V)) :
  Permutation l l' -> NoDup (map fst l) -> sorted l = sorted l'.
Proof.
  intros Hperm Hnd. apply sorted_unique.
  - apply sorted_ordered.
  - apply sorted_ordered.
  - rewrite sorted_perm, Hperm. symmetry. apply sorted_perm.
  - apply sorted_NoDup. exact Hnd.
Qed.

(** X18: the outcome of [plot] on a dataset does not depend on the order
    in which the dataset holds its entries: two datasets with the same
    entries under distinct names give the same result. *)
Theorem X18_plot_order_independent {K : Type} (items items' : dict data_array)
    (projection : option string) (axes : option axes_arg)
    (color marker linestyle linewidth : pyval)
    (bins : option (dict pyval)) (kwargs : K) :
  Permutation items items' ->
  NoDup (dict_keys items) ->
  plot (DatasetLike items) projection axes color marker linestyle linewidth
    bins kwargs
  = plot (DatasetLike items') projection axes color marker linestyle
      linewidth bins kwargs.
Proof.
  intros Hperm Hnd.
  assert (Hmem : forall k, dict_mem items' k = dict_mem items k).
  { intros k. apply eq_true_iff_eq. rewrite !dict_mem_In. unfold dict_keys.
    split; apply Permutation_in; [symmetry |]; apply Permutation_map;
      exact Hperm. }
  assert (Htests : data_array_keys items' = data_array_keys items /\
                   variable_keys items' = variable_keys items).
  { unfold data_array_keys, variable_keys, issubset. cbn [forallb].
    rewrite !Hmem. split; reflexivity. }
  destruct Htests as [Hda Hvar].
  assert (Hitem : forall k, dict_mem items k = false ->
                            dict_item items k = Raise (KeyError k) /\
                            dict_item items' k = Raise (KeyError k)).
  { intros k Hk. pose proof (Hmem k) as Hk'. rewrite Hk in Hk'.
    unfold dict_mem in Hk, Hk'. unfold dict_item.
    destruct (dict_get items k); [discriminate |].
    destruct (dict_get items' k); [discriminate |]. auto. }
  assert (Hitem' : forall k, dict_mem items k = true ->
                             (exists v, dict_item items k = Ok v) /\
                             (exists v, dict_item items' k = Ok v)).
  { intros k Hk. pose proof (Hmem k) as Hk'. rewrite Hk in Hk'.
    unfold dict_mem in Hk, Hk'. unfold dict_item.
    destruct (dict_get items k); [| discriminate].
    destruct (dict_get items' k); [| discriminate]. eauto. }
  assert (Hinv : forall A (k : dict data_array -> result A),
            k (sorted items) = k (sorted items') ->
            (inv <- inventory_of (DatasetLike items) ;; k (sorted inv)) =
            (inv <- inventory_of (DatasetLike items') ;; k (sorted inv))).
  { intros A k Hk. cbn [inventory_of]. rewrite Hda, Hvar.
    destruct (data_array_keys items).
    - destruct (dict_mem items "name") eqn:En.
      + destruct (Hitem' _ En) as [[v ->] [v' ->]]. reflexivity.
      + destruct (Hitem _ En) as [-> ->]. reflexivity.
    - destruct (variable_keys items).
      + destruct (dict_mem items "dims") eqn:Ed.
        * destruct (Hitem' _ Ed) as [[v ->] [v' ->]]. cbn [bind].
          destruct (dict_mem items "shape") eqn:Es.
          -- destruct (Hitem' _ Es) as [[w ->] [w' ->]]. reflexivity.
          -- destruct (Hitem _ Es) as [-> ->]. reflexivity.
        * destruct (Hitem _ Ed) as [-> ->]. reflexivity.
      + cbn [bind]. exact Hk. }
  unfold plot.
  apply (Hinv _ (fun sorted_inv =>
           st <- plot_loop projection axes
                   (line_params_of color marker linestyle linewidth)
                   sorted_inv {| line_count := -1; tobeplotted := [] |} ;;
           dispatch_all (tobeplotted st) projection bins kwargs [])).
  rewrite (sorted_permutation _ _ Hperm Hnd). reflexivity.
Qed.

Lemma X18_witness :
  Permutation [ ("img", as_data_array image_xy); ("a", as_data_array tof_counts) ]
              [ ("a", as_data_array tof_counts); ("img", as_data_array image_xy) ]
  /\ NoDup (dict_keys [ ("img", as_data_array image_xy);
                        ("a", as_data_array tof_counts) ]) /\
  plot (DatasetLike [ ("img", as_data_array image_xy);
                      ("a", as_data_array tof_counts) ])
    None None PNone PNone PNone PNone None tt
  = plot (DatasetLike [ ("a", as_data_array tof_counts);
                        ("img", as_data_array image_xy) ])
      None None PNone PNone PNone PNone None tt.
Proof.
  assert (Hp : Permutation
                 [ ("img", as_data_array image_xy);
                   ("a", as_data_array tof_counts) ]
                 [ ("a", as_data_array tof_counts);
                   ("img", as_data_array image_xy) ]) by apply perm_swap.
  assert (Hn : NoDup (dict_keys [ ("img", as_data_array image_xy);
                                  ("a", as_data_array tof_counts) ])).
  { cbn. repeat constructor; cbn; intuition discriminate. }
  split; [exact Hp |]. split; [exact Hn |].
  apply (X18_plot_order_independent _ _ None None PNone PNone PNone PNone
           None tt Hp Hn).
Defined.

(** ** plot.py: the coordinates made for a bare variable *)

Lemma fold_dict_set_get {V W : Type} (f : string -> W -> V)
    (l : list (string * W)) :
  NoDup (dict_keys l) ->
  forall (acc : dict V) (k : string),
    dict_get (fold_left (fun c x => dict_set c (fst x) (f (fst x) (snd x)))
                l acc) k
    = match dict_get l k with
      | Some w => Some (f k w)
      | None => dict_get acc k
      end.
Proof.
  induction l as [| [k0 w0] l IH]; intros Hnd acc k; [reflexivity |].
  cbn [fold_left fst snd]. unfold dict_keys in Hnd. cbn [map fst] in Hnd.
  inversion Hnd as [| ? ? Hnotin Hnd']; subst.
  rewrite (IH Hnd'). cbn [dict_get].
  destruct (String.eqb_spec k k0) as [Heq | Hne].
  - subst k0. rewrite (proj2 (dict_get_None_notin l k) Hnotin).
    apply dict_get_set_same.
  - destruct (dict_get l k); [reflexivity |].
    apply dict_get_set_other. exact Hne.
Qed.

Lemma combine_nth_In {A B : Type} (l : list A) :
  forall (l' : list B) (i : nat) (a : A) (b : B),
    nth_error l i = Some a -> nth_error l' i = Some b ->
    In (a, b) (combine l l').
Proof.
  induction l as [| x l IH]; intros l' i a b Ha Hb.
  - destruct i; discriminate.
  - destruct l' as [| y l']; [destruct i; discriminate |].
    destruct i as [| i]; cbn in Ha, Hb.
    + injection Ha as <-. injection Hb as <-. left. reflexivity.
    + right. exact (IH l' i a b Ha Hb).
Qed.

Lemma NoDup_keys_combine {B : Type} (l : list string) :
  NoDup l -> forall l' : list B, NoDup (dict_keys (combine l l')).
Proof.
  unfold dict_keys. induction 1 as [| x l Hnotin Hnd IH]; intros l';
    [constructor |].
  destruct l' as [| y l']; [constructor |]. cbn [combine map fst].
  constructor; [| apply IH].
  intros Hin. apply Hnotin. apply in_map_iff in Hin.
  destruct Hin as [[a b] [Heq Hin]]. cbn in Heq. subst a.
  exact (in_combine_l _ _ _ _ Hin).
Qed.

Lemma arange_nth (size : Z) (k : nat) :
  (k < Z.to_nat size)%nat ->
  nth_error (arange size) k = Some (inject_Z (Z.of_nat k)).
Proof.
  intros Hk. unfold arange. rewrite nth_error_map.
  rewrite nth_error_seq. apply Nat.ltb_lt in Hk as ->. reflexivity.
Qed.

(** X19: a Variable-like input with distinct dimensions becomes the one
    inventory entry ["variable"], whose data is the input; every dimension
    that has a size gets a coordinate over that dimension alone, with the
    values 0, 1, ..., size - 1 (none for a size that is not positive), no
    variances and no unit, and a dimension without a size gets none. *)
Theorem X19_variable_gets_index_coords (v : variable) :
  NoDup (v_dims v) ->
  exists da,
    inventory_of (VariableLike v) = Ok [("variable", da)] /\
    da_data da = v /\
    (forall i d size,
       nth_error (v_dims v) i = Some d ->
       nth_error (v_shape v) i = Some size ->
       exists c,
         dict_get (da_coords da) d = Some c /\
         v_dims c = [d] /\ v_shape c = [size] /\
         v_variances c = None /\ v_unit c = None /\
         length (v_values c) = Z.to_nat size /\
         forall k, (k < Z.to_nat size)%nat ->
                   nth_error (v_values c) k = Some (inject_Z (Z.of_nat k))) /\
    (forall i d,
       nth_error (v_dims v) i = Some d ->
       nth_error (v_shape v) i = None ->
       dict_get (da_coords da) d = None).
Proof.
  intros Hnd. unfold inventory_of. cbn [dict_set]. eexists.
  split; [reflexivity |]. cbn [da_data da_coords].
  split; [reflexivity |].
  pose proof (NoDup_keys_combine (v_dims v) Hnd (v_shape v)) as Hk.
  split.
  - intros i d size Hd Hs.
    exists (make_fake_coord d size None).
    rewrite (fold_dict_set_get (fun d s => make_fake_coord d s None) _ Hk).
    rewrite (In_dict_get _ d size Hk (combine_nth_In _ _ i d size Hd Hs)).
    cbn [make_fake_coord v_dims v_shape v_variances v_unit v_values].
    repeat (split; [reflexivity |]). split.
    + unfold arange. rewrite length_map, length_seq. reflexivity.
    + apply arange_nth.
  - intros i d Hd Hs.
    rewrite (fold_dict_set_get (fun d s => make_fake_coord d s None) _ Hk).
    rewrite (proj2 (dict_get_None_notin (combine (v_dims v) (v_shape v)) d));
      [reflexivity |].
    intros Hin. unfold dict_keys in Hin. apply in_map_iff in Hin.
    destruct Hin as [[a b] [Heq Hin]]. cbn in Heq. subst a.
    apply In_nth_error in Hin. destruct Hin as [j Hj].
    assert (Hjl : (j < length (combine (v_dims v) (v_shape v)))%nat).
    { apply nth_error_Some. rewrite Hj. discriminate. }
    rewrite length_combine in Hjl.
    assert (Hdj : nth_error (v_dims v) j = Some d).
    { clear - Hj. revert j Hj. generalize (v_shape v) as sh.
      induction (v_dims v) as [| x l IH]; intros sh j Hj;
        [destruct j; discriminate |].
      destruct sh as [| y sh]; [destruct j; discriminate |].
      destruct j as [| j]; cbn in Hj |- *.
      - injection Hj as -> _. reflexivity.
      - exact (IH sh j Hj). }
    assert (Hij : i = j).
    { apply (proj1 (NoDup_nth_error (v_dims v)) Hnd).
      - apply nth_error_Some. rewrite Hd. discriminate.
      - rewrite Hd, Hdj. reflexivity. }
    subst j. apply nth_error_None in Hs. lia.
Qed.

Lemma X19_witness :
  NoDup (v_dims image_xy) /\
  exists da,
    inventory_of (VariableLike image_xy) = Ok [("variable", da)] /\
    exists c,
      dict_get (da_coords da) "x" = Some c /\
      v_values c = [0 # 1; 1 # 1]%Q.
Proof.
  assert (H : NoDup (v_dims image_xy)).
  { cbn. repeat constructor; cbn; intuition discriminate. }
  split; [exact H |].
  destruct (X19_variable_gets_index_coords image_xy H)
    as [da [Hinv [_ [Hc _]]]].
  exists da. split; [exact Hinv |].
  destruct (Hc 1%nat "x" 2 eq_refl eq_refl) as [c [Hget [_ [_ [_ [_ [_ _]]]]]]].
  exists c. split; [exact Hget |].
  vm_compute in Hinv. injection Hinv as <-.
  vm_compute in Hget. injection Hget as <-. reflexivity.
Defined.

(** ** tools.py: axis labels *)

Lemma append_nil_r (s : string) : s ++ "" = s.
Proof. induction s as [| c s IH]; cbn; [reflexivity | rewrite IH; reflexivity]. Qed.

(** X20: [name_with_unit] fails only when it has to read the last
    dimension of a variable without dimensions, that is with no name and
    such a variable, and then with [IndexError]. Otherwise the label is
    the name, or else the last dimension, or else empty; wrapped in the
    logarithm sign when [log] is set; and followed by the unit of the
    variable in square brackets when a variable is given, an absent unit
    reading [None]. A name given makes the dimensions irrelevant. *)
Theorem X20_name_with_unit_label (var : option variable)
    (name : option string) (log : bool) :
  (name_with_unit var name log = Raise IndexError <->
   name = None /\ exists v, var = Some v /\ v_dims v = []) /\
  (forall e, name_with_unit var name log = Raise e -> e = IndexError) /\
  (forall base,
     match name, var with
     | Some n, _ => base = n
     | None, Some v => v_dims v <> [] /\ base = last (v_dims v) ""
     | None, None => base = ""
     end ->
     name_with_unit var name log
     = Ok ((if log then "log" ++ subscript_10 ++ "(" ++ base ++ ")" else base)
           ++ match var with
              | Some v => " [" ++ str_opt (v_unit v) ++ "]"
              | None => ""
              end)).
Proof.
  unfold name_with_unit.
  destruct name as [n |].
  - cbn [bind]. split; [| split].
    + split; [discriminate | intros [H _]; discriminate].
    + intros e H. discriminate.
    + intros base ->. destruct var; [reflexivity |].
      rewrite append_nil_r. reflexivity.
  - destruct var as [v |].
    + destruct (v_dims v) as [| a l] eqn:Ed.
      * change (list_item (@nil string) (-1)) with (@Raise string IndexError).
        cbn [bind]. split; [| split].
        -- split; [intros _; split; [reflexivity | exists v; auto] | reflexivity].
        -- intros e H. injection H as <-. reflexivity.
        -- intros base [H _]. contradiction.
      * rewrite (list_item_minus1 (a :: l) "") by discriminate. cbn [bind].
        split; [| split].
        -- split; [discriminate |].
           intros [_ [v' [Hv Hd]]]. injection Hv as <-. congruence.
        -- intros e H. discriminate.
        -- intros base [_ ->]. reflexivity.
    + cbn [bind]. split; [| split].
      * split; [discriminate | intros [_ [v [H _]]]; discriminate].
      * intros e H. discriminate.
      * intros base ->. rewrite append_nil_r. reflexivity.
Qed.

Lemma X20_witness :
  (v_dims image_xy <> [] /\ "x" = last (v_dims image_xy) "") /\
  name_with_unit (Some image_xy) None false = Ok "x [counts]".
Proof.
  assert (H : v_dims image_xy <> [] /\ "x" = last (v_dims image_xy) "")
    by (split; [discriminate | reflexivity]).
  split; [exact H |].
  apply (proj2 (proj2 (X20_name_with_unit_label (Some image_xy) None false))
           "x" H).
Defined.

(** ** plot.py: a dataset whose names are the keys of a data array *)

(** X21: [plot] tells its three kinds of input apart by their keys, and
    the keys of a dict of data arrays are the names of its entries. With
    an entry named coords and one named data or unaligned the dict is
    taken for a data array and [plot] raises: [KeyError] on name when no
    entry has that name, [TypeError] otherwise, since a dict cannot be the
    key of the inventory. Failing that, with an entry named dims and one
    named values or shape it is taken for a variable and [plot] raises
    too, with [KeyError] on shape when no entry has that name. In every
    other case the inventory is the dict itself. The other arguments
    play no part. *)
Theorem X21_dataset_names_as_keys {K : Type} (items : dict data_array)
    (projection : option string) (axes : option axes_arg)
    (color marker linestyle linewidth : pyval)
    (bins : option (dict pyval)) (kwargs : K) :
  let run := plot (DatasetLike items) projection axes color marker linestyle
               linewidth bins kwargs in
  let has (k : string) : bool := dict_mem items k in
  let first_test := has "coords" && (has "data" || has "unaligned") in
  let second_test := has "dims" && (has "values" || has "shape") in
  (first_test = true ->
   run = Raise (if has "name" then TypeError else KeyError "name")) /\
  (first_test = false -> second_test = true ->
   (exists e, run = Raise e) /\
   (has "shape" = false -> run = Raise (KeyError "shape"))) /\
  (first_test = false -> second_test = false ->
   inventory_of (DatasetLike items) = Ok items).
Proof.
  cbv zeta. unfold plot. cbn [inventory_of].
  unfold data_array_keys, variable_keys, issubset. cbn [forallb].
  rewrite !andb_true_r.
  assert (Hda : dict_mem items "coords" && dict_mem items "data"
                || dict_mem items "coords" && dict_mem items "unaligned"
                = dict_mem items "coords"
                  && (dict_mem items "data" || dict_mem items "unaligned"))
    by (destruct (dict_mem items "coords"), (dict_mem items "data");
        reflexivity).
  assert (Hvar : dict_mem items "dims" && dict_mem items "values"
                 || dict_mem items "dims" && dict_mem items "shape"
                 = dict_mem items "dims"
                   && (dict_mem items "values" || dict_mem items "shape"))
    by (destruct (dict_mem items "dims"), (dict_mem items "values");
        reflexivity).
  rewrite Hda, Hvar.
  split; [| split].
  - intros ->. unfold dict_item, dict_mem.
    destruct (dict_get items "name"); reflexivity.
  - intros -> Hv. rewrite Hv. apply andb_true_iff in Hv.
    destruct Hv as [Hdims _]. unfold dict_item, dict_mem in *.
    destruct (dict_get items "dims"); [| discriminate Hdims]. cbn [bind].
    destruct (dict_get items "shape"); cbn [bind].
    + split; [eexists; reflexivity | intros H; discriminate H].
    + split; [eexists; reflexivity | reflexivity].
  - intros -> ->. reflexivity.
Qed.

Lemma X21_witness :
  dict_mem [ ("coords", as_data_array tof_counts);
             ("data", as_data_array scalar_k) ] "coords"
  && (dict_mem [ ("coords", as_data_array tof_counts);
                 ("data", as_data_array scalar_k) ] "data"
      || dict_mem [ ("coords", as_data_array tof_counts);
                    ("data", as_data_array scalar_k) ] "unaligned") = true /\
  plot (DatasetLike [ ("coords", as_data_array tof_counts);
                      ("data", as_data_array scalar_k) ])
    None None PNone PNone PNone PNone None tt
  = Raise (KeyError "name") /\
  exists out,
    plot (DatasetLike [ ("coords", as_data_array tof_counts) ])
      None None PNone PNone PNone PNone None tt
    = Ok out /\
    dict_keys out = ["tof.counts"].
Proof.
  split; [reflexivity |]. split.
  - apply (proj1 (X21_dataset_names_as_keys
                    [ ("coords", as_data_array tof_counts);
                      ("data", as_data_array scalar_k) ]
                    None None PNone PNone PNone PNone None tt)).
    reflexivity.
  - eexists. split; [vm_compute; reflexivity | reflexivity].
Defined.
